(** * sentry.search.django.backend

    A shallow embedding of [DjangoSearchBackend] and
    [EnvironmentDjangoSearchBackend] from
    [src/sentry/search/django/backend.py].

    - Django querysets are modelled by the list of rows they denote; every
      [filter]/[exclude]/[extra(where=...)] is a [List.filter] over that list.
    - Python keyword arguments are an association list of Python values.
    - Effects are a small state and exception monad: the state is the trace
      of storage interactions and the caller's [tags] dictionary (the object
      the caller passed by reference, so mutations through [tags.pop] are
      visible to the caller); exceptions are Python exceptions plus the
      early [return] of a function body.
    - Timestamps are whole seconds since the epoch. *)

From Stdlib Require Import ZArith List String Ascii Bool Reals Lia Lra.
From Stdlib Require Import Permutation Sorting.Sorted.
Import ListNotations.
Open Scope string_scope.
Open Scope Z_scope.

(** ** Python values *)

(** The values that reach the search backends as keyword arguments.
    [VObj pk] is a model instance (a user, a release) identified by its
    primary key; [VEmpty] and [VAny] are the [EMPTY] and [ANY] sentinels of
    [sentry.search.base], plain [object()] instances. *)
Inductive pyval :=
| VNone
| VBool (b : bool)
| VInt (z : Z)
| VStr (s : string)
| VDate (t : Z)
| VObj (pk : Z)
| VEmpty
| VAny.

(** Python truthiness. *)
Definition truthy (v : pyval) : bool :=
  match v with
  | VNone => false
  | VBool b => b
  | VInt z => negb (z =? 0)
  | VStr s => negb (String.eqb s "")
  | VDate _ | VObj _ | VEmpty | VAny => true
  end.

(** [is None] *)
Definition is_none (v : pyval) : bool :=
  match v with VNone => true | _ => false end.

(** [is EMPTY] *)
Definition is_EMPTY (v : pyval) : bool :=
  match v with VEmpty => true | _ => false end.

(** [is ANY] *)
Definition is_ANY (v : pyval) : bool :=
  match v with VAny => true | _ => false end.

(** Python [==] on these values ([True == 1], [False == 0]). *)
Definition py_eqb (a b : pyval) : bool :=
  match a, b with
  | VNone, VNone => true
  | VBool x, VBool y => Bool.eqb x y
  | VBool x, VInt z | VInt z, VBool x => z =? (if x then 1 else 0)
  | VInt x, VInt y => x =? y
  | VStr x, VStr y => String.eqb x y
  | VDate x, VDate y => x =? y
  | VObj x, VObj y => x =? y
  | VEmpty, VEmpty => true
  | VAny, VAny => true
  | _, _ => false
  end.

(** The primary key a value stands for when it is compared with a foreign
    key column ([user=<User>] or [user=<id>]). *)
Definition pk_of (v : pyval) : option Z :=
  match v with VObj pk => Some pk | VInt z => Some z | _ => None end.

(** A dictionary with string keys (the keyword arguments, the [tags]
    mapping): an association list whose first binding wins. *)
Definition dict := list (string * pyval).

Fixpoint dict_get (k : string) (d : dict) : option pyval :=
  match d with
  | [] => None
  | (k', v) :: d' => if String.eqb k k' then Some v else dict_get k d'
  end.

Definition has_key (k : string) (d : dict) : bool :=
  match dict_get k d with Some _ => true | None => false end.

(** [d.get(k, default)] *)
Definition dict_get_default (k : string) (d : dict) (default : pyval) : pyval :=
  match dict_get k d with Some v => v | None => default end.

(** The dictionary left after [del d[k]] / [d.pop(k)]. *)
Definition dict_remove (k : string) (d : dict) : dict :=
  filter (fun '(k', _) => negb (String.eqb k k')) d.

(** The [tags] mapping: tag key to a tag value or [ANY]. *)
Definition tagmap := dict.

(** ** Strings: case-insensitive containment ([__icontains]) *)

Definition lower_ascii (c : ascii) : ascii :=
  let n := nat_of_ascii c in
  if andb (Nat.leb 65 n) (Nat.leb n 90) then ascii_of_nat (n + 32) else c.

Fixpoint lower (s : string) : string :=
  match s with
  | EmptyString => EmptyString
  | String c s' => String (lower_ascii c) (lower s')
  end.

Definition icontains (haystack needle : string) : bool :=
  match String.index 0 (lower needle) (lower haystack) with
  | Some _ => true
  | None => false
  end.

(** ** Django lookups

    [queryset.filter(field__lookup=value)]: the keyword is split at
    its first [__]; a keyword without one is an [exact] lookup. *)

Fixpoint split_lookup (s : string) : string * string :=
  match s with
  | EmptyString => (EmptyString, "exact")
  | String "_" (String "_" rest) => (EmptyString, rest)
  | String c rest => let (f, l) := split_lookup rest in (String c f, l)
  end.

(** The lookups the backends use, on a stored value [x] and the query value
    [v]; ordering lookups compare dates with dates and integers with
    integers. *)
Definition num_pair (x v : pyval) : option (Z * Z) :=
  match x, v with
  | VDate a, VDate b => Some (a, b)
  | VInt a, VInt b => Some (a, b)
  | _, _ => None
  end.

Definition lookup_holds (lookup : string) (x v : pyval) : bool :=
  if String.eqb lookup "exact" then py_eqb x v
  else if String.eqb lookup "gt" then
    match num_pair x v with Some (a, b) => b <? a | None => false end
  else if String.eqb lookup "gte" then
    match num_pair x v with Some (a, b) => b <=? a | None => false end
  else if String.eqb lookup "lt" then
    match num_pair x v with Some (a, b) => a <? b | None => false end
  else if String.eqb lookup "lte" then
    match num_pair x v with Some (a, b) => a <=? b | None => false end
  else if String.eqb lookup "icontains" then
    match x, v with VStr a, VStr b => icontains a b | _, _ => false end
  else false.

(** A Django model: the value of each named column of a row. *)
Class Model (R : Type) := field_value : R -> string -> option pyval.

Definition row_matches {R} `{Model R} (r : R) (kw : string) (v : pyval) : bool :=
  let (field, lookup) := split_lookup kw in
  match field_value r field with
  | Some x => lookup_holds lookup x v
  | None => false
  end.

(** [queryset.filter(...)] with the keyword arguments [params]. *)
Definition filter_kw {R} `{Model R} (params : dict) (qs : list R) : list R :=
  filter (fun r => forallb (fun '(k, v) => row_matches r k v) params) qs.

(** ** Rows *)

Record Project := mkProject { project_id : Z; organization_id : Z }.

(** [sentry.models.GroupStatus] *)
Definition UNRESOLVED : Z := 0.
Definition RESOLVED : Z := 1.
Definition IGNORED : Z := 2.
Definition PENDING_DELETION : Z := 3.
Definition DELETION_IN_PROGRESS : Z := 4.
Definition PENDING_MERGE : Z := 5.

Record Group := mkGroup {
  group_id : Z;
  group_project : Z;
  status : Z;
  message : string;
  culprit : string;
  first_seen : Z;
  last_seen : Z;
  active_at : Z;
  times_seen : Z;
  group_first_release : option Z }.

Record Release := mkRelease { release_id : Z; release_org : Z; version : string }.

Record GroupBookmark := mkGroupBookmark { bm_group : Z; bm_project : Z; bm_user : Z }.
Record GroupAssignee := mkGroupAssignee { as_group : Z; as_project : Z; as_user : Z }.
Record GroupSubscription := mkGroupSubscription {
  sub_group : Z; sub_project : Z; sub_user : Z; sub_is_active : bool }.

Record Event := mkEvent {
  ev_group_id : Z; ev_project_id : Z; ev_datetime : Z; ev_message : string }.

Record Environment := mkEnvironment { env_id : Z; env_name : string; env_projects : list Z }.

Record GroupEnvironment := mkGroupEnvironment {
  ge_group_id : Z; ge_environment_id : Z; ge_first_release_id : option Z }.

Record GroupTagValue := mkGroupTagValue {
  gtv_project_id : Z; gtv_group_id : Z; gtv_key : string; gtv_value : string;
  gtv_first_seen : Z; gtv_last_seen : Z; gtv_times_seen : Z }.

Record GroupTagKey := mkGroupTagKey { gtk_group_id : Z; gtk_key : string }.

(** The database: one list per table, in storage order. *)
Record DB := mkDB {
  groups : list Group;
  releases : list Release;
  bookmarks : list GroupBookmark;
  assignees : list GroupAssignee;
  subscriptions : list GroupSubscription;
  events : list Event;
  environments : list Environment;
  group_environments : list GroupEnvironment;
  group_tag_values : list GroupTagValue;
  group_tag_keys : list GroupTagKey }.

#[export] Instance Group_model : Model Group := fun g f =>
  if String.eqb f "id" then Some (VInt (group_id g))
  else if String.eqb f "status" then Some (VInt (status g))
  else if String.eqb f "message" then Some (VStr (message g))
  else if String.eqb f "culprit" then Some (VStr (culprit g))
  else if String.eqb f "first_seen" then Some (VDate (first_seen g))
  else if String.eqb f "last_seen" then Some (VDate (last_seen g))
  else if String.eqb f "active_at" then Some (VDate (active_at g))
  else if String.eqb f "times_seen" then Some (VInt (times_seen g))
  else None.

#[export] Instance Event_model : Model Event := fun e f =>
  if String.eqb f "group_id" then Some (VInt (ev_group_id e))
  else if String.eqb f "project_id" then Some (VInt (ev_project_id e))
  else if String.eqb f "datetime" then Some (VDate (ev_datetime e))
  else if String.eqb f "message" then Some (VStr (ev_message e))
  else None.

#[export] Instance GroupTagValue_model : Model GroupTagValue := fun t f =>
  if String.eqb f "project_id" then Some (VInt (gtv_project_id t))
  else if String.eqb f "group_id" then Some (VInt (gtv_group_id t))
  else if String.eqb f "key" then Some (VStr (gtv_key t))
  else if String.eqb f "value" then Some (VStr (gtv_value t))
  else if String.eqb f "first_seen" then Some (VDate (gtv_first_seen t))
  else if String.eqb f "last_seen" then Some (VDate (gtv_last_seen t))
  else if String.eqb f "times_seen" then Some (VInt (gtv_times_seen t))
  else None.

(** A [Group] joined with its [GroupEnvironment] row ([extra(tables=...)])
    exposes the group's columns. *)
#[export] Instance GroupEnv_model : Model (Group * GroupEnvironment) :=
  fun '(g, _) f => Group_model g f.

(** ** Effects *)

(** What the trace records: a filter added to the query plan, a call to the
    tag store adapter, and the queries of the environment path on the tag
    tables. *)
Inductive op :=
| Filtered (name : string)
| TagstoreSearch (project : Z) (environment : option Z) (tags : tagmap)
| TagValueQuery (key : string) (value : pyval)
| TagKeyQuery (key : string).

(** Python exceptions. *)
Inductive err :=
| AssertionError
| KeyError (k : string)
| TypeError
| DoesNotExist
| MultipleObjectsReturned.

(** Abrupt completion: an exception, or an early [return] of the
    function body with its (empty) queryset. *)
Inductive exc :=
| Raise (e : err)
| Return (rows : list Group).

(** The state: the trace so far and the caller's [tags] dictionary
    ([None] when the caller passed [tags=None]). *)
Record store := mkStore { trace : list op; caller_tags : option tagmap }.

Definition M (A : Type) := store -> (exc + A) * store.

Definition ret {A} (a : A) : M A := fun s => (inr a, s).

Definition bind {A B} (m : M A) (k : A -> M B) : M B := fun s =>
  match m s with
  | (inl e, s') => (inl e, s')
  | (inr a, s') => k a s'
  end.

Notation "x <- m ;; k" := (bind m (fun x => k))
  (at level 61, m at next level, right associativity).

Definition raise {A} (e : err) : M A := fun s => (inl (Raise e), s).

(** [return value] from inside the function body. *)
Definition early_return {A} (rows : list Group) : M A := fun s => (inl (Return rows), s).

(** A function body: its early [return] becomes its result. *)
Definition function_body (m : M (list Group)) : M (list Group) := fun s =>
  match m s with
  | (inl (Return rows), s') => (inr rows, s')
  | r => r
  end.

Definition emit (o : op) : M unit := fun s =>
  (inr tt, mkStore (trace s ++ [o]) (caller_tags s)).

(** [assert cond] *)
Definition assert (b : bool) : M unit :=
  if b then ret tt else raise AssertionError.

(** Reading and mutating the caller's [tags] dictionary. *)
Definition get_tags : M (option tagmap) := fun s => (inr (caller_tags s), s).

(** [tags.pop(key)] *)
Definition tags_pop (key : string) : M pyval := fun s =>
  match caller_tags s with
  | None => (inl (Raise TypeError), s)
  | Some d =>
      match dict_get key d with
      | None => (inl (Raise (KeyError key)), s)
      | Some v => (inr v, mkStore (trace s) (Some (dict_remove key d)))
      end
  end.

(** ** [condition], [scalar_condition], [QueryBuilder] *)

(** A filter callback: the queryset, the parameter's value and the values
    of its extra parameters. *)
Definition handler (R : Type) := list R -> pyval -> list pyval -> list R.

(** [QueryBuilder.handlers]: parameter name to (callback, extra parameter
    names), in the order the dictionary literal lists them. *)
Definition registry (R : Type) := list (string * (handler R * list string)).

Definition condition {R} (callback : handler R) (fields : list string)
  : handler R * list string := (callback, fields).

Definition scalar_condition {R} `{Model R} (parameter field operator : string)
  : handler R * list string :=
  condition
    (fun queryset value extras =>
       match extras with
       | [inclusive] =>
           filter_kw
             [(field ++ "__" ++ operator ++ (if truthy inclusive then "e" else ""), value)]
             queryset
       | _ => queryset
       end)
    [parameter ++ "_inclusive"].

(** [[parameters[name] for name in extra_parameters]] *)
Fixpoint extra_values (names : list string) (parameters : dict) : M (list pyval) :=
  match names with
  | [] => ret []
  | name :: names' =>
      match dict_get name parameters with
      | None => raise (KeyError name)
      | Some v => vs <- extra_values names' parameters ;; ret (v :: vs)
      end
  end.

(** [QueryBuilder.build]. The handlers are visited in the order of the
    list; a parameter missing from [parameters] (the [undefined] sentinel of
    [parameters.get(parameter, undefined)]) skips its handler. *)
Fixpoint build {R} (handlers : registry R) (queryset : list R) (parameters : dict)
  : M (list R) :=
  match handlers with
  | [] => ret queryset
  | (parameter, (h, extra_parameters)) :: rest =>
      match dict_get parameter parameters with
      | None => build rest queryset parameters
      | Some value =>
          extras <- extra_values extra_parameters parameters ;;
          _ <- emit (Filtered parameter) ;;
          build rest (h queryset value extras) parameters
      end
  end.

(** ** Ranking *)

(** PostgreSQL's [log] is the base-10 logarithm. *)
Definition pg_log (x : R) : R := (ln x / ln 10)%R.

(** Python's [int] on a float: truncation towards zero. *)
Definition py_int (r : R) : Z :=
  if Rle_dec 0 r then Int_part r else - Int_part (- r).

(** [sort_strategies]: the SQL sort expression, evaluated on the
    [GroupTagValue] row it is selected from, and [value_to_cursor_score].
    [to_timestamp(score) * 1000] is the score in milliseconds. *)
Definition sort_strategies (sort_by : string)
  : option ((GroupTagValue -> R) * (R -> Z)) :=
  if String.eqb sort_by "priority" then
    Some ((fun t => pg_log (IZR (gtv_times_seen t)) * 600 + IZR (gtv_last_seen t))%R,
          py_int)
  else if String.eqb sort_by "date" then
    Some ((fun t => IZR (gtv_last_seen t)), (fun score => py_int (score * 1000)%R))
  else if String.eqb sort_by "new" then
    Some ((fun t => IZR (gtv_first_seen t)), (fun score => py_int (score * 1000)%R))
  else if String.eqb sort_by "freq" then
    Some ((fun t => IZR (gtv_times_seen t)), py_int)
  else None.

(** Modelled from the spec: [SequencePaginator] of [sentry.api.paginator]
    (not part of this source). "Given an in-memory sequence of (score, id)
    pairs, sorts descending by score (ties broken by id for determinism),
    then applies the offset/cursor": the pairs are sorted descending as
    Python's [sorted(data, reverse=True)] orders tuples, the cursor is the
    offset of the page, and the page holds the ids. *)
Definition lex_gtb (a b : Z * Z) : bool :=
  (fst b <? fst a) || ((fst a =? fst b) && (snd b <? snd a)).

Fixpoint insert_desc (x : Z * Z) (l : list (Z * Z)) : list (Z * Z) :=
  match l with
  | [] => [x]
  | y :: l' => if lex_gtb x y then x :: l else y :: insert_desc x l'
  end.

Fixpoint sort_desc (l : list (Z * Z)) : list (Z * Z) :=
  match l with
  | [] => []
  | x :: l' => insert_desc x (sort_desc l')
  end.

Definition SequencePaginator_get_result (data : list (Z * Z)) (limit offset : nat)
  : list Z :=
  map snd (firstn limit (skipn offset (sort_desc data))).

(** ** Dictionaries keyed by issue id ([candidates]) *)

Definition memZ (x : Z) (l : list Z) : bool := existsb (Z.eqb x) l.

Fixpoint zdict_set {A} (k : Z) (v : A) (d : list (Z * A)) : list (Z * A) :=
  match d with
  | [] => [(k, v)]
  | (k', v') :: d' => if k =? k' then (k, v) :: d' else (k', v') :: zdict_set k v d'
  end.

(** [dict(pairs)] *)
Definition zdict_of_pairs {A} (ps : list (Z * A)) : list (Z * A) :=
  fold_left (fun d '(k, v) => zdict_set k v d) ps [].

(** [del d[k]] *)
Definition zdict_del {A} (d : list (Z * A)) (k : Z) : list (Z * A) :=
  filter (fun '(k', _) => negb (k =? k')) d.

(** [values_list(...).distinct()]: first occurrences, in order. *)
Definition distinct (l : list Z) : list Z :=
  rev (fold_left (fun acc x => if memZ x acc then acc else x :: acc) l []).

(** The keyword arguments of a search call. [tags] is not among them: it is
    the caller's dictionary, held in the store. [cursor] is the page's
    offset. *)
Record call := mkCall {
  sort_by : string;
  environment_id : option Z;
  cursor : nat;
  limit : nat;
  kwargs : dict }.

(** ** The backends *)

(** Kleisli composition of two queryset stages. *)
Definition then_ {A B C} (f : A -> M B) (g : B -> M C) : A -> M C :=
  fun a => b <- f a ;; g b.

Infix ">=>" := then_ (at level 50, left associativity).


Section Backend.

(** [tagstore.get_group_ids_for_search_filter(project_id, environment_id,
    tags)], the tag store adapter: an external collaborator. *)
Variable get_group_ids_for_search_filter : Z -> option Z -> tagmap -> list Z.
Variable db : DB.
Variable project : Project.

Definition in_project (g : Group) : bool := group_project g =? project_id project.

(** [status__in=(PENDING_DELETION, DELETION_IN_PROGRESS, PENDING_MERGE)] *)
Definition hidden_status (g : Group) : bool :=
  existsb (Z.eqb (status g)) [PENDING_DELETION; DELETION_IN_PROGRESS; PENDING_MERGE].

(** [Q(message__icontains=query) | Q(culprit__icontains=query)] *)
Definition query_pred (query : pyval) (g : Group) : bool :=
  row_matches g "message__icontains" query || row_matches g "culprit__icontains" query.

(** [bookmark_set__project=project, bookmark_set__user=user] *)
Definition bookmarked_by_pred (user : pyval) (g : Group) : bool :=
  existsb (fun b => (bm_group b =? group_id g) && (bm_project b =? project_id project)
                    && match pk_of user with Some u => bm_user b =? u | None => false end)
          (bookmarks db).

(** [assignee_set__project=project, assignee_set__user=user] *)
Definition assigned_to_pred (user : pyval) (g : Group) : bool :=
  existsb (fun a => (as_group a =? group_id g) && (as_project a =? project_id project)
                    && match pk_of user with Some u => as_user a =? u | None => false end)
          (assignees db).

(** [assignee_set__isnull=unassigned] *)
Definition assignee_isnull_pred (unassigned : pyval) (g : Group) : bool :=
  let has_assignee := existsb (fun a => as_group a =? group_id g) (assignees db) in
  if truthy unassigned then negb has_assignee else has_assignee.

(** [id__in=GroupSubscription.objects.filter(project=project, user=user,
    is_active=True).values_list('group')] *)
Definition subscribed_by_pred (user : pyval) (g : Group) : bool :=
  existsb (fun s => (sub_group s =? group_id g) && (sub_project s =? project_id project)
                    && match pk_of user with Some u => sub_user s =? u | None => false end
                    && sub_is_active s)
          (subscriptions db).

(** A release of the project's organization with the given version. *)
Definition release_pred (release : option Z) (version_value : pyval) : bool :=
  match release with
  | None => false
  | Some rid =>
      existsb (fun r => (release_id r =? rid) && (release_org r =? organization_id project)
                        && py_eqb (VStr (version r)) version_value)
              (releases db)
  end.

(** [first_release__organization_id=..., first_release__version=version] *)
Definition first_release_pred (version_value : pyval) (g : Group) : bool :=
  release_pred (group_first_release g) version_value.

(** [id__in=ids] *)
Definition id_in (ids : list Z) (g : Group) : bool := memZ (group_id g) ids.

(** *** [DjangoSearchBackend._build_queryset], block by block *)

Definition arg (kw : dict) (name : string) (default : pyval) : pyval :=
  dict_get_default name kw default.

(** The parameters of a scalar range: [field__gte] or [field__gt] for the
    lower bound, [field__lte] or [field__lt] for the upper one, each only
    when its bound is [present]. *)
Definition range_params (field : string) (present : pyval -> bool)
  (lower lower_inclusive upper upper_inclusive : pyval) : dict :=
  app
    (if present lower then
       [(field ++ (if truthy lower_inclusive then "__gte" else "__gt"), lower)] else [])
    (if present upper then
       [(field ++ (if truthy upper_inclusive then "__lte" else "__lt"), upper)] else []).

Definition bq_query (kw : dict) (queryset : list Group) : M (list Group) :=
  let query := arg kw "query" VNone in
  if truthy query then
    _ <- emit (Filtered "query") ;; ret (filter (query_pred query) queryset)
  else ret queryset.

Definition bq_status (kw : dict) (queryset : list Group) : M (list Group) :=
  let st := arg kw "status" VNone in
  _ <- emit (Filtered "status") ;;
  if is_none st then ret (filter (fun g => negb (hidden_status g)) queryset)
  else ret (filter_kw [("status", st)] queryset).

Definition bq_bookmarked_by (kw : dict) (queryset : list Group) : M (list Group) :=
  let bookmarked_by := arg kw "bookmarked_by" VNone in
  if truthy bookmarked_by then
    _ <- emit (Filtered "bookmarked_by") ;;
    ret (filter (bookmarked_by_pred bookmarked_by) queryset)
  else ret queryset.

(** [if assigned_to: ... elif unassigned in (True, False): ...] *)
Definition bq_assigned (kw : dict) (queryset : list Group) : M (list Group) :=
  let assigned_to := arg kw "assigned_to" VNone in
  let unassigned := arg kw "unassigned" VNone in
  if truthy assigned_to then
    _ <- emit (Filtered "assigned_to") ;;
    ret (filter (assigned_to_pred assigned_to) queryset)
  else if py_eqb unassigned (VBool true) || py_eqb unassigned (VBool false) then
    _ <- emit (Filtered "unassigned") ;;
    ret (filter (assignee_isnull_pred unassigned) queryset)
  else ret queryset.

Definition bq_subscribed_by (kw : dict) (queryset : list Group) : M (list Group) :=
  let subscribed_by := arg kw "subscribed_by" VNone in
  if negb (is_none subscribed_by) then
    _ <- emit (Filtered "subscribed_by") ;;
    ret (filter (subscribed_by_pred subscribed_by) queryset)
  else ret queryset.

(** [if first_release: if first_release is EMPTY: return queryset.none()] *)
Definition bq_first_release (kw : dict) (queryset : list Group) : M (list Group) :=
  let first_release := arg kw "first_release" VNone in
  if truthy first_release then
    if is_EMPTY first_release then early_return []
    else
      _ <- emit (Filtered "first_release") ;;
      ret (filter (first_release_pred first_release) queryset)
  else ret queryset.

(** [if tags: matches = tagstore.get_group_ids_for_search_filter(...);
    if not matches: return queryset.none()] *)
Definition bq_tags (environment : option Z) (queryset : list Group) : M (list Group) :=
  otags <- get_tags ;;
  match otags with
  | Some ((_ :: _) as tags) =>
      _ <- emit (TagstoreSearch (project_id project) environment tags) ;;
      let matches := get_group_ids_for_search_filter (project_id project) environment tags in
      match matches with
      | [] => early_return []
      | _ => ret (filter (id_in matches) queryset)
      end
  | _ => ret queryset
  end.

(** The [age], [last_seen] and [active_at] blocks: the same code on three
    columns. *)
Definition bq_datetime_range (kw : dict) (name field : string) (queryset : list Group)
  : M (list Group) :=
  let lower := arg kw (name ++ "_from") VNone in
  let lower_inclusive := arg kw (name ++ "_from_inclusive") (VBool true) in
  let upper := arg kw (name ++ "_to") VNone in
  let upper_inclusive := arg kw (name ++ "_to_inclusive") (VBool true) in
  if truthy lower || truthy upper then
    _ <- emit (Filtered name) ;;
    ret (filter_kw (range_params field truthy lower lower_inclusive upper upper_inclusive)
                   queryset)
  else ret queryset.

Definition bq_times_seen (kw : dict) (queryset : list Group) : M (list Group) :=
  let ts := arg kw "times_seen" VNone in
  if negb (is_none ts) then
    _ <- emit (Filtered "times_seen") ;; ret (filter_kw [("times_seen", ts)] queryset)
  else ret queryset.

Definition bq_times_seen_range (kw : dict) (queryset : list Group) : M (list Group) :=
  let lower := arg kw "times_seen_lower" VNone in
  let lower_inclusive := arg kw "times_seen_lower_inclusive" (VBool true) in
  let upper := arg kw "times_seen_upper" VNone in
  let upper_inclusive := arg kw "times_seen_upper_inclusive" (VBool true) in
  if negb (is_none lower) || negb (is_none upper) then
    _ <- emit (Filtered "times_seen_range") ;;
    ret (filter_kw (range_params "times_seen" (fun v => negb (is_none v))
                                 lower lower_inclusive upper upper_inclusive)
                   queryset)
  else ret queryset.

(** Event-level date range: the first 1000 distinct matching group ids. *)
Definition bq_date (kw : dict) (queryset : list Group) : M (list Group) :=
  let query := arg kw "query" VNone in
  let date_from := arg kw "date_from" VNone in
  let date_from_inclusive := arg kw "date_from_inclusive" (VBool true) in
  let date_to := arg kw "date_to" VNone in
  let date_to_inclusive := arg kw "date_to_inclusive" (VBool true) in
  if truthy date_from || truthy date_to then
    let params := ("project_id", VInt (project_id project))
                  :: range_params "datetime" truthy date_from date_from_inclusive
                                  date_to date_to_inclusive in
    let event_queryset := filter_kw params (events db) in
    let event_queryset :=
      if truthy query then filter_kw [("message__icontains", query)] event_queryset
      else event_queryset in
    let group_ids := firstn 1000 (distinct (map ev_group_id event_queryset)) in
    _ <- emit (Filtered "date") ;;
    ret (filter (id_in group_ids) queryset)
  else ret queryset.

(** [DjangoSearchBackend._build_queryset]. The [sort_value] projection it
    ends with does not change the rows. *)
Definition DjangoSearchBackend_build_queryset (c : call) : M (list Group) :=
  let kw := kwargs c in
  function_body
    ((bq_query kw
      >=> bq_status kw
      >=> bq_bookmarked_by kw
      >=> bq_assigned kw
      >=> bq_subscribed_by kw
      >=> bq_first_release kw
      >=> bq_tags (environment_id c)
      >=> bq_datetime_range kw "age" "first_seen"
      >=> bq_datetime_range kw "last_seen" "last_seen"
      >=> bq_datetime_range kw "active_at" "active_at"
      >=> bq_times_seen kw
      >=> bq_times_seen_range kw
      >=> bq_date kw)
     (filter in_project (groups db))).

(** [DjangoSearchBackend.query]: the rows it hands to the paginator
    (the paginators of [sentry.api.paginator] only order and window them). *)
Definition DjangoSearchBackend_query (c : call) : M (list Group) :=
  DjangoSearchBackend_build_queryset c.

(** *** [EnvironmentDjangoSearchBackend.query] *)

(** The handlers applied to every group queryset. *)
Definition base_handlers : registry Group :=
  [("query", condition (fun queryset query _ =>
                          if truthy query then filter (query_pred query) queryset
                          else queryset) []);
   ("status", condition (fun queryset st _ => filter_kw [("status", st)] queryset) []);
   ("bookmarked_by", condition (fun queryset user _ =>
                                  filter (bookmarked_by_pred user) queryset) []);
   ("assigned_to", condition (fun queryset user _ =>
                                filter (assigned_to_pred user) queryset) []);
   ("unassigned", condition (fun queryset unassigned _ =>
                               filter (assignee_isnull_pred unassigned) queryset) []);
   ("subscribed_by", condition (fun queryset user _ =>
                                  filter (subscribed_by_pred user) queryset) []);
   ("active_at_from", scalar_condition "active_at_from" "active_at" "gt");
   ("active_at_to", scalar_condition "active_at_to" "active_at" "lt")].

(** The [first_release] handler on groups joined with their
    [GroupEnvironment] row: the release is the environment's first release. *)
Definition environment_release_handlers : registry (Group * GroupEnvironment) :=
  [("first_release", condition (fun queryset version_value _ =>
       filter (fun '(_, ge) => release_pred (ge_first_release_id ge) version_value)
              queryset) [])].

(** The scalar handlers, applied to [GroupTagValue] rows of the
    environment tag in the environment path and to groups otherwise. *)
Definition scalar_handlers {R} `{Model R} : registry R :=
  [("age_from", scalar_condition "age_from" "first_seen" "gt");
   ("age_to", scalar_condition "age_to" "first_seen" "lt");
   ("last_seen_from", scalar_condition "last_seen_from" "last_seen" "gt");
   ("last_seen_to", scalar_condition "last_seen_to" "last_seen" "lt");
   ("times_seen", condition (fun queryset ts _ => filter_kw [("times_seen", ts)] queryset) []);
   ("times_seen_lower", scalar_condition "times_seen_lower" "times_seen" "gt");
   ("times_seen_upper", scalar_condition "times_seen_upper" "times_seen" "lt")].

Definition tag_value_handlers : registry GroupTagValue := scalar_handlers.

Definition group_handlers : registry Group :=
  ("first_release", condition (fun queryset version_value _ =>
       filter (first_release_pred version_value) queryset) [])
  :: scalar_handlers.

(** [Environment.objects.get(projects=project, name=name)] *)
Definition Environment_get (name : pyval) : M Environment :=
  match filter (fun e => memZ (project_id project) (env_projects e)
                         && py_eqb (VStr (env_name e)) name) (environments db) with
  | [e] => ret e
  | [] => raise DoesNotExist
  | _ => raise MultipleObjectsReturned
  end.

(** The loop over the remaining tags: each one removes the candidates
    without a matching [GroupTagValue] (or, for [ANY], [GroupTagKey]). *)
Fixpoint intersect_tags (items : tagmap) (candidates : list (Z * R)) : M (list (Z * R)) :=
  match items with
  | [] => ret candidates
  | (key, value) :: rest =>
      let ids := map fst candidates in
      let matched :=
        if is_ANY value then
          map gtk_group_id
              (filter (fun t => String.eqb (gtk_key t) key && memZ (gtk_group_id t) ids)
                      (group_tag_keys db))
        else
          map gtv_group_id
              (filter (fun t => String.eqb (gtv_key t) key
                                && py_eqb (VStr (gtv_value t)) value
                                && memZ (gtv_group_id t) ids)
                      (group_tag_values db)) in
      _ <- emit (if is_ANY value then TagKeyQuery key else TagValueQuery key value) ;;
      let stale := filter (fun id => negb (memZ id matched)) ids in
      intersect_tags rest (fold_left zdict_del stale candidates)
  end.

(** [Group.objects.in_bulk(ids).get] *)
Definition in_bulk_get (id : Z) : option Group :=
  find (fun g => group_id g =? id) (groups db).

(** [filter(None, map(Group.objects.in_bulk(ids).get, ids))] *)
Definition hydrate (ids : list Z) : list Group :=
  flat_map (fun id => match in_bulk_get id with Some g => [g] | None => [] end) ids.

Definition EnvironmentDjangoSearchBackend_query (c : call) : M (list Group) :=
  let kw := kwargs c in
  _ <- assert (negb (has_key "date_from" kw) && negb (has_key "date_from" kw)) ;;
  match sort_strategies (sort_by c) with
  | None => raise (KeyError (sort_by c))
  | Some (sort_expression, value_to_cursor_score) =>
  queryset <- build base_handlers
                    (filter (fun g => in_project g && negb (hidden_status g)) (groups db))
                    kw ;;
  match environment_id c with
  | Some environment_id =>
      otags <- get_tags ;;
      match otags with
      | None => raise TypeError
      | Some tags =>
      _ <- assert (has_key "environment" tags) ;;
      env <- Environment_get (dict_get_default "environment" tags VNone) ;;
      _ <- assert (env_id env =? environment_id) ;;
      joined <- build environment_release_handlers
                  (filter (fun '(g, ge) => (group_id g =? ge_group_id ge)
                                           && (ge_environment_id ge =? environment_id))
                          (list_prod queryset (group_environments db)))
                  kw ;;
      let ids := map (fun '(g, _) => group_id g) joined in
      value <- tags_pop "environment" ;;
      tag_values <- build tag_value_handlers
                      (filter (fun t => (gtv_project_id t =? project_id project)
                                        && String.eqb (gtv_key t) "environment"
                                        && py_eqb (VStr (gtv_value t)) value
                                        && memZ (gtv_group_id t) ids)
                              (group_tag_values db))
                      kw ;;
      let candidates :=
        zdict_of_pairs (map (fun t => (gtv_group_id t, sort_expression t)) tag_values) in
      otags' <- get_tags ;;
      candidates <- intersect_tags (match otags' with Some d => d | None => [] end)
                                   candidates ;;
      let page :=
        SequencePaginator_get_result
          (map (fun '(id, score) => (value_to_cursor_score score, id)) candidates)
          (limit c) (cursor c) in
      ret (hydrate page)
      end
  | None =>
      function_body
        (queryset <- build group_handlers queryset kw ;;
         otags <- get_tags ;;
         match otags with
         | Some ((_ :: _) as tags) =>
             _ <- emit (TagstoreSearch (project_id project) None tags) ;;
             let matches := get_group_ids_for_search_filter (project_id project) None tags in
             match matches with
             | [] => early_return []
             | _ => ret (filter (id_in matches) queryset)
             end
         | _ => ret queryset
         end)
  end
  end.

End Backend.

(** ** Vocabulary of the statements *)

(** Two outcomes agree when both raise or both return the same rows. *)
Definition agree {A} (r1 r2 : exc + A) : Prop :=
  match r1, r2 with
  | inr a, inr b => a = b
  | inl _, inl _ => True
  | _, _ => False
  end.

(** A handler that is a [queryset.filter] by a predicate of its value and
    its extra values. *)
Definition is_filter_handler {R} (h : handler R) : Prop :=
  exists p : pyval -> list pyval -> R -> bool,
    forall queryset value extras, h queryset value extras = filter (p value extras) queryset.

(** A queryset stage that only narrows its input, and whose early
    [return] is [queryset.none()]. *)
Definition stage_spec (f : list Group -> M (list Group)) : Prop :=
  forall rows s,
    match fst (f rows s) with
    | inr r => incl r rows
    | inl (Return r) => r = []
    | inl (Raise _) => True
    end.

(** Every row a computation returns (normally or by an early [return])
    satisfies [P]. *)
Definition rows_satisfy (P : Group -> Prop) (m : M (list Group)) : Prop :=
  forall s,
    match fst (m s) with
    | inr r | inl (Return r) => forall g, In g r -> P g
    | inl (Raise _) => True
    end.

(** A computation that leaves the caller's [tags] alone and only records
    filters in the trace. *)
Definition quiet {A} (m : M A) : Prop :=
  forall s, caller_tags (snd (m s)) = caller_tags s
            /\ exists names, trace (snd (m s)) = app (trace s) (map Filtered names).

(** [rows_satisfy] for the runs that start with the caller's [tags]
    mapping equal to [tags]. *)
Definition rows_satisfy_from (tags : tagmap) (P : Group -> Prop) (m : M (list Group)) : Prop :=
  forall s, caller_tags s = Some tags ->
    match fst (m s) with
    | inr r | inl (Return r) => forall g, In g r -> P g
    | inl (Raise _) => True
    end.

(** The trace of a run that ended after the tag store found nothing: it
    ends with the tag store call, or it holds filters only. *)
Definition tagstore_last (o : op) (s s' : store) : Prop :=
  (exists pre, trace s' = app pre [o]) \/
  (exists names, trace s' = app (trace s) (map Filtered names)).

(** Runs, from a caller's mapping equal to [tags], that never complete
    normally, whose early [return] is [queryset.none()] and whose trace
    obeys [tagstore_last]. *)
Definition empty_return_from (tags : tagmap) (o : op) (m : M (list Group)) : Prop :=
  forall s, caller_tags s = Some tags ->
    match m s with
    | (inr _, _) => False
    | (inl (Return r), s') => r = [] /\ tagstore_last o s s'
    | (inl (Raise _), _) => True
    end.

(** The issue ids a tag filter matches: those with a [GroupTagKey] for the
    key when the value is [ANY], those with a [GroupTagValue] for the key
    and value otherwise. *)
Definition tag_matches (db : DB) (key : string) (value : pyval) : list Z :=
  if is_ANY value then
    map gtk_group_id (filter (fun t => String.eqb (gtk_key t) key) (group_tag_keys db))
  else
    map gtv_group_id (filter (fun t => String.eqb (gtv_key t) key
                                       && py_eqb (VStr (gtv_value t)) value)
                             (group_tag_values db)).

(** [x] comes before [y] in [l]. *)
Definition before {A} (x y : A) (l : list A) : Prop :=
  exists l1 l2, l = app l1 (x :: l2) /\ In y l2.

(** The ranked sequence of the environment path: the cursor scores paired
    with the ids, as [SequencePaginator] orders them. *)
Definition rank_candidates (value_to_cursor_score : R -> Z) (candidates : list (Z * R))
  : list (Z * Z) :=
  sort_desc (map (fun '(id, score) => (value_to_cursor_score score, id)) candidates).

(** The outcome of [extra_values], which does not depend on the state. *)
Definition extras_result (names : list string) (parameters : dict) : exc + list pyval :=
  fst (extra_values names parameters (mkStore [] None)).

(** A lower bound that is met with [>=] when inclusive and [>] otherwise,
    and an upper bound met with [<=] or [<]. *)
Definition lower_ok (inclusive : bool) (bound x : Z) : bool :=
  if inclusive then bound <=? x else bound <? x.

Definition upper_ok (inclusive : bool) (bound x : Z) : bool :=
  if inclusive then x <=? bound else x <? bound.

(** The group ids the [date] block of the plain backend keeps: those of the
    first 1000 distinct events of the project whose time is [in_range]
    (and whose message contains [query], when it is given). *)
Definition date_groups (db : DB) (project : Project) (query : pyval) (in_range : Z -> bool)
  : list Z :=
  let event_queryset :=
    filter (fun ev => (ev_project_id ev =? project_id project) && in_range (ev_datetime ev))
           (events db) in
  let event_queryset :=
    if truthy query then filter_kw [("message__icontains", query)] event_queryset
    else event_queryset in
  firstn 1000 (distinct (map ev_group_id event_queryset)).

(** The caller's [tags] after a computation: untouched, or with its
    [environment] entry popped. *)
Definition popped_or_same (before after : option tagmap) : Prop :=
  after = before \/ exists d, before = Some d /\ after = Some (dict_remove "environment" d).

Definition frame {A} (m : M A) : Prop :=
  forall s, popped_or_same (caller_tags s) (caller_tags (snd (m s))).

(** A computation that leaves the caller's [tags] as they were. *)
Definition keeps_tags {A} (m : M A) : Prop :=
  forall s, caller_tags (snd (m s)) = caller_tags s.



(** ** Example data *)

Definition ex_project : Project := mkProject 1 1.

Definition ex_g1 : Group := mkGroup 1 1 UNRESOLVED "boom" "a.py" 100 200 150 100 None.
Definition ex_g2 : Group := mkGroup 2 1 PENDING_DELETION "boom" "b.py" 100 200 150 10 None.
Definition ex_g3 : Group := mkGroup 3 1 UNRESOLVED "other" "c.py" 101 200 150 10 None.

Definition ex_db : DB :=
  mkDB [ex_g1; ex_g2; ex_g3] [] [] [mkGroupAssignee 1 1 7] [] []
       [mkEnvironment 10 "production" [1]]
       [mkGroupEnvironment 1 10 None; mkGroupEnvironment 3 10 None]
       [mkGroupTagValue 1 1 "environment" "production" 100 200 100;
        mkGroupTagValue 1 3 "environment" "production" 101 200 10;
        mkGroupTagValue 1 1 "browser" "firefox" 100 200 100]
       [mkGroupTagKey 1 "browser"].

(** Three candidates and two tags: [level=error] on issues 1 and 2,
    [browser=firefox] on issues 2 and 3. *)
Definition ex_tag_db : DB :=
  mkDB [] [] [] [] [] [] [] []
       [mkGroupTagValue 1 1 "level" "error" 0 0 1;
        mkGroupTagValue 1 2 "level" "error" 0 0 1;
        mkGroupTagValue 1 2 "browser" "firefox" 0 0 1;
        mkGroupTagValue 1 3 "browser" "firefox" 0 0 1]
       [mkGroupTagKey 1 "level"; mkGroupTagKey 2 "level"].


(** Issues 1 and 3 with one event each, at times 150 and 50; a bookmark,
    an assignment and an active subscription of user 7 on issue 1. *)
Definition ex_event_db : DB :=
  mkDB [ex_g1; ex_g3] [mkRelease 5 1 "1.0"] [mkGroupBookmark 1 1 7] [mkGroupAssignee 1 1 7]
       [mkGroupSubscription 1 1 7 true]
       [mkEvent 1 1 150 "boom"; mkEvent 3 1 50 "other"] [] [] [] [].

(** Issue 1 (seen 100 times in all) with a [GroupTagValue] row counting 5
    events in the environment "production". *)
Definition ex_row_db : DB :=
  mkDB [ex_g1] [] [] [] [] []
       [mkEnvironment 10 "production" [1]]
       [mkGroupEnvironment 1 10 None]
       [mkGroupTagValue 1 1 "environment" "production" 100 200 5]
       [].

(** A tag store adapter that matches nothing. *)
Definition no_matches (project : Z) (environment : option Z) (tags : tagmap) : list Z := [].

Definition ex_call (environment : option Z) (kw : dict) : call :=
  mkCall "date" environment 0 100 kw.

Definition ex_store (tags : option tagmap) : store := mkStore [] tags.

(** * Proofs *)

Open Scope list_scope.

(** ** The monad *)

Lemma bind_inr {A B} (m : M A) (k : A -> M B) s a s' :
  m s = (inr a, s') -> bind m k s = k a s'.
Proof. intros H; unfold bind; now rewrite H. Qed.


Lemma filter_true {A} (l : list A) : filter (fun _ => true) l = l.
Proof. induction l; simpl; congruence. Qed.

Lemma filter_filter_comm {A} (p q : A -> bool) (l : list A) :
  filter p (filter q l) = filter q (filter p l).
Proof.
  induction l as [|a l IH]; simpl; [reflexivity|].
  destruct (q a) eqn:Hq, (p a) eqn:Hp; simpl; rewrite ?Hq, ?Hp, IH; reflexivity.
Qed.

Lemma agree_refl {A} (r : exc + A) : agree r r.
Proof. destruct r; simpl; auto. Qed.

Lemma agree_sym {A} (r1 r2 : exc + A) : agree r1 r2 -> agree r2 r1.
Proof. destruct r1, r2; simpl; auto. Qed.

Lemma agree_trans {A} (r1 r2 r3 : exc + A) : agree r1 r2 -> agree r2 r3 -> agree r1 r3.
Proof. destruct r1, r2, r3; simpl; intros; subst; auto; contradiction. Qed.

Lemma agree_iff {A} (r1 r2 : exc + A) :
  agree r1 r2 -> forall a, r1 = inr a <-> r2 = inr a.
Proof.
  destruct r1, r2; simpl; intros H x; split; intros E; try discriminate; try contradiction.
  - inversion E; subst; reflexivity.
  - inversion E; subst; reflexivity.
Qed.

(** ** [QueryBuilder.build] *)

Lemma extra_values_state names parameters s :
  snd (extra_values names parameters s) = s.
Proof.
  revert s; induction names as [|n ns IH]; intros s; simpl; [reflexivity|].
  destruct (dict_get n parameters); simpl; [|reflexivity].
  unfold bind; specialize (IH s).
  destruct (extra_values ns parameters s) as [[e|vs] s'] eqn:E; simpl in *; congruence.
Qed.

Lemma extra_values_indep names parameters s s' :
  fst (extra_values names parameters s) = fst (extra_values names parameters s').
Proof.
  revert s s'; induction names as [|n ns IH]; intros s s'; simpl; [reflexivity|].
  destruct (dict_get n parameters); simpl; [|reflexivity].
  unfold bind.
  pose proof (IH s s') as E.
  destruct (extra_values ns parameters s) as [[e|vs] t] eqn:E1,
           (extra_values ns parameters s') as [[e'|vs'] t'] eqn:E2;
    simpl in *; try discriminate; inversion E; subst; reflexivity.
Qed.

Lemma extra_values_run names parameters s :
  extra_values names parameters s = (extras_result names parameters, s).
Proof.
  pose proof (extra_values_state names parameters s) as S.
  pose proof (extra_values_indep names parameters s (mkStore [] None)) as I.
  unfold extras_result. destruct (extra_values names parameters s); simpl in *; congruence.
Qed.

Lemma build_fst_indep {R} (l : registry R) queryset parameters s s' :
  fst (build l queryset parameters s) = fst (build l queryset parameters s').
Proof.
  revert queryset s s'; induction l as [|[name [h ex]] l IH]; intros queryset s s'; simpl;
    [reflexivity|].
  destruct (dict_get name parameters) as [v|]; [|apply IH].
  unfold bind.
  pose proof (extra_values_indep ex parameters s s') as E.
  destruct (extra_values ex parameters s) as [[e|vs] t] eqn:E1,
           (extra_values ex parameters s') as [[e'|vs'] t'] eqn:E2;
    simpl in *; try discriminate; inversion E; subst; [reflexivity|].
  apply IH.
Qed.

(** Two handlers that filter commute. *)
Lemma filter_handlers_commute {R} (h1 h2 : handler R) :
  is_filter_handler h1 -> is_filter_handler h2 ->
  forall queryset v1 e1 v2 e2, h1 (h2 queryset v2 e2) v1 e1 = h2 (h1 queryset v1 e1) v2 e2.
Proof.
  intros [p1 H1] [p2 H2] queryset v1 e1 v2 e2.
  rewrite H1, H2, H1, H2. apply filter_filter_comm.
Qed.

Section BuildPermutation.
Context {R : Type}.

Lemma build_swap (x y : string * (handler R * list string)) (l : registry R)
  queryset parameters s :
  is_filter_handler (fst (snd x)) -> is_filter_handler (fst (snd y)) ->
  agree (fst (build (y :: x :: l) queryset parameters s))
        (fst (build (x :: y :: l) queryset parameters s)).
Proof.
  destruct x as [nx [hx ex]], y as [ny [hy ey]]; simpl fst; simpl snd; intros Fx Fy.
  simpl.
  destruct (dict_get ny parameters) as [vy|] eqn:Ey, (dict_get nx parameters) as [vx|] eqn:Ex;
    try apply agree_refl.
  unfold bind. rewrite !extra_values_run.
  destruct (extras_result ey parameters) as [e|vsy] eqn:Ty;
  destruct (extras_result ex parameters) as [e'|vsx] eqn:Tx;
    simpl; rewrite ?extra_values_run, ?Tx, ?Ty; simpl; try exact I.
  rewrite (filter_handlers_commute hx hy Fx Fy).
  match goal with
  | |- agree (fst (build _ _ _ ?s1)) (fst (build _ _ _ ?s2)) =>
      rewrite (build_fst_indep l _ parameters s1 s2)
  end.
  apply agree_refl.
Qed.

Lemma build_skip (x : string * (handler R * list string)) (l l' : registry R) parameters :
  (forall queryset s, agree (fst (build l queryset parameters s))
                            (fst (build l' queryset parameters s))) ->
  forall queryset s, agree (fst (build (x :: l) queryset parameters s))
                           (fst (build (x :: l') queryset parameters s)).
Proof.
  destruct x as [nx [hx ex]]; intros IH queryset s; simpl.
  destruct (dict_get nx parameters) as [v|]; [|apply IH].
  unfold bind. rewrite extra_values_run.
  destruct (extras_result ex parameters) as [e|vs]; simpl; [exact I|].
  apply IH.
Qed.

(** The order of the handlers does not matter when every handler filters. *)
Lemma build_permutation (l l' : registry R) parameters :
  Permutation l l' ->
  (forall x, In x l -> is_filter_handler (fst (snd x))) ->
  forall queryset s, agree (fst (build l queryset parameters s))
                           (fst (build l' queryset parameters s)).
Proof.
  induction 1 as [|x l l' P IH|x y l|l l' l'' P1 IH1 P2 IH2]; intros F queryset s.
  - apply agree_refl.
  - apply build_skip. intros; apply IH. intros z Hz; apply F; right; exact Hz.
  - apply build_swap; apply F; simpl; auto.
  - eapply agree_trans; [apply IH1; exact F|].
    apply IH2. intros z Hz; apply F. apply Permutation_in with l'; [symmetry; exact P1|exact Hz].
Qed.

End BuildPermutation.

(** ** The handlers of [EnvironmentDjangoSearchBackend.query] filter *)

Ltac filter_form :=
  eexists; intros; simpl; reflexivity.

Lemma scalar_condition_filter {R} `{Model R} parameter field operator :
  is_filter_handler (fst (scalar_condition (R := R) parameter field operator)).
Proof.
  exists (fun value extras (r : R) =>
            match extras with
            | [inclusive] =>
                forallb (fun '(k, v) => row_matches r k v)
                  [((field ++ "__" ++ operator ++ (if truthy inclusive then "e" else ""))%string,
                    value)]
            | _ => true
            end).
  intros queryset value extras; simpl.
  destruct extras as [|i [|j extras]]; simpl; try (symmetry; apply filter_true).
  reflexivity.
Qed.

Lemma query_handler_filter :
  is_filter_handler (fun queryset query (_ : list pyval) =>
                       if truthy query then filter (query_pred query) queryset
                       else queryset).
Proof.
  exists (fun query _ g => if truthy query then query_pred query g else true).
  intros queryset query extras; destruct (truthy query); [reflexivity|].
  symmetry; apply filter_true.
Qed.

Lemma scalar_handlers_filter {R} `{Model R} x :
  In x (scalar_handlers (R := R)) -> is_filter_handler (fst (snd x)).
Proof.
  unfold scalar_handlers; simpl.
  intros Hx; repeat destruct Hx as [<-|Hx];
    try apply scalar_condition_filter; try filter_form; contradiction.
Qed.

Lemma base_handlers_filter db project x :
  In x (base_handlers db project) -> is_filter_handler (fst (snd x)).
Proof.
  unfold base_handlers; simpl.
  intros Hx; repeat destruct Hx as [<-|Hx];
    try apply scalar_condition_filter; try apply query_handler_filter; try filter_form;
    contradiction.
Qed.

Lemma environment_release_handlers_filter db project x :
  In x (environment_release_handlers db project) -> is_filter_handler (fst (snd x)).
Proof.
  unfold environment_release_handlers; simpl.
  intros [<-|[]]. filter_form.
Qed.

Lemma tag_value_handlers_filter x :
  In x tag_value_handlers -> is_filter_handler (fst (snd x)).
Proof. apply scalar_handlers_filter. Qed.

Lemma group_handlers_filter db project x :
  In x (group_handlers db project) -> is_filter_handler (fst (snd x)).
Proof.
  unfold group_handlers; simpl.
  intros [<-|Hx]; [filter_form|apply scalar_handlers_filter; exact Hx].
Qed.

(** ** C8: order independence of [QueryBuilder.build] *)

(** C8. For every parameter set, applying the handlers of each registry of
    [EnvironmentDjangoSearchBackend.query] in any permutation of their
    declaration order yields the same final rows as the declaration order
    (and fails exactly when it fails); a handler whose parameter is absent
    (the [undefined] sentinel) leaves the query state, queryset and trace
    alike, unchanged. *)
Theorem QueryBuilder_order_independent :
  forall db project parameters,
    (forall l, Permutation (base_handlers db project) l ->
       forall queryset s rows,
         fst (build l queryset parameters s) = inr rows <->
         fst (build (base_handlers db project) queryset parameters s) = inr rows) /\
    (forall l, Permutation (environment_release_handlers db project) l ->
       forall queryset s rows,
         fst (build l queryset parameters s) = inr rows <->
         fst (build (environment_release_handlers db project) queryset parameters s) = inr rows) /\
    (forall l, Permutation tag_value_handlers l ->
       forall queryset s rows,
         fst (build l queryset parameters s) = inr rows <->
         fst (build tag_value_handlers queryset parameters s) = inr rows) /\
    (forall l, Permutation (group_handlers db project) l ->
       forall queryset s rows,
         fst (build l queryset parameters s) = inr rows <->
         fst (build (group_handlers db project) queryset parameters s) = inr rows) /\
    (forall R (x : string * (handler R * list string)) rest queryset s,
       dict_get (fst x) parameters = None ->
       build (x :: rest) queryset parameters s = build rest queryset parameters s).
Proof.
  intros db project parameters.
  split; [|split; [|split; [|split]]].
  - intros l P queryset s rows; apply agree_iff, agree_sym, build_permutation; auto.
    apply base_handlers_filter.
  - intros l P queryset s rows; apply agree_iff, agree_sym, build_permutation; auto.
    apply environment_release_handlers_filter.
  - intros l P queryset s rows; apply agree_iff, agree_sym, build_permutation; auto.
    apply tag_value_handlers_filter.
  - intros l P queryset s rows; apply agree_iff, agree_sym, build_permutation; auto.
    apply group_handlers_filter.
  - intros R x rest queryset s E. destruct x as [name [h ex]]; simpl in *. now rewrite E.
Qed.

Lemma QueryBuilder_order_independent_witness :
  fst (build (rev (base_handlers ex_db ex_project)) (groups ex_db)
             [("status", VInt UNRESOLVED); ("query", VStr "BOOM")] (ex_store None))
  = inr [ex_g1] /\
  fst (build (rev (environment_release_handlers ex_db ex_project)) []
             [("first_release", VStr "1.0")] (ex_store None)) = inr [] /\
  fst (build (rev tag_value_handlers) (group_tag_values ex_db)
             [("age_from", VDate 100); ("age_from_inclusive", VBool false)] (ex_store None))
  = inr [mkGroupTagValue 1 3 "environment" "production" 101 200 10] /\
  fst (build (rev (group_handlers ex_db ex_project)) (groups ex_db)
             [("times_seen_lower", VInt 50); ("times_seen_lower_inclusive", VBool true)]
             (ex_store None)) = inr [ex_g1] /\
  build (("status", condition (fun queryset st _ => filter_kw [("status", st)] queryset) [])
           :: base_handlers ex_db ex_project) (groups ex_db) [] (ex_store None)
  = build (base_handlers ex_db ex_project) (groups ex_db) [] (ex_store None).
Proof.
  destruct (QueryBuilder_order_independent ex_db ex_project
              [("status", VInt UNRESOLVED); ("query", VStr "BOOM")]) as [P1 _].
  destruct (QueryBuilder_order_independent ex_db ex_project
              [("first_release", VStr "1.0")]) as [_ [P2 _]].
  destruct (QueryBuilder_order_independent ex_db ex_project
              [("age_from", VDate 100); ("age_from_inclusive", VBool false)])
    as [_ [_ [P3 _]]].
  destruct (QueryBuilder_order_independent ex_db ex_project
              [("times_seen_lower", VInt 50); ("times_seen_lower_inclusive", VBool true)])
    as [_ [_ [_ [P4 _]]]].
  destruct (QueryBuilder_order_independent ex_db ex_project []) as [_ [_ [_ [_ P5]]]].
  split; [|split; [|split; [|split]]].
  - apply (P1 _ (Permutation_rev _)). vm_compute. reflexivity.
  - apply (P2 _ (Permutation_rev _)). vm_compute. reflexivity.
  - apply (P3 _ (Permutation_rev _)). vm_compute. reflexivity.
  - apply (P4 _ (Permutation_rev _)). vm_compute. reflexivity.
  - apply P5. reflexivity.
Defined.

(** ** Lists and dictionaries *)

Lemma memZ_In x l : memZ x l = true <-> In x l.
Proof.
  unfold memZ; rewrite existsb_exists; split.
  - intros [y [Hy E]]; apply Z.eqb_eq in E; subst; exact Hy.
  - intros H; exists x; split; [exact H|apply Z.eqb_refl].
Qed.

Lemma incl_filter_l {A} (p : A -> bool) l : incl (filter p l) l.
Proof. intros x Hx; apply filter_In in Hx; tauto. Qed.

Lemma In_keys_filter {A} (f : Z -> bool) (d : list (Z * A)) id :
  In id (map fst (filter (fun '(k, _) => f k) d)) <-> In id (map fst d) /\ f id = true.
Proof.
  induction d as [|[k v] d IH]; simpl; [tauto|].
  destruct (f k) eqn:Fk; simpl; rewrite IH; split; intros H.
  - destruct H as [<-|[H1 H2]]; auto.
  - destruct H as [[<-|H1] H2]; auto.
  - destruct H as [H1 H2]; auto.
  - destruct H as [[<-|H1] H2]; [congruence|auto].
Qed.

Lemma fold_zdict_del {A} (ks : list Z) (d : list (Z * A)) :
  fold_left zdict_del ks d = filter (fun '(k, _) => negb (memZ k ks)) d.
Proof.
  revert d; induction ks as [|k ks IH]; intros d; simpl.
  - induction d as [|[k v] d IHd]; simpl; congruence.
  - rewrite IH. unfold zdict_del, memZ.
    induction d as [|[k' v] d IHd]; simpl; [reflexivity|].
    rewrite (Z.eqb_sym k' k).
    destruct (k =? k') eqn:E; simpl; [exact IHd|].
    destruct (existsb (Z.eqb k') ks); simpl; [exact IHd|]. now rewrite IHd.
Qed.

Lemma In_restricted {T} (f : T -> Z) (p : T -> bool) (ids : list Z) (l : list T) id :
  In id (map f (filter (fun t => p t && memZ (f t) ids) l))
  <-> In id (map f (filter p l)) /\ In id ids.
Proof.
  rewrite !in_map_iff; split.
  - intros [t [<- Ht]]; apply filter_In in Ht as [Ht Hp]; apply andb_true_iff in Hp as [Hp Hm].
    split; [exists t; split; [reflexivity|apply filter_In; auto]|apply memZ_In; exact Hm].
  - intros [[t [<- Ht]] Hi]; apply filter_In in Ht as [Ht Hp].
    exists t; split; [reflexivity|apply filter_In; split; [exact Ht|]].
    rewrite Hp; simpl; apply memZ_In; exact Hi.
Qed.

(** ** C7: intersection of the candidates with the tag filters *)

Lemma intersect_tags_step db key value (candidates : list (Z * R)) id :
  let ids := map fst candidates in
  let matched :=
    if is_ANY value then
      map gtk_group_id
          (filter (fun t => String.eqb (gtk_key t) key && memZ (gtk_group_id t) ids)
                  (group_tag_keys db))
    else
      map gtv_group_id
          (filter (fun t => String.eqb (gtv_key t) key
                            && py_eqb (VStr (gtv_value t)) value
                            && memZ (gtv_group_id t) ids)
                  (group_tag_values db)) in
  In id (map fst (fold_left zdict_del (filter (fun id => negb (memZ id matched)) ids)
                            candidates))
  <-> In id ids /\ In id (tag_matches db key value).
Proof.
  intros ids matched.
  rewrite fold_zdict_del, In_keys_filter.
  assert (M : In id matched <-> In id (tag_matches db key value) /\ In id ids).
  { unfold matched, tag_matches; destruct (is_ANY value); apply In_restricted. }
  split.
  - intros [Hi Hn]. split; [exact Hi|].
    destruct (memZ id (filter (fun id => negb (memZ id matched)) ids)) eqn:E; [discriminate|].
    destruct (memZ id matched) eqn:Em.
    + apply memZ_In, M in Em; tauto.
    + exfalso. assert (In id (filter (fun id => negb (memZ id matched)) ids)) as Hf.
      { apply filter_In; rewrite Em; auto. }
      apply memZ_In in Hf; congruence.
  - intros [Hi Ht]. split; [exact Hi|].
    apply negb_true_iff.
    destruct (memZ id (filter (fun id => negb (memZ id matched)) ids)) eqn:E; [|reflexivity].
    apply memZ_In, filter_In in E as [_ E].
    assert (In id matched) as Hm by (apply M; auto).
    apply memZ_In in Hm; rewrite Hm in E; discriminate.
Qed.

Lemma intersect_tags_spec db items (candidates : list (Z * R)) s :
  exists final s',
    intersect_tags db items candidates s = (inr final, s') /\
    caller_tags s' = caller_tags s /\
    forall id, In id (map fst final) <->
               In id (map fst candidates) /\
               forall key value, In (key, value) items -> In id (tag_matches db key value).
Proof.
  revert candidates s; induction items as [|[key value] items IH]; intros candidates s.
  - exists candidates, s; split; [reflexivity|split; [reflexivity|]].
    intros id; split; [intros Hc; split; [exact Hc|intros ? ? []]|intros [Hc _]; exact Hc].
  - simpl. unfold bind; simpl.
    edestruct IH as (final & s' & Run & Tags & Spec).
    eexists final, s'; split; [exact Run|]. split; [simpl in Tags; exact Tags|].
    intros id. rewrite Spec, intersect_tags_step. split.
    + intros [[Hi Ht] Hall]; split; [exact Hi|].
      intros k v [E|Hkv]; [inversion E; subst; exact Ht|exact (Hall k v Hkv)].
    + intros [Hi Hall]; split; [split; [exact Hi|apply Hall; left; reflexivity]|].
      intros k v Hkv; apply Hall; right; exact Hkv.
Qed.

(** C7. In the environment path, the loop over the remaining tags leaves
    exactly the candidates that match every tag filter: the final candidate
    set is the initial one intersected with each filter's matching issue ids
    (for any candidates and any sequence of filters). A wildcard ([ANY])
    filter keeps exactly the candidates that have the tag key. With
    candidates {1, 2, 3} and filters matching {1, 2} and {2, 3}, the result
    is {2}. *)
Theorem environment_tag_intersection :
  (forall db items (candidates : list (Z * R)) s,
     exists final,
       fst (intersect_tags db items candidates s) = inr final /\
       forall id, In id (map fst final) <->
                  In id (map fst candidates) /\
                  forall key value, In (key, value) items -> In id (tag_matches db key value)) /\
  (forall db key (candidates : list (Z * R)) s,
     exists final,
       fst (intersect_tags db [(key, VAny)] candidates s) = inr final /\
       forall id, In id (map fst final) <->
                  In id (map fst candidates) /\
                  exists t, In t (group_tag_keys db) /\ gtk_key t = key /\ gtk_group_id t = id) /\
  fst (intersect_tags ex_tag_db [("level", VStr "error"); ("browser", VStr "firefox")]
                      [(1, 0%R); (2, 0%R); (3, 0%R)] (ex_store None))
  = inr [(2, 0%R)].
Proof.
  split; [|split].
  - intros db items candidates s.
    destruct (intersect_tags_spec db items candidates s) as (final & s' & Run & _ & Spec).
    exists final; rewrite Run; split; [reflexivity|exact Spec].
  - intros db key candidates s.
    destruct (intersect_tags_spec db [(key, VAny)] candidates s) as (final & s' & Run & _ & Spec).
    exists final; rewrite Run; split; [reflexivity|].
    intros id; rewrite Spec. split.
    + intros [Hi Hall]; split; [exact Hi|].
      specialize (Hall key VAny (or_introl eq_refl)).
      unfold tag_matches in Hall; simpl in Hall.
      apply in_map_iff in Hall as [t [<- Ht]]; apply filter_In in Ht as [Ht Hk].
      exists t; repeat split; auto. apply String.eqb_eq; exact Hk.
    + intros [Hi [t (Ht & Hk & <-)]]; split; [exact Hi|].
      intros k v [E|[]]; inversion E; subst.
      unfold tag_matches; simpl. apply in_map_iff; exists t; split; [reflexivity|].
      apply filter_In; split; [exact Ht|apply String.eqb_refl].
  - reflexivity.
Qed.

(** ** Queryset stages *)

Lemma bind_inr_inv {A B} (m : M A) (k : A -> M B) s b s'' :
  bind m k s = (inr b, s'') -> exists a s', m s = (inr a, s') /\ k a s' = (inr b, s'').
Proof.
  unfold bind; destruct (m s) as [[e|a] s']; intros H; [discriminate|eauto].
Qed.

Lemma stage_then (f g : list Group -> M (list Group)) : stage_spec f -> stage_spec g -> stage_spec (f >=> g).
Proof.
  intros Hf Hg rows s; unfold then_, bind.
  specialize (Hf rows s); destruct (f rows s) as [[[e|r]|r1] s1]; simpl in *; auto.
  specialize (Hg r1 s1); destruct (g r1 s1) as [[[e|r]|r2] s2]; simpl in *; auto.
  intros x Hx; apply Hf, Hg, Hx.
Qed.

Lemma satisfy_then_stage (P : Group -> Prop) (f g : list Group -> M (list Group)) :
  (forall rows, rows_satisfy P (f rows)) -> stage_spec g ->
  forall rows, rows_satisfy P ((f >=> g) rows).
Proof.
  intros Hf Hg rows s; unfold then_, bind.
  specialize (Hf rows s); destruct (f rows s) as [[[e|r]|r1] s1]; simpl in *; auto.
  specialize (Hg r1 s1); destruct (g r1 s1) as [[[e|r]|r2] s2]; simpl in *; auto.
  - subst r; intros _ [].
Qed.

Lemma stage_then_satisfy (P : Group -> Prop) (f g : list Group -> M (list Group)) :
  stage_spec f -> (forall rows, rows_satisfy P (g rows)) ->
  forall rows, rows_satisfy P ((f >=> g) rows).
Proof.
  intros Hf Hg rows s; unfold then_, bind.
  specialize (Hf rows s); destruct (f rows s) as [[[e|r]|r1] s1]; simpl in *; auto.
  - subst r; intros _ [].
  - apply Hg.
Qed.

Lemma satisfy_function_body (P : Group -> Prop) m :
  rows_satisfy P m -> rows_satisfy P (function_body m).
Proof.
  intros H s; specialize (H s); unfold function_body.
  destruct (m s) as [[[e|r]|r] s']; simpl in *; auto.
Qed.

Ltac stage_tac :=
  intros ? ?;
  repeat match goal with
         | |- context [if ?b then _ else _] => destruct b
         end;
  simpl; auto using incl_filter_l, incl_refl.

Lemma bq_query_stage kw : stage_spec (bq_query kw).
Proof. unfold bq_query; stage_tac. Qed.

Lemma bq_status_stage kw : stage_spec (bq_status kw).
Proof. unfold bq_status; stage_tac; apply incl_filter_l. Qed.

Lemma bq_bookmarked_by_stage db project kw : stage_spec (bq_bookmarked_by db project kw).
Proof. unfold bq_bookmarked_by; stage_tac. Qed.

Lemma bq_assigned_stage db project kw : stage_spec (bq_assigned db project kw).
Proof. unfold bq_assigned; stage_tac. Qed.

Lemma bq_subscribed_by_stage db project kw : stage_spec (bq_subscribed_by db project kw).
Proof. unfold bq_subscribed_by; stage_tac. Qed.

Lemma bq_first_release_stage db project kw : stage_spec (bq_first_release db project kw).
Proof. unfold bq_first_release; stage_tac. Qed.

Lemma bq_tags_stage adapter project environment :
  stage_spec (bq_tags adapter project environment).
Proof.
  intros rows s; unfold bq_tags, bind, get_tags; simpl.
  destruct (caller_tags s) as [[|t ts]|]; simpl; try apply incl_refl.
  destruct (adapter (project_id project) environment (t :: ts)); simpl;
    [reflexivity|apply incl_filter_l].
Qed.

Lemma bq_datetime_range_stage kw name field : stage_spec (bq_datetime_range kw name field).
Proof. unfold bq_datetime_range; stage_tac; apply incl_filter_l. Qed.

Lemma bq_times_seen_stage kw : stage_spec (bq_times_seen kw).
Proof. unfold bq_times_seen; stage_tac; apply incl_filter_l. Qed.

Lemma bq_times_seen_range_stage kw : stage_spec (bq_times_seen_range kw).
Proof. unfold bq_times_seen_range; stage_tac; apply incl_filter_l. Qed.

Lemma bq_date_stage db project kw : stage_spec (bq_date db project kw).
Proof. unfold bq_date; stage_tac. Qed.

Create HintDb stages.
#[export] Hint Resolve bq_query_stage bq_status_stage bq_bookmarked_by_stage
  bq_assigned_stage bq_subscribed_by_stage bq_first_release_stage bq_tags_stage
  bq_datetime_range_stage bq_times_seen_stage bq_times_seen_range_stage
  bq_date_stage stage_then : stages.

(** ** What [build] keeps *)

Lemma filter_handler_incl {R} (h : handler R) :
  is_filter_handler h -> forall queryset v ex, incl (h queryset v ex) queryset.
Proof. intros [p Hp] queryset v ex; rewrite Hp; apply incl_filter_l. Qed.

Lemma build_incl {R} (l : registry R) queryset parameters s rows :
  (forall x, In x l -> is_filter_handler (fst (snd x))) ->
  fst (build l queryset parameters s) = inr rows -> incl rows queryset.
Proof.
  revert queryset s; induction l as [|[name [h ex]] l IH]; intros queryset s F; simpl.
  - intros E; inversion E; subst; apply incl_refl.
  - destruct (dict_get name parameters) as [v|].
    + unfold bind; rewrite extra_values_run.
      destruct (extras_result ex parameters) as [e|vs]; simpl; [discriminate|].
      intros E. apply IH in E; [|intros; apply F; right; assumption].
      intros x Hx; apply (filter_handler_incl h (F _ (or_introl eq_refl)) queryset v vs), E, Hx.
    + apply IH; intros; apply F; right; assumption.
Qed.

(** A handler that is reached with its parameter present leaves its mark
    on every row [build] returns. *)
Lemma build_applies {R} (l : registry R) name h ex v (P : R -> Prop)
  queryset parameters s rows :
  (forall x, In x l -> is_filter_handler (fst (snd x))) ->
  In (name, (h, ex)) l -> dict_get name parameters = Some v ->
  (forall queryset' extras r, In r (h queryset' v extras) -> P r) ->
  fst (build l queryset parameters s) = inr rows -> forall r, In r rows -> P r.
Proof.
  revert queryset s; induction l as [|[name' [h' ex']] l IH]; intros queryset s F Hin Hv HP;
    simpl; [contradiction|].
  destruct Hin as [E|Hin].
  - inversion E; subst name' h' ex'. rewrite Hv.
    unfold bind; rewrite extra_values_run.
    destruct (extras_result ex parameters) as [e|vs]; simpl; [discriminate|].
    intros B r Hr. apply build_incl in B; [|intros; apply F; right; assumption].
    eapply HP, B, Hr.
  - destruct (dict_get name' parameters) as [v'|].
    + unfold bind; rewrite extra_values_run.
      destruct (extras_result ex' parameters) as [e|vs]; simpl; [discriminate|].
      apply IH; auto. intros; apply F; right; assumption.
    + apply IH; auto. intros; apply F; right; assumption.
Qed.

Lemma row_matches_status g x : row_matches g "status" (VInt x) = (status g =? x).
Proof. reflexivity. Qed.

Lemma In_sort_desc x l : In x (sort_desc l) <-> In x l.
Proof.
  assert (Ins : forall y l, In x (insert_desc y l) <-> y = x \/ In x l).
  { intros y l'; induction l' as [|z l' IH]; simpl; [tauto|].
    destruct (lex_gtb y z); simpl; [tauto|]. rewrite IH; tauto. }
  induction l as [|y l IH]; simpl; [tauto|]. rewrite Ins, IH. tauto.
Qed.

Lemma zdict_set_keys {A} k (v : A) d x :
  In x (map fst (zdict_set k v d)) <-> k = x \/ In x (map fst d).
Proof.
  induction d as [|[k' v'] d IH]; simpl; [tauto|].
  destruct (k =? k') eqn:E; simpl.
  - apply Z.eqb_eq in E; subst; tauto.
  - rewrite IH; tauto.
Qed.

Lemma zdict_of_pairs_keys {A} (ps : list (Z * A)) x :
  In x (map fst (zdict_of_pairs ps)) <-> In x (map fst ps).
Proof.
  unfold zdict_of_pairs.
  assert (G : forall acc, In x (map fst (fold_left (fun d '(k, v) => zdict_set k v d) ps acc))
                          <-> In x (map fst acc) \/ In x (map fst ps)).
  { induction ps as [|[k v] ps IH]; intros acc; simpl; [tauto|].
    rewrite IH, zdict_set_keys; tauto. }
  rewrite G; simpl; tauto.
Qed.

Lemma in_bulk_get_spec db id g :
  in_bulk_get db id = Some g -> In g (groups db) /\ group_id g = id.
Proof.
  unfold in_bulk_get; intros E; apply find_some in E as [Hg E].
  split; [exact Hg|apply Z.eqb_eq; exact E].
Qed.

Lemma hydrate_spec db ids g :
  In g (hydrate db ids) -> In (group_id g) ids /\ In g (groups db).
Proof.
  unfold hydrate; intros H; apply in_flat_map in H as [id [Hid H]].
  destruct (in_bulk_get db id) as [g'|] eqn:E; [|contradiction].
  destruct H as [<-|[]]. apply in_bulk_get_spec in E as [Hg <-]; auto.
Qed.

Lemma NoDup_map_inj {A B} (f : A -> B) l x y :
  NoDup (map f l) -> In x l -> In y l -> f x = f y -> x = y.
Proof.
  induction l as [|z l IH]; simpl; [contradiction|].
  intros ND Hx Hy E; inversion ND as [|? ? Hn ND']; subst.
  destruct Hx as [<-|Hx], Hy as [<-|Hy]; auto.
  - exfalso; apply Hn; rewrite E; apply in_map; exact Hy.
  - exfalso; apply Hn; rewrite <- E; apply in_map; exact Hx.
Qed.

Lemma function_body_inr m s rows s' :
  function_body m s = (inr rows, s') ->
  m s = (inr rows, s') \/ m s = (inl (Return rows), s').
Proof.
  unfold function_body; destruct (m s) as [[[e|r]|r] s1]; intros H; inversion H; subst; auto.
Qed.

Lemma extra_values_no_return names parameters s r :
  fst (extra_values names parameters s) <> inl (Return r).
Proof.
  induction names as [|n ns IH]; simpl; [discriminate|].
  destruct (dict_get n parameters); simpl; [|discriminate].
  unfold bind; destruct (extra_values ns parameters s) as [[e|vs] s']; simpl in *;
    [exact IH|discriminate].
Qed.

Lemma build_incl_eq {R} (l : registry R) queryset parameters s rows s' :
  (forall x, In x l -> is_filter_handler (fst (snd x))) ->
  build l queryset parameters s = (inr rows, s') -> incl rows queryset.
Proof. intros F E; apply (build_incl l queryset parameters s rows F); rewrite E; reflexivity. Qed.

Lemma build_no_return {R} (l : registry R) queryset parameters s r :
  fst (build l queryset parameters s) <> inl (Return r).
Proof.
  revert queryset s; induction l as [|[name [h ex]] l IH]; intros queryset s; simpl;
    [discriminate|].
  destruct (dict_get name parameters) as [v|]; [|apply IH].
  unfold bind; pose proof (extra_values_no_return ex parameters s r) as N.
  rewrite extra_values_run in *; unfold extras_result in *.
  destruct (fst (extra_values ex parameters (mkStore [] None))) as [e|vs]; simpl in *;
    [intros E; inversion E; subst; exact (N eq_refl)|apply IH].
Qed.

Lemma build_stage (l : registry Group) parameters :
  (forall x, In x l -> is_filter_handler (fst (snd x))) ->
  stage_spec (fun queryset => build l queryset parameters).
Proof.
  intros F rows s.
  destruct (fst (build l rows parameters s)) as [[e|r]|r] eqn:E; auto.
  - exfalso; exact (build_no_return l rows parameters s r E).
  - exact (build_incl l rows parameters s r F E).
Qed.

Lemma stage_function_body f rows s r s' :
  stage_spec f -> function_body (f rows) s = (inr r, s') -> incl r rows.
Proof.
  intros St H; specialize (St rows s); unfold function_body in H.
  destruct (f rows s) as [[[e|r']|r'] s1]; simpl in *; inversion H; subst; auto.
  intros x [].
Qed.

Lemma In_firstn_skipn {A} (x : A) n m l : In x (firstn n (skipn m l)) -> In x l.
Proof.
  intros H.
  rewrite <- (firstn_skipn m l); apply in_or_app; right.
  rewrite <- (firstn_skipn n (skipn m l)); apply in_or_app; left; exact H.
Qed.

Lemma hidden_status_true g :
  hidden_status g = true <-> In (status g) [PENDING_DELETION; DELETION_IN_PROGRESS; PENDING_MERGE].
Proof.
  unfold hidden_status; rewrite existsb_exists; split.
  - intros (x & Hx & E); apply Z.eqb_eq in E; subst; exact Hx.
  - intros Hin; exists (status g); split; [exact Hin|apply Z.eqb_refl].
Qed.

(** The rows of the environment-scoped backend are among the groups the
    base handlers kept. *)
Lemma env_rows_from_base adapter db project c s rows s' :
  NoDup (map group_id (groups db)) ->
  EnvironmentDjangoSearchBackend_query adapter db project c s = (inr rows, s') ->
  exists s1 r0,
    fst (build (base_handlers db project)
               (filter (fun g => in_project project g && negb (hidden_status g)) (groups db))
               (kwargs c) s1) = inr r0 /\
    incl rows r0.
Proof.
  intros ND H; unfold EnvironmentDjangoSearchBackend_query in H.
  apply bind_inr_inv in H as (u & s1 & _ & H).
  destruct (sort_strategies (sort_by c)) as [[se vtc]|]; [|discriminate H].
  apply bind_inr_inv in H as (r0 & s2 & Hb & H).
  exists s1, r0; split; [rewrite Hb; reflexivity|].
  assert (Hr0 : incl r0 (groups db)).
  { intros g Hg. apply (build_incl_eq _ _ _ _ _ _ (base_handlers_filter db project) Hb) in Hg.
    apply filter_In in Hg as [Hg _]; exact Hg. }
  destruct (environment_id c) as [e|].
  - apply bind_inr_inv in H as (ot & s3 & _ & H).
    destruct ot as [tags|]; [|discriminate H].
    apply bind_inr_inv in H as (u1 & s4 & _ & H).
    apply bind_inr_inv in H as (env & s5 & _ & H).
    apply bind_inr_inv in H as (u2 & s6 & _ & H).
    apply bind_inr_inv in H as (joined & s7 & Hj & H).
    apply bind_inr_inv in H as (value & s8 & _ & H).
    apply bind_inr_inv in H as (tvs & s9 & Htv & H).
    apply bind_inr_inv in H as (ot' & s10 & _ & H).
    apply bind_inr_inv in H as (cands & s11 & Hc & H).
    unfold ret in H; inversion H; subst rows; clear H.
    intros g Hg. apply hydrate_spec in Hg as [Hid Hgdb].
    unfold SequencePaginator_get_result in Hid.
    apply in_map_iff in Hid as [x [Ex Hx]].
    apply In_firstn_skipn, In_sort_desc, in_map_iff in Hx as [[id score] [Ep Hp]].
    subst x; simpl in Ex; subst id.
    apply (in_map fst) in Hp; simpl in Hp.
    destruct (intersect_tags_spec db (match ot' with Some d => d | None => [] end)
                (zdict_of_pairs (map (fun t => (gtv_group_id t, se t)) tvs)) s10)
      as (final & s12 & Ef & _ & Hkeys).
    rewrite Hc in Ef; inversion Ef; subst final s12; clear Ef.
    apply Hkeys in Hp as [Hp _].
    apply (proj1 (zdict_of_pairs_keys _ _)) in Hp; rewrite map_map in Hp; simpl in Hp.
    apply in_map_iff in Hp as [t [Et Ht]].
    apply (build_incl_eq _ _ _ _ _ _ tag_value_handlers_filter Htv) in Ht.
    apply filter_In in Ht as [_ Ht].
    apply andb_true_iff in Ht as [_ Ht]; apply memZ_In in Ht.
    rewrite Et in Ht; apply in_map_iff in Ht as [[g0 ge] [E0 Hge]].
    apply (build_incl_eq _ _ _ _ _ _ (environment_release_handlers_filter db project) Hj) in Hge.
    apply filter_In in Hge as [Hge _]; apply in_prod_iff in Hge as [Hg0 _].
    replace g with g0; [exact Hg0|].
    apply (NoDup_map_inj group_id (groups db)); auto.
  - assert (St : stage_spec ((fun q => build (group_handlers db project) q (kwargs c))
                             >=> bq_tags adapter project None)).
    { apply stage_then; [apply build_stage, group_handlers_filter|apply bq_tags_stage]. }
    change (function_body (((fun q => build (group_handlers db project) q (kwargs c))
                             >=> bq_tags adapter project None) r0) s2 = (inr rows, s')) in H.
    exact (stage_function_body _ _ _ _ _ St H).
Qed.

(** The plain backend's rows satisfy whatever its [query] and [status]
    blocks establish: the later blocks only narrow. *)
Lemma plain_rows_satisfy (P : Group -> Prop) adapter db project c :
  (forall rows, rows_satisfy P ((bq_query (kwargs c) >=> bq_status (kwargs c)) rows)) ->
  rows_satisfy P (DjangoSearchBackend_query adapter db project c).
Proof.
  intros H; unfold DjangoSearchBackend_query, DjangoSearchBackend_build_queryset.
  apply satisfy_function_body.
  do 11 (apply satisfy_then_stage; [|auto with stages]).
  apply H.
Qed.

Lemma plain_status_default kw rows :
  dict_get "status" kw = None ->
  rows_satisfy (fun g => hidden_status g = false) ((bq_query kw >=> bq_status kw) rows).
Proof.
  intros Hs s; unfold then_, bind, bq_query.
  destruct (truthy (arg kw "query" VNone)); simpl;
    unfold bq_status, arg, dict_get_default; rewrite Hs; simpl;
    intros g Hg; apply filter_In in Hg as [_ Hg]; apply negb_true_iff; exact Hg.
Qed.

Lemma plain_status_given kw rows x :
  dict_get "status" kw = Some (VInt x) ->
  rows_satisfy (fun g => status g = x) ((bq_query kw >=> bq_status kw) rows).
Proof.
  intros Hs s; unfold then_, bind, bq_query.
  destruct (truthy (arg kw "query" VNone)); simpl;
    unfold bq_status, arg, dict_get_default; rewrite Hs; simpl;
    intros g Hg; apply filter_In in Hg as [_ Hg]; unfold filter_kw in Hg; simpl in Hg;
    rewrite andb_true_r, row_matches_status in Hg; apply Z.eqb_eq; exact Hg.
Qed.

(** ** C1: the default status exclusion and the explicit status filter *)

(** C1. On both backends, a search without a [status] parameter returns no
    issue whose status is pending deletion, deletion in progress or pending
    merge, and a search with [status=X] returns only issues of status [X]
    (also when [X] is one of those three). *)
Theorem status_filter_semantics :
  forall adapter db project c s rows s',
    NoDup (map group_id (groups db)) ->
    DjangoSearchBackend_query adapter db project c s = (inr rows, s') \/
    EnvironmentDjangoSearchBackend_query adapter db project c s = (inr rows, s') ->
    forall g, In g rows ->
      (dict_get "status" (kwargs c) = None ->
         ~ In (status g) [PENDING_DELETION; DELETION_IN_PROGRESS; PENDING_MERGE]) /\
      (forall x, dict_get "status" (kwargs c) = Some (VInt x) -> status g = x).
Proof.
  intros adapter db project c s rows s' ND [H|H] g Hg; split.
  - intros Hs.
    pose proof (plain_rows_satisfy _ adapter db project c
                  (fun rows => plain_status_default _ rows Hs) s) as P.
    rewrite H in P; simpl in P; apply P in Hg.
    rewrite <- hidden_status_true, Hg; discriminate.
  - intros x Hs.
    pose proof (plain_rows_satisfy _ adapter db project c
                  (fun rows => plain_status_given _ rows x Hs) s) as P.
    rewrite H in P; simpl in P; exact (P g Hg).
  - intros Hs.
    destruct (env_rows_from_base adapter db project c s rows s' ND H) as (s1 & r0 & Hb & Hi).
    apply Hi, (build_incl _ _ _ _ _ (base_handlers_filter db project) Hb) in Hg.
    apply filter_In in Hg as [_ Hg]; apply andb_true_iff in Hg as [_ Hg].
    apply negb_true_iff in Hg; rewrite <- hidden_status_true, Hg; discriminate.
  - intros x Hs.
    destruct (env_rows_from_base adapter db project c s rows s' ND H) as (s1 & r0 & Hb & Hi).
    apply Hi in Hg.
    eapply (build_applies (base_handlers db project) "status" _ _ (VInt x)
              (fun g => status g = x) _ _ s1 r0).
    + apply base_handlers_filter.
    + unfold base_handlers; simpl; right; left; reflexivity.
    + exact Hs.
    + intros q ex r Hr; simpl in Hr; apply filter_In in Hr as [_ Hr].
      unfold filter_kw in Hr; simpl in Hr.
      rewrite andb_true_r, row_matches_status in Hr; apply Z.eqb_eq; exact Hr.
    + exact Hb.
    + exact Hg.
Qed.

Lemma status_filter_semantics_witness :
  (dict_get "status" (kwargs (ex_call None [])) = None ->
     ~ In (status ex_g3) [PENDING_DELETION; DELETION_IN_PROGRESS; PENDING_MERGE]) /\
  (forall x, dict_get "status" (kwargs (ex_call None [])) = Some (VInt x) -> status ex_g3 = x).
Proof.
  apply (status_filter_semantics no_matches ex_db ex_project (ex_call None []) (ex_store None)
           [ex_g1; ex_g3] (mkStore [Filtered "status"] None)).
  - repeat constructor; simpl; lia.
  - left; vm_compute; reflexivity.
  - right; left; reflexivity.
Defined.

(** ** C2: the date range precondition of the environment-scoped backend *)

(** C2. The precondition [assert 'date_from' not in kwargs and 'date_from'
    not in kwargs] tests [date_from] twice: a call of the
    environment-scoped backend with [date_to] passes it and returns the
    same rows as the call without [date_to], the bound being silently
    dropped, while a call with [date_from] fails; the plain backend does
    apply [date_to]. *)
Theorem env_date_to_not_rejected :
  fst (EnvironmentDjangoSearchBackend_query no_matches ex_db ex_project
         (ex_call None [("date_to", VDate 7)]) (ex_store None)) = inr [ex_g1; ex_g3] /\
  fst (EnvironmentDjangoSearchBackend_query no_matches ex_db ex_project
         (ex_call None []) (ex_store None)) = inr [ex_g1; ex_g3] /\
  fst (EnvironmentDjangoSearchBackend_query no_matches ex_db ex_project
         (ex_call None [("date_from", VDate 7)]) (ex_store None)) = inl (Raise AssertionError) /\
  fst (DjangoSearchBackend_query no_matches ex_db ex_project
         (ex_call None [("date_to", VDate 7)]) (ex_store None)) = inr [].
Proof. vm_compute; repeat split. Qed.

(** ** C3: [assigned_to] together with [unassigned] *)

(** C3. With both [assigned_to=7] and [unassigned=True], the plain backend
    ignores [unassigned] ([elif]) and returns the issue assigned to user 7,
    while the environment-scoped backend applies both handlers and returns
    nothing, although with [assigned_to=7] alone it returns that issue. *)
Theorem env_assigned_to_with_unassigned :
  fst (DjangoSearchBackend_query no_matches ex_db ex_project
         (ex_call None [("assigned_to", VObj 7); ("unassigned", VBool true)])
         (ex_store None)) = inr [ex_g1] /\
  fst (EnvironmentDjangoSearchBackend_query no_matches ex_db ex_project
         (ex_call None [("assigned_to", VObj 7)]) (ex_store None)) = inr [ex_g1] /\
  fst (EnvironmentDjangoSearchBackend_query no_matches ex_db ex_project
         (ex_call None [("assigned_to", VObj 7); ("unassigned", VBool true)])
         (ex_store None)) = inr [].
Proof. vm_compute; repeat split. Qed.

(** ** C4: [first_release=EMPTY] *)

(** C4. The plain backend returns [queryset.none()] as soon as it meets
    [first_release=EMPTY], before the tag store is consulted; the
    environment-scoped backend has no [EMPTY] check: it filters by the
    sentinel as a release version and then calls the tag store adapter. *)
Theorem env_first_release_EMPTY_not_short_circuited :
  DjangoSearchBackend_query no_matches ex_db ex_project
    (ex_call None [("first_release", VEmpty)]) (ex_store (Some [("foo", VStr "bar")]))
  = (inr [], mkStore [Filtered "status"] (Some [("foo", VStr "bar")])) /\
  EnvironmentDjangoSearchBackend_query no_matches ex_db ex_project
    (ex_call None [("first_release", VEmpty)]) (ex_store (Some [("foo", VStr "bar")]))
  = (inr [], mkStore [Filtered "first_release"; TagstoreSearch 1 None [("foo", VStr "bar")]]
                     (Some [("foo", VStr "bar")])).
Proof. vm_compute; split; reflexivity. Qed.

(** ** C6: the inclusive flags of the range filters *)

Lemma scalar_condition_ops {R} `{Model R} field (col : R -> Z) (mk : Z -> pyval) p rows T incl :
  In field ["first_seen"; "last_seen"; "active_at"; "times_seen"] ->
  mk = VDate \/ mk = VInt ->
  (forall r, field_value r field = Some (mk (col r))) ->
  fst (scalar_condition p field "gt") rows (mk T) [incl]
    = filter (fun r => lower_ok (truthy incl) T (col r)) rows /\
  fst (scalar_condition p field "lt") rows (mk T) [incl]
    = filter (fun r => upper_ok (truthy incl) T (col r)) rows.
Proof.
  intros Hf Hmk Hcol; simpl; unfold filter_kw; split; apply filter_ext; intros r;
    simpl; rewrite andb_true_r; unfold row_matches, lower_ok, upper_ok;
    destruct Hf as [<-|[<-|[<-|[<-|[]]]]];
    destruct (truthy incl); simpl; rewrite Hcol;
    destruct Hmk as [->| ->]; reflexivity.
Qed.

Ltac range_tac :=
  unfold bq_datetime_range, arg, dict_get_default, range_params, filter_kw;
  simpl in *; repeat match goal with H : dict_get _ _ = _ |- _ => rewrite H end;
  simpl; f_equal; apply filter_ext; intros g; unfold lower_ok, upper_ok;
  repeat match goal with |- context [truthy ?x] => destruct (truthy x) end;
  unfold row_matches; simpl; rewrite ?andb_true_r; reflexivity.

(** C6. In every range filter the sibling inclusive flag chooses the
    comparison: [>=] (upper bound [<=]) when it holds and [>] (upper bound
    [<]) when it does not, both in the blocks of the plain backend (for
    [age] on [first_seen], [last_seen] and [active_at], for
    [times_seen_lower]/[times_seen_upper] on [times_seen], and for
    [date_from]/[date_to] on the time of the events whose groups are kept;
    the flag defaults to inclusive) and in [scalar_condition] of the environment-scoped
    backend (dates and [times_seen], on groups and on tag value rows); in
    particular [age_from=100] with [age_from_inclusive=False] drops the
    issue first seen at 100 and keeps the one first seen at 101, on both
    backends. *)
Theorem scalar_range_inclusive_flag :
  (forall name field (col : Group -> Z),
     In (name, field, col) [("age", "first_seen", first_seen);
                            ("last_seen", "last_seen", last_seen);
                            ("active_at", "active_at", active_at)] ->
     forall kw rows s T,
       let lower_inclusive := truthy (arg kw (name ++ "_from_inclusive") (VBool true)) in
       let upper_inclusive := truthy (arg kw (name ++ "_to_inclusive") (VBool true)) in
       (dict_get (name ++ "_from") kw = Some (VDate T) ->
        dict_get (name ++ "_to") kw = None ->
        fst (bq_datetime_range kw name field rows s)
          = inr (filter (fun g => lower_ok lower_inclusive T (col g)) rows)) /\
       (dict_get (name ++ "_from") kw = None ->
        dict_get (name ++ "_to") kw = Some (VDate T) ->
        fst (bq_datetime_range kw name field rows s)
          = inr (filter (fun g => upper_ok upper_inclusive T (col g)) rows)) /\
       (forall U, dict_get (name ++ "_from") kw = Some (VDate T) ->
        dict_get (name ++ "_to") kw = Some (VDate U) ->
        fst (bq_datetime_range kw name field rows s)
          = inr (filter (fun g => lower_ok lower_inclusive T (col g)
                                  && upper_ok upper_inclusive U (col g)) rows))) /\
  (forall R `{Model R} field (col : R -> Z) (mk : Z -> pyval) p rows T incl,
     In field ["first_seen"; "last_seen"; "active_at"; "times_seen"] ->
     mk = VDate \/ mk = VInt ->
     (forall r, field_value r field = Some (mk (col r))) ->
     fst (scalar_condition p field "gt") rows (mk T) [incl]
       = filter (fun r => lower_ok (truthy incl) T (col r)) rows /\
     fst (scalar_condition p field "lt") rows (mk T) [incl]
       = filter (fun r => upper_ok (truthy incl) T (col r)) rows) /\
  (forall kw rows s n,
     let lower_inclusive := truthy (arg kw "times_seen_lower_inclusive" (VBool true)) in
     let upper_inclusive := truthy (arg kw "times_seen_upper_inclusive" (VBool true)) in
     (dict_get "times_seen_lower" kw = Some (VInt n) ->
      dict_get "times_seen_upper" kw = None ->
      fst (bq_times_seen_range kw rows s)
        = inr (filter (fun g => lower_ok lower_inclusive n (times_seen g)) rows)) /\
     (dict_get "times_seen_lower" kw = None ->
      dict_get "times_seen_upper" kw = Some (VInt n) ->
      fst (bq_times_seen_range kw rows s)
        = inr (filter (fun g => upper_ok upper_inclusive n (times_seen g)) rows)) /\
     (forall m, dict_get "times_seen_lower" kw = Some (VInt n) ->
      dict_get "times_seen_upper" kw = Some (VInt m) ->
      fst (bq_times_seen_range kw rows s)
        = inr (filter (fun g => lower_ok lower_inclusive n (times_seen g)
                                && upper_ok upper_inclusive m (times_seen g)) rows))) /\
  (forall db project kw rows s T,
     let lower_inclusive := truthy (arg kw "date_from_inclusive" (VBool true)) in
     let upper_inclusive := truthy (arg kw "date_to_inclusive" (VBool true)) in
     let query := arg kw "query" VNone in
     (dict_get "date_from" kw = Some (VDate T) ->
      dict_get "date_to" kw = None ->
      fst (bq_date db project kw rows s)
        = inr (filter (id_in (date_groups db project query
                                (fun d => lower_ok lower_inclusive T d))) rows)) /\
     (dict_get "date_from" kw = None ->
      dict_get "date_to" kw = Some (VDate T) ->
      fst (bq_date db project kw rows s)
        = inr (filter (id_in (date_groups db project query
                                (fun d => upper_ok upper_inclusive T d))) rows)) /\
     (forall U, dict_get "date_from" kw = Some (VDate T) ->
      dict_get "date_to" kw = Some (VDate U) ->
      fst (bq_date db project kw rows s)
        = inr (filter (id_in (date_groups db project query
                                (fun d => lower_ok lower_inclusive T d
                                          && upper_ok upper_inclusive U d))) rows))) /\
  fst (DjangoSearchBackend_query no_matches ex_db ex_project
         (ex_call None [("age_from", VDate 100); ("age_from_inclusive", VBool false)])
         (ex_store None)) = inr [ex_g3] /\
  fst (EnvironmentDjangoSearchBackend_query no_matches ex_db ex_project
         (ex_call None [("age_from", VDate 100); ("age_from_inclusive", VBool false)])
         (ex_store None)) = inr [ex_g3].
Proof.
  split; [|split; [|split; [|split; [|split]]]].
  - intros name field col Hin kw rows s T lower_inclusive upper_inclusive.
    subst lower_inclusive upper_inclusive.
    destruct Hin as [E|[E|[E|[]]]]; inversion E; subst; clear E;
      repeat split; intros; range_tac.
  - intros R HM field col mk p rows T incl Hf Hmk Hcol.
    exact (scalar_condition_ops field col mk p rows T incl Hf Hmk Hcol).
  - intros kw rows s n li ui; subst li ui; repeat split; intros;
      unfold bq_times_seen_range; range_tac.
  - intros db0 p kw rows s T li ui q; subst li ui q; repeat split; intros;
      unfold bq_date, date_groups, arg, dict_get_default, range_params, filter_kw;
      simpl in *; repeat match goal with H : dict_get _ _ = _ |- _ => rewrite H end;
      simpl; do 2 f_equal;
      match goal with
      | |- context [filter ?P (events db0)] =>
          match goal with
          | |- context [filter ?Q (events db0)] =>
              assert (E : filter P (events db0) = filter Q (events db0))
                by (apply filter_ext; intros ev; unfold lower_ok, upper_ok;
                    repeat match goal with |- context [truthy ?x] => destruct (truthy x) end;
                    unfold row_matches; simpl; rewrite ?andb_true_r; reflexivity);
              rewrite E; reflexivity
          end
      end.
  - vm_compute; reflexivity.
  - vm_compute; reflexivity.
Qed.

Lemma scalar_range_inclusive_flag_witness :
  fst (bq_datetime_range [("age_from", VDate 100); ("age_from_inclusive", VBool false)]
         "age" "first_seen" [ex_g1; ex_g3] (ex_store None))
    = inr (filter (fun g => lower_ok false 100 (first_seen g)) [ex_g1; ex_g3]) /\
  fst (scalar_condition (R := Group) "age_from" "first_seen" "gt") [ex_g1; ex_g3]
      (VDate 100) [VBool false]
    = filter (fun g => lower_ok false 100 (first_seen g)) [ex_g1; ex_g3] /\
  fst (bq_times_seen_range [("times_seen_upper", VInt 100); ("times_seen_upper_inclusive", VBool false)]
         [ex_g1; ex_g3] (ex_store None))
    = inr (filter (fun g => upper_ok false 100 (times_seen g)) [ex_g1; ex_g3]) /\
  fst (bq_date ex_event_db ex_project [("date_from", VDate 150); ("date_from_inclusive", VBool false)]
         [ex_g1; ex_g3] (ex_store None))
    = inr (filter (id_in (date_groups ex_event_db ex_project VNone (fun d => lower_ok false 150 d)))
                  [ex_g1; ex_g3]).
Proof.
  split; [|split; [|split]].
  - exact (proj1 (proj1 scalar_range_inclusive_flag "age" "first_seen" first_seen
                    (or_introl eq_refl) [("age_from", VDate 100); ("age_from_inclusive", VBool false)]
                    [ex_g1; ex_g3] (ex_store None) 100) eq_refl eq_refl).
  - refine (proj1 (proj1 (proj2 scalar_range_inclusive_flag) Group _ "first_seen" first_seen
                     VDate "age_from" [ex_g1; ex_g3] 100 (VBool false) _ _ _)).
    + simpl; auto.
    + left; reflexivity.
    + intros r; reflexivity.
  - exact (proj1 (proj2 (proj1 (proj2 (proj2 scalar_range_inclusive_flag))
                    [("times_seen_upper", VInt 100); ("times_seen_upper_inclusive", VBool false)]
                    [ex_g1; ex_g3] (ex_store None) 100)) eq_refl eq_refl).
  - exact (proj1 (proj1 (proj2 (proj2 (proj2 scalar_range_inclusive_flag)))
                    ex_event_db ex_project
                    [("date_from", VDate 150); ("date_from_inclusive", VBool false)]
                    [ex_g1; ex_g3] (ex_store None) 150) eq_refl eq_refl).
Defined.

(** ** C10: the caller's [tags] in the environment path *)

Lemma dict_remove_idem k d : dict_remove k (dict_remove k d) = dict_remove k d.
Proof.
  induction d as [|[k' v] d IH]; simpl; [reflexivity|].
  destruct (String.eqb k k') eqn:E; simpl; [exact IH|rewrite E; simpl; f_equal; exact IH].
Qed.

Lemma dict_get_remove k d : dict_get k (dict_remove k d) = None.
Proof.
  induction d as [|[k' v] d IH]; simpl; [reflexivity|].
  destruct (String.eqb k k') eqn:E; simpl; [exact IH|rewrite E; exact IH].
Qed.

Lemma dict_remove_absent k d : dict_get k d = None -> dict_remove k d = d.
Proof.
  induction d as [|[k' v] d IH]; simpl; [reflexivity|].
  destruct (String.eqb k k') eqn:E; simpl; [discriminate|intros H; f_equal; exact (IH H)].
Qed.

Lemma popped_or_same_refl o : popped_or_same o o.
Proof. left; reflexivity. Qed.

Lemma popped_or_same_trans o1 o2 o3 :
  popped_or_same o1 o2 -> popped_or_same o2 o3 -> popped_or_same o1 o3.
Proof.
  intros [->|(d & -> & ->)] H23; [exact H23|].
  destruct H23 as [->|(d' & E & ->)]; right; exists d; split; auto.
  inversion E; subst; rewrite dict_remove_idem; reflexivity.
Qed.

Lemma frame_bind {A B} (m : M A) (k : A -> M B) :
  frame m -> (forall a, frame (k a)) -> frame (bind m k).
Proof.
  intros Hm Hk s; unfold bind; specialize (Hm s).
  destruct (m s) as [[e|a] s1]; simpl in *; [exact Hm|].
  eapply popped_or_same_trans; [exact Hm|apply Hk].
Qed.

Lemma frame_state {A} (m : M A) : (forall s, caller_tags (snd (m s)) = caller_tags s) -> frame m.
Proof. intros H s; rewrite H; apply popped_or_same_refl. Qed.

Lemma build_tags {R} (l : registry R) queryset parameters s :
  caller_tags (snd (build l queryset parameters s)) = caller_tags s.
Proof.
  revert queryset s; induction l as [|[name [h ex]] l IH]; intros queryset s; simpl;
    [reflexivity|].
  destruct (dict_get name parameters); [|apply IH].
  unfold bind; pose proof (extra_values_state ex parameters s) as E.
  destruct (extra_values ex parameters s) as [[e|vs] s1]; simpl in *; subst; [reflexivity|].
  rewrite IH; reflexivity.
Qed.

Lemma build_tags_eq {R} (l : registry R) queryset parameters s r s' :
  build l queryset parameters s = (r, s') -> caller_tags s' = caller_tags s.
Proof.
  intros E; pose proof (build_tags l queryset parameters s) as T; rewrite E in T; exact T.
Qed.

Lemma frame_build {R} (l : registry R) queryset parameters : frame (build l queryset parameters).
Proof. apply frame_state; intros; apply build_tags. Qed.

Lemma Environment_get_inv db project name s env s' :
  Environment_get db project name s = (inr env, s') ->
  s' = s /\ In env (environments db) /\ memZ (project_id project) (env_projects env) = true /\
  py_eqb (VStr (env_name env)) name = true.
Proof.
  unfold Environment_get.
  destruct (filter _ (environments db)) as [|e [|e2 l]] eqn:E; simpl; intros H;
    inversion H; subst.
  assert (Hin : In env (filter (fun e => memZ (project_id project) (env_projects e)
                                        && py_eqb (VStr (env_name e)) name) (environments db)))
    by (rewrite E; left; reflexivity).
  apply filter_In in Hin as [Hin Hp]; apply andb_true_iff in Hp as [Hp1 Hp2].
  auto.
Qed.

Lemma frame_Environment_get db project name : frame (Environment_get db project name).
Proof.
  apply frame_state; intros s; unfold Environment_get.
  destruct (filter _ (environments db)) as [|e [|e2 l]]; reflexivity.
Qed.

Lemma frame_intersect_tags db items (candidates : list (Z * R)) :
  frame (intersect_tags db items candidates).
Proof.
  apply frame_state; intros s.
  destruct (intersect_tags_spec db items candidates s) as (final & s' & -> & E & _); exact E.
Qed.

Lemma frame_tags_pop : frame (tags_pop "environment").
Proof.
  intros s; unfold tags_pop.
  destruct (caller_tags s) as [d|] eqn:E; [|left; simpl; exact E].
  destruct (dict_get "environment" d); simpl; [right; exists d; auto|left; exact E].
Qed.

Lemma frame_function_body m : frame m -> frame (function_body m).
Proof.
  intros H s; specialize (H s); unfold function_body.
  destruct (m s) as [[[e|r]|r] s']; exact H.
Qed.

Ltac frame_tac :=
  repeat match goal with
  | |- frame (bind _ _) => apply frame_bind; [|intros ?]
  | |- frame (function_body _) => apply frame_function_body
  | |- frame (build _ _ _) => apply frame_build
  | |- frame (Environment_get _ _ _) => apply frame_Environment_get
  | |- frame (intersect_tags _ _ _) => apply frame_intersect_tags
  | |- frame (tags_pop _) => apply frame_tags_pop
  | |- frame (match ?x with _ => _ end) => destruct x
  | |- frame (assert ?b) => unfold assert; destruct b
  | |- frame _ => apply frame_state; intros ?; reflexivity
  end.

Lemma env_query_frame adapter db project c :
  frame (EnvironmentDjangoSearchBackend_query adapter db project c).
Proof.
  unfold EnvironmentDjangoSearchBackend_query; cbv zeta.
  frame_tac.
Qed.

Lemma assert_inv b s u s' : assert b s = (inr u, s') -> b = true /\ s' = s.
Proof. unfold assert; destruct b; intros H; inversion H; auto. Qed.

(** C10. On a call of the environment-scoped backend with an
    [environment_id], the caller's [tags] mapping ends either untouched or
    without its [environment] entry; a call that returns requires [tags] to
    have an [environment] entry naming the project's environment whose id is
    [environment_id], and leaves the caller's mapping without that entry; a
    call whose [tags] has no [environment] entry fails and leaves the
    mapping unchanged. *)
Theorem environment_tags_popped :
  forall adapter db project c s r s' tags e,
    environment_id c = Some e -> caller_tags s = Some tags ->
    EnvironmentDjangoSearchBackend_query adapter db project c s = (r, s') ->
    (caller_tags s' = Some tags \/ caller_tags s' = Some (dict_remove "environment" tags)) /\
    (forall rows, r = inr rows ->
       has_key "environment" tags = true /\
       (exists env, In env (environments db) /\
          memZ (project_id project) (env_projects env) = true /\
          py_eqb (VStr (env_name env)) (dict_get_default "environment" tags VNone) = true /\
          env_id env = e) /\
       caller_tags s' = Some (dict_remove "environment" tags) /\
       has_key "environment" (dict_remove "environment" tags) = false) /\
    (has_key "environment" tags = false -> (exists x, r = inl x) /\ caller_tags s' = Some tags).
Proof.
  intros adapter db project c s r s' tags e He Ht H.
  assert (Fd : caller_tags s' = Some tags \/
               caller_tags s' = Some (dict_remove "environment" tags)).
  { pose proof (env_query_frame adapter db project c s) as F.
    rewrite H, Ht in F; simpl in F.
    destruct F as [->|(d & E & ->)]; [left; reflexivity|right; inversion E; reflexivity]. }
  assert (Succ : forall rows, r = inr rows ->
    has_key "environment" tags = true /\
    (exists env, In env (environments db) /\
       memZ (project_id project) (env_projects env) = true /\
       py_eqb (VStr (env_name env)) (dict_get_default "environment" tags VNone) = true /\
       env_id env = e) /\
    caller_tags s' = Some (dict_remove "environment" tags) /\
    has_key "environment" (dict_remove "environment" tags) = false).
  { intros rows ->; unfold EnvironmentDjangoSearchBackend_query in H.
    apply bind_inr_inv in H as (u & s1 & A1 & H); apply assert_inv in A1 as [_ ->].
    destruct (sort_strategies (sort_by c)) as [[se vtc]|]; [|discriminate H].
    apply bind_inr_inv in H as (r0 & s2 & Hb & H).
    pose proof (build_tags_eq _ _ _ _ _ _ Hb) as T2; rewrite Ht in T2.
    rewrite He in H.
    apply bind_inr_inv in H as (ot & s3 & G & H); unfold get_tags in G; inversion G;
      subst ot s3; clear G.
    rewrite T2 in H.
    apply bind_inr_inv in H as (u1 & s4 & A2 & H); apply assert_inv in A2 as [Hk ->].
    apply bind_inr_inv in H as (env & s5 & Ge & H).
    apply Environment_get_inv in Ge as (-> & Hin & Hm & Hn).
    apply bind_inr_inv in H as (u2 & s6 & A3 & H); apply assert_inv in A3 as [Hid ->].
    apply bind_inr_inv in H as (joined & s7 & Hj & H).
    pose proof (build_tags_eq _ _ _ _ _ _ Hj) as T7; rewrite T2 in T7.
    apply bind_inr_inv in H as (value & s8 & P & H).
    unfold tags_pop in P; rewrite T7 in P.
    destruct (dict_get "environment" tags) eqn:Eg; [|discriminate P].
    inversion P; subst value s8; clear P.
    apply bind_inr_inv in H as (tvs & s9 & Htv & H).
    pose proof (build_tags_eq _ _ _ _ _ _ Htv) as T9; simpl in T9.
    apply bind_inr_inv in H as (ot' & s10 & G & H); unfold get_tags in G; inversion G;
      subst ot' s10; clear G.
    apply bind_inr_inv in H as (cands & s11 & Hc & H).
    destruct (intersect_tags_spec db (match caller_tags s9 with Some d => d | None => [] end)
                (zdict_of_pairs (map (fun t => (gtv_group_id t, se t)) tvs)) s9)
      as (final & s12 & Ef & Et & _).
    rewrite Hc in Ef; inversion Ef; subst final s12; clear Ef.
    unfold ret in H; inversion H; subst s'; clear H.
    split; [exact Hk|]. split.
    - exists env; repeat split; auto. apply Z.eqb_eq; exact Hid.
    - split; [congruence|]. unfold has_key; rewrite dict_get_remove; reflexivity. }
  split; [exact Fd|]. split; [exact Succ|].
  intros Hk; destruct r as [x|rows].
  - split; [exists x; reflexivity|].
    destruct Fd as [Fd|Fd]; [exact Fd|].
    rewrite dict_remove_absent in Fd; [exact Fd|].
    unfold has_key in Hk; destruct (dict_get "environment" tags); [discriminate|reflexivity].
  - destruct (Succ rows eq_refl) as [Hk' _]; congruence.
Qed.

Lemma environment_tags_popped_witness :
  has_key "environment" (dict_remove "environment"
    [("environment", VStr "production"); ("browser", VStr "firefox")]) = false /\
  Some [("browser", VStr "firefox")]
    = Some (dict_remove "environment"
              [("environment", VStr "production"); ("browser", VStr "firefox")]).
Proof.
  destruct (environment_tags_popped no_matches ex_db ex_project (ex_call (Some 10) [])
              (ex_store (Some [("environment", VStr "production"); ("browser", VStr "firefox")]))
              (inr [ex_g1])
              (mkStore [TagValueQuery "browser" (VStr "firefox")]
                       (Some [("browser", VStr "firefox")]))
              [("environment", VStr "production"); ("browser", VStr "firefox")] 10
              eq_refl eq_refl ltac:(vm_compute; reflexivity))
    as [_ [Succ _]].
  destruct (Succ [ex_g1] eq_refl) as (_ & _ & E & K).
  split; [exact K|exact E].
Defined.

(** ** C5: the tag store adapter in the group queryset paths *)

Lemma quiet_bind {A B} (m : M A) (k : A -> M B) :
  quiet m -> (forall a, quiet (k a)) -> quiet (bind m k).
Proof.
  intros Hm Hk s; unfold bind; destruct (Hm s) as [T1 [n1 E1]].
  destruct (m s) as [[e|a] s1]; simpl in *; [split; eauto|].
  destruct (Hk a s1) as [T2 [n2 E2]]; split; [congruence|].
  exists (n1 ++ n2); rewrite E2, E1, map_app, app_assoc; reflexivity.
Qed.

Lemma quiet_then (f g : list Group -> M (list Group)) :
  (forall r, quiet (f r)) -> (forall r, quiet (g r)) -> forall r, quiet ((f >=> g) r).
Proof. intros Hf Hg r; apply quiet_bind; auto. Qed.

Ltac quiet_tac :=
  intros ?;
  repeat match goal with |- context [if ?b then _ else _] => destruct b end;
  intros ?; simpl;
  (split; [reflexivity|first [exists []; rewrite app_nil_r; reflexivity
                             | eexists [_]; reflexivity]]).

Lemma bq_query_quiet kw : forall r, quiet (bq_query kw r).
Proof. unfold bq_query; quiet_tac. Qed.

Lemma bq_status_quiet kw : forall r, quiet (bq_status kw r).
Proof. unfold bq_status; quiet_tac. Qed.

Lemma bq_bookmarked_by_quiet db project kw : forall r, quiet (bq_bookmarked_by db project kw r).
Proof. unfold bq_bookmarked_by; quiet_tac. Qed.

Lemma bq_assigned_quiet db project kw : forall r, quiet (bq_assigned db project kw r).
Proof. unfold bq_assigned; quiet_tac. Qed.

Lemma bq_subscribed_by_quiet db project kw : forall r, quiet (bq_subscribed_by db project kw r).
Proof. unfold bq_subscribed_by; quiet_tac. Qed.

Lemma bq_first_release_quiet db project kw : forall r, quiet (bq_first_release db project kw r).
Proof. unfold bq_first_release; quiet_tac. Qed.

Lemma build_quiet {R} (l : registry R) parameters : forall queryset, quiet (build l queryset parameters).
Proof.
  induction l as [|[name [h ex]] l IH]; intros queryset s; simpl.
  - split; [reflexivity|exists []; rewrite app_nil_r; reflexivity].
  - destruct (dict_get name parameters) as [v|]; [|apply IH].
    unfold bind; pose proof (extra_values_state ex parameters s) as E.
    destruct (extra_values ex parameters s) as [[e|vs] s1]; simpl in *; subst.
    + split; [reflexivity|exists []; rewrite app_nil_r; reflexivity].
    + destruct (IH (h queryset v vs) (mkStore (trace s ++ [Filtered name]) (caller_tags s)))
        as [T [ns E]]; simpl in *.
      split; [exact T|]. exists (name :: ns); rewrite E, <- app_assoc; reflexivity.
Qed.

Create HintDb quiet.
#[export] Hint Resolve quiet_then bq_query_quiet bq_status_quiet bq_bookmarked_by_quiet
  bq_assigned_quiet bq_subscribed_by_quiet bq_first_release_quiet : quiet.

Lemma satisfy_from_then_stage tags (P : Group -> Prop) (f g : list Group -> M (list Group)) :
  (forall rows, rows_satisfy_from tags P (f rows)) -> stage_spec g ->
  forall rows, rows_satisfy_from tags P ((f >=> g) rows).
Proof.
  intros Hf Hg rows s Ht; unfold then_, bind.
  specialize (Hf rows s Ht); destruct (f rows s) as [[[e|r]|r1] s1]; simpl in *; auto.
  specialize (Hg r1 s1); destruct (g r1 s1) as [[[e|r]|r2] s2]; simpl in *; auto.
  subst r; intros _ [].
Qed.

Lemma stage_from_then_satisfy tags (P : Group -> Prop) (f g : list Group -> M (list Group)) :
  stage_spec f -> (forall rows, quiet (f rows)) ->
  (forall rows, rows_satisfy_from tags P (g rows)) ->
  forall rows, rows_satisfy_from tags P ((f >=> g) rows).
Proof.
  intros Hf Hq Hg rows s Ht; unfold then_, bind.
  specialize (Hf rows s); destruct (Hq rows s) as [T _].
  destruct (f rows s) as [[[e|r]|r1] s1]; simpl in *; auto.
  - subst r; intros _ [].
  - apply Hg; congruence.
Qed.

Lemma satisfy_from_function_body tags (P : Group -> Prop) m :
  rows_satisfy_from tags P m -> rows_satisfy_from tags P (function_body m).
Proof.
  intros H s Ht; specialize (H s Ht); unfold function_body.
  destruct (m s) as [[[e|r]|r] s']; simpl in *; auto.
Qed.

Lemma bq_tags_satisfy adapter project environment tags rows :
  tags <> [] ->
  rows_satisfy_from tags
    (fun g => In (group_id g) (adapter (project_id project) environment tags))
    (bq_tags adapter project environment rows).
Proof.
  intros Hne s Ht; unfold bq_tags, bind, get_tags; simpl; rewrite Ht.
  destruct tags as [|t ts]; [contradiction|]; simpl.
  destruct (adapter (project_id project) environment (t :: ts)) as [|z l] eqn:E; simpl;
    [intros _ []|].
  intros g Hg; apply filter_In in Hg as [_ Hg]; unfold id_in in Hg.
  exact (proj1 (memZ_In _ _) Hg).
Qed.

Lemma bq_tags_empty adapter project environment tags rows s :
  tags <> [] -> adapter (project_id project) environment tags = [] ->
  caller_tags s = Some tags ->
  bq_tags adapter project environment rows s
  = (inl (Return []),
     mkStore (trace s ++ [TagstoreSearch (project_id project) environment tags]) (Some tags)).
Proof.
  intros Hne E Ht; unfold bq_tags, bind, get_tags; simpl; rewrite Ht.
  destruct tags as [|t ts]; [contradiction|]; simpl; rewrite E; unfold early_return.
  rewrite Ht; reflexivity.
Qed.

Lemma empty_return_then tags o (f g : list Group -> M (list Group)) :
  (forall rows, empty_return_from tags o (f rows)) ->
  forall rows, empty_return_from tags o ((f >=> g) rows).
Proof.
  intros Hf rows s Ht; specialize (Hf rows s Ht); unfold then_, bind.
  destruct (f rows s) as [[e|r] s1]; [exact Hf|contradiction].
Qed.

Lemma empty_return_tags adapter project environment tags (f : list Group -> M (list Group)) :
  tags <> [] -> adapter (project_id project) environment tags = [] ->
  stage_spec f -> (forall rows, quiet (f rows)) ->
  forall rows, empty_return_from tags (TagstoreSearch (project_id project) environment tags)
                 ((f >=> bq_tags adapter project environment) rows).
Proof.
  intros Hne E Hf Hq rows s Ht; unfold then_, bind.
  specialize (Hf rows s); destruct (Hq rows s) as [T [ns Tr]].
  destruct (f rows s) as [[[e|r]|r1] s1] eqn:Ef; simpl in *; auto.
  - split; [exact Hf|right; exists ns; exact Tr].
  - rewrite (bq_tags_empty adapter project environment tags r1 s1 Hne E);
      [|rewrite T; exact Ht].
    split; [reflexivity|left; eexists; reflexivity].
Qed.

Lemma empty_return_function_body tags o m s rows s' :
  empty_return_from tags o m -> caller_tags s = Some tags ->
  function_body m s = (inr rows, s') -> rows = [] /\ tagstore_last o s s'.
Proof.
  intros H Ht E; specialize (H s Ht); unfold function_body in E.
  destruct (m s) as [[[e|r]|r] s1]; inversion E; subst; auto; contradiction.
Qed.

Lemma tagstore_last_extend o s1 s2 s' names :
  trace s2 = trace s1 ++ map Filtered names -> tagstore_last o s2 s' -> tagstore_last o s1 s'.
Proof.
  intros E [H|(ns & H)]; [left; exact H|right].
  exists (names ++ ns); rewrite H, E, map_app, app_assoc; reflexivity.
Qed.

(** The plain backend: the rows are among the adapter's matches, and when
    it has none the search ends at once. *)
Lemma plain_tags_restrict adapter db project c tags :
  tags <> [] ->
  rows_satisfy_from tags
    (fun g => In (group_id g) (adapter (project_id project) (environment_id c) tags))
    (DjangoSearchBackend_query adapter db project c).
Proof.
  intros Hne; unfold DjangoSearchBackend_query, DjangoSearchBackend_build_queryset.
  apply satisfy_from_function_body.
  do 6 (apply satisfy_from_then_stage; [|auto with stages]).
  apply stage_from_then_satisfy; [auto 10 with stages|auto 10 with quiet|].
  intros; apply bq_tags_satisfy; exact Hne.
Qed.

Lemma plain_tags_empty adapter db project c tags s rows s' :
  tags <> [] -> adapter (project_id project) (environment_id c) tags = [] ->
  caller_tags s = Some tags ->
  DjangoSearchBackend_query adapter db project c s = (inr rows, s') ->
  rows = [] /\
  tagstore_last (TagstoreSearch (project_id project) (environment_id c) tags) s s'.
Proof.
  intros Hne E Ht H; unfold DjangoSearchBackend_query, DjangoSearchBackend_build_queryset in H.
  eapply empty_return_function_body; [|exact Ht|exact H].
  do 6 apply empty_return_then.
  apply empty_return_tags; [exact Hne|exact E|auto 10 with stages|auto 10 with quiet].
Qed.

(** The environment-scoped backend without an environment: the same. *)
Lemma env_none_tags adapter db project c tags s rows s' :
  environment_id c = None -> tags <> [] -> caller_tags s = Some tags ->
  EnvironmentDjangoSearchBackend_query adapter db project c s = (inr rows, s') ->
  (forall g, In g rows -> In (group_id g) (adapter (project_id project) None tags)) /\
  (adapter (project_id project) None tags = [] ->
   rows = [] /\ tagstore_last (TagstoreSearch (project_id project) None tags) s s').
Proof.
  intros He Hne Ht H; unfold EnvironmentDjangoSearchBackend_query in H.
  apply bind_inr_inv in H as (u & s1 & A1 & H); apply assert_inv in A1 as [_ ->].
  destruct (sort_strategies (sort_by c)) as [[se vtc]|]; [|discriminate H].
  apply bind_inr_inv in H as (r0 & s2 & Hb & H).
  destruct (build_quiet (base_handlers db project) (kwargs c)
              (filter (fun g => in_project project g && negb (hidden_status g)) (groups db)) s)
    as [T2 [ns Tr2]].
  rewrite Hb in T2, Tr2; simpl in T2, Tr2.
  rewrite He in H.
  change (function_body (((fun q => build (group_handlers db project) q (kwargs c))
                           >=> bq_tags adapter project None) r0) s2 = (inr rows, s')) in H.
  split.
  - pose proof (satisfy_from_function_body tags _ _
      (stage_from_then_satisfy tags _ _ _ (build_stage (group_handlers db project) (kwargs c) (group_handlers_filter db project))
         (build_quiet (group_handlers db project) (kwargs c)) (fun rows => bq_tags_satisfy adapter project None tags rows Hne) r0)
      s2 ltac:(rewrite T2; exact Ht)) as P.
    rewrite H in P; exact P.
  - intros E.
    destruct (empty_return_function_body tags _ _ s2 rows s'
                (empty_return_tags adapter project None tags _ Hne E
                   (build_stage (group_handlers db project) (kwargs c) (group_handlers_filter db project)) (build_quiet (group_handlers db project) (kwargs c)) r0)
                ltac:(rewrite T2; exact Ht) H) as [-> Tl].
    split; [reflexivity|exact (tagstore_last_extend _ _ _ _ _ Tr2 Tl)].
Qed.

(** ** C9: the [priority] ranking *)

Lemma lex_gtb_spec a b :
  lex_gtb a b = true <-> fst b < fst a \/ (fst a = fst b /\ snd b < snd a).
Proof.
  unfold lex_gtb; rewrite orb_true_iff, andb_true_iff, Z.ltb_lt, Z.eqb_eq, Z.ltb_lt; tauto.
Qed.

Lemma lex_gtb_irrefl a : lex_gtb a a = false.
Proof. apply not_true_iff_false; rewrite lex_gtb_spec; lia. Qed.

Lemma lex_gtb_asym a b : lex_gtb a b = true -> lex_gtb b a = false.
Proof. rewrite lex_gtb_spec; intros H; apply not_true_iff_false; rewrite lex_gtb_spec; lia. Qed.

Lemma lex_gtb_total a b : lex_gtb a b = false -> lex_gtb b a = false -> a = b.
Proof.
  destruct a as [a1 a2], b as [b1 b2]; intros H1 H2.
  apply not_true_iff_false in H1, H2; rewrite lex_gtb_spec in H1, H2; simpl in *.
  f_equal; lia.
Qed.

(** [a] is at least [b] in the order of [sorted(..., reverse=True)]. *)
Definition lex_ge (a b : Z * Z) : Prop := lex_gtb b a = false.

Lemma lex_ge_trans a b c : lex_ge a b -> lex_ge b c -> lex_ge a c.
Proof.
  unfold lex_ge; destruct a as [a1 a2], b as [b1 b2], c as [c1 c2]; intros H1 H2.
  apply not_true_iff_false in H1, H2; apply not_true_iff_false.
  rewrite lex_gtb_spec in *; simpl in *; lia.
Qed.

Lemma HdRel_insert_desc y x l :
  HdRel lex_ge y l -> lex_ge y x -> HdRel lex_ge y (insert_desc x l).
Proof.
  intros H Hyx; destruct l as [|z l]; simpl; [constructor; exact Hyx|].
  destruct (lex_gtb x z); constructor; [exact Hyx|inversion H; assumption].
Qed.

Lemma insert_desc_sorted x l : Sorted lex_ge l -> Sorted lex_ge (insert_desc x l).
Proof.
  induction l as [|y l IH]; simpl; intros S; [repeat constructor|].
  destruct (lex_gtb x y) eqn:E.
  - constructor; [exact S|constructor; apply lex_gtb_asym; exact E].
  - inversion S; subst; constructor; [apply IH; assumption|].
    apply HdRel_insert_desc; assumption.
Qed.

Lemma sort_desc_sorted l : StronglySorted lex_ge (sort_desc l).
Proof.
  apply Sorted_StronglySorted; [intros a b c; apply lex_ge_trans|].
  induction l as [|x l IH]; simpl; [constructor|apply insert_desc_sorted; exact IH].
Qed.

Lemma insert_desc_perm x l : Permutation (insert_desc x l) (x :: l).
Proof.
  induction l as [|y l IH]; simpl; [reflexivity|].
  destruct (lex_gtb x y); [reflexivity|].
  rewrite IH; apply perm_swap.
Qed.

Lemma sort_desc_perm l : Permutation (sort_desc l) l.
Proof.
  induction l as [|x l IH]; simpl; [reflexivity|].
  rewrite insert_desc_perm, IH; reflexivity.
Qed.

Lemma sorted_before l x y :
  StronglySorted lex_ge l -> In x l -> In y l -> lex_gtb x y = true -> before x y l.
Proof.
  induction l as [|a l IH]; intros S Hx Hy G; [contradiction|].
  inversion S as [|? ? S' F]; subst.
  destruct Hx as [<-|Hx].
  - destruct Hy as [<-|Hy]; [rewrite lex_gtb_irrefl in G; discriminate|].
    exists [], l; split; [reflexivity|exact Hy].
  - destruct Hy as [<-|Hy].
    + rewrite Forall_forall in F; specialize (F x Hx); unfold lex_ge in F; congruence.
    + destruct (IH S' Hx Hy G) as (l1 & l2 & E & Hl2).
      exists (a :: l1), l2; split; [rewrite E; reflexivity|exact Hl2].
Qed.

Lemma sorted_perm_eq l1 l2 :
  StronglySorted lex_ge l1 -> StronglySorted lex_ge l2 -> Permutation l1 l2 -> l1 = l2.
Proof.
  revert l2; induction l1 as [|a l1 IH]; intros l2 S1 S2 P.
  - symmetry; apply Permutation_nil; exact P.
  - destruct l2 as [|b l2]; [apply Permutation_sym, Permutation_nil in P; discriminate|].
    inversion S1 as [|? ? S1' F1]; inversion S2 as [|? ? S2' F2]; subst.
    assert (Eab : a = b).
    { destruct (Permutation_in a P (or_introl eq_refl)) as [->|Ha]; [reflexivity|].
      destruct (Permutation_in b (Permutation_sym P) (or_introl eq_refl)) as [->|Hb];
        [reflexivity|].
      rewrite Forall_forall in F1, F2.
      apply lex_gtb_total; [exact (F2 a Ha)|exact (F1 b Hb)]. }
    subst b; f_equal; apply IH; auto.
    exact (Permutation_cons_inv P).
Qed.

Lemma rank_candidates_perm vtc l l' :
  Permutation l l' -> rank_candidates vtc l = rank_candidates vtc l'.
Proof.
  intros P; unfold rank_candidates; apply sorted_perm_eq; try apply sort_desc_sorted.
  rewrite !sort_desc_perm; apply Permutation_map; exact P.
Qed.

Lemma rank_candidates_before vtc candidates idA sA idB sB :
  In (idA, sA) candidates -> In (idB, sB) candidates ->
  vtc sB < vtc sA \/ (vtc sA = vtc sB /\ idB < idA) ->
  before (vtc sA, idA) (vtc sB, idB) (rank_candidates vtc candidates).
Proof.
  intros HA HB G; unfold rank_candidates; apply sorted_before; [apply sort_desc_sorted| | |].
  - apply In_sort_desc; apply (in_map (fun '(id, score) => (vtc score, id))) in HA; exact HA.
  - apply In_sort_desc; apply (in_map (fun '(id, score) => (vtc score, id))) in HB; exact HB.
  - apply lex_gtb_spec; simpl; exact G.
Qed.

(** The real-number facts of the [priority] score. *)

Lemma ln10_pos : (0 < ln 10)%R.
Proof. rewrite <- ln_1; apply ln_increasing; lra. Qed.

Lemma py_int_IZR z : py_int (IZR z) = z.
Proof.
  assert (I : forall z, Int_part (IZR z) = z).
  { intros k; unfold Int_part.
    rewrite <- (tech_up (IZR k) (k + 1)); [lia| |]; rewrite plus_IZR; lra. }
  unfold py_int; destruct (Rle_dec 0 (IZR z)).
  - apply I.
  - rewrite <- opp_IZR, I; lia.
Qed.

Lemma py_int_between (r : R) z :
  (0 <= IZR z)%R -> (IZR z <= r < IZR z + 1)%R -> py_int r = z.
Proof.
  intros Hz [H1 H2]; unfold py_int; destruct (Rle_dec 0 r); [|lra].
  unfold Int_part; rewrite <- (tech_up r (z + 1)); [lia| |]; rewrite plus_IZR; lra.
Qed.

Lemma pg_log_pow10 n : pg_log (10 ^ n) = INR n.
Proof.
  unfold pg_log; rewrite ln_pow; [|lra].
  field; apply Rgt_not_eq, ln10_pos.
Qed.

Lemma log10_11_bounds : (624 < pg_log 11 * 600 < 625)%R.
Proof.
  assert (L : forall n : nat, INR n = IZR (Z.of_nat n)) by (intros; apply INR_IZR_INZ).
  assert (A : (624 * ln 10 < 600 * ln 11 < 625 * ln 10)%R).
  { replace 624%R with (INR 624) by (rewrite L; reflexivity).
    replace 625%R with (INR 625) by (rewrite L; reflexivity).
    replace 600%R with (INR 600) by (rewrite L; reflexivity).
    rewrite <- !ln_pow by lra.
    split; apply ln_increasing; try (apply pow_lt; lra);
      rewrite !pow_IZR; apply IZR_lt; vm_compute; reflexivity. }
  pose proof ln10_pos as P.
  assert (E : (pg_log 11 * ln 10 = ln 11)%R)
    by (unfold pg_log; field; apply Rgt_not_eq; exact P).
  split; apply (Rmult_lt_reg_r (ln 10)); try exact P;
    rewrite Rmult_assoc, (Rmult_comm 600), <- Rmult_assoc, E; lra.
Qed.

Lemma priority_score_100 L :
  py_int (pg_log (IZR 100) * 600 + IZR L)%R = 1200 + L.
Proof.
  replace (IZR 100) with (10 ^ 2)%R by (simpl; lra).
  rewrite pg_log_pow10, <- (py_int_IZR (1200 + L)), plus_IZR; f_equal; simpl; lra.
Qed.

Lemma priority_score_10 L :
  py_int (pg_log (IZR 10) * 600 + IZR L)%R = 600 + L.
Proof.
  replace (IZR 10) with (10 ^ 1)%R by (simpl; lra).
  rewrite pg_log_pow10, <- (py_int_IZR (600 + L)), plus_IZR; f_equal; simpl; lra.
Qed.

(** C9, as the code has it. For [sort_by='priority'] the sort expression of
    a tag value row is [log(times_seen) * 600 + last_seen] (a base-10
    logarithm) and the cursor score is its Python [int], a truncation; the
    candidates are ranked by descending (cursor score, issue id), so an
    issue with a higher cursor score, or the same cursor score and a higher
    id, comes first; with equal [last_seen], [times_seen] 100 against 10
    gives cursor scores [1200 + last_seen] and [600 + last_seen], so the
    first issue ranks above the second; and the ranking does not depend on
    the order of the candidates. *)
Theorem priority_ranking :
  (exists sort_expression,
     sort_strategies "priority" = Some (sort_expression, py_int) /\
     forall t, sort_expression t
               = (pg_log (IZR (gtv_times_seen t)) * 600 + IZR (gtv_last_seen t))%R) /\
  (forall (value_to_cursor_score : R -> Z) candidates idA sA idB sB,
     In (idA, sA) candidates -> In (idB, sB) candidates ->
     value_to_cursor_score sB < value_to_cursor_score sA \/
     (value_to_cursor_score sA = value_to_cursor_score sB /\ idB < idA) ->
     before (value_to_cursor_score sA, idA) (value_to_cursor_score sB, idB)
            (rank_candidates value_to_cursor_score candidates)) /\
  (forall tA tB,
     gtv_times_seen tA = 100 -> gtv_times_seen tB = 10 ->
     gtv_last_seen tA = gtv_last_seen tB ->
     match sort_strategies "priority" with
     | Some (sort_expression, value_to_cursor_score) =>
         value_to_cursor_score (sort_expression tA) = 1200 + gtv_last_seen tA /\
         value_to_cursor_score (sort_expression tB) = 600 + gtv_last_seen tB /\
         forall candidates,
           In (gtv_group_id tA, sort_expression tA) candidates ->
           In (gtv_group_id tB, sort_expression tB) candidates ->
           before (value_to_cursor_score (sort_expression tA), gtv_group_id tA)
                  (value_to_cursor_score (sort_expression tB), gtv_group_id tB)
                  (rank_candidates value_to_cursor_score candidates)
     | None => False
     end) /\
  (forall (value_to_cursor_score : R -> Z) candidates candidates',
     Permutation candidates candidates' ->
     rank_candidates value_to_cursor_score candidates
     = rank_candidates value_to_cursor_score candidates').
Proof.
  split; [|split; [|split]].
  - eexists; split; [reflexivity|intros t; reflexivity].
  - exact rank_candidates_before.
  - intros tA tB HA HB HL; simpl.
    assert (EA : py_int (pg_log (IZR (gtv_times_seen tA)) * 600 + IZR (gtv_last_seen tA))%R
                 = 1200 + gtv_last_seen tA) by (rewrite HA; apply priority_score_100).
    assert (EB : py_int (pg_log (IZR (gtv_times_seen tB)) * 600 + IZR (gtv_last_seen tB))%R
                 = 600 + gtv_last_seen tB) by (rewrite HB; apply priority_score_10).
    split; [exact EA|split; [exact EB|]].
    intros candidates InA InB.
    apply rank_candidates_before; [exact InA|exact InB|].
    rewrite EA, EB, HL; lia.
  - exact rank_candidates_perm.
Qed.

Lemma priority_ranking_witness :
  match sort_strategies "priority" with
  | Some (sort_expression, value_to_cursor_score) =>
      value_to_cursor_score (sort_expression (mkGroupTagValue 1 1 "environment" "production" 100 200 100))
        = 1200 + 200 /\
      value_to_cursor_score (sort_expression (mkGroupTagValue 1 3 "environment" "production" 101 200 10))
        = 600 + 200 /\
      forall candidates,
        In (1, sort_expression (mkGroupTagValue 1 1 "environment" "production" 100 200 100))
           candidates ->
        In (3, sort_expression (mkGroupTagValue 1 3 "environment" "production" 101 200 10))
           candidates ->
        before (value_to_cursor_score
                  (sort_expression (mkGroupTagValue 1 1 "environment" "production" 100 200 100)), 1)
               (value_to_cursor_score
                  (sort_expression (mkGroupTagValue 1 3 "environment" "production" 101 200 10)), 3)
               (rank_candidates value_to_cursor_score candidates)
  | None => False
  end.
Proof.
  exact (proj1 (proj2 (proj2 priority_ranking))
           (mkGroupTagValue 1 1 "environment" "production" 100 200 100)
           (mkGroupTagValue 1 3 "environment" "production" 101 200 10)
           eq_refl eq_refl eq_refl).
Defined.

(** C9 as stated fails: the rank is the truncated score, not
    [log(times_seen) * 600 + last_seen]. Issue 1 ([times_seen] 11,
    [last_seen] 976) has the real score 976 + 600 log 11 (about 1600.84),
    above the score 1600 of issue 2 ([times_seen] 10, [last_seen] 1000);
    both truncate to 1600, and the id then ranks issue 2 first. *)
Lemma priority_truncation_tie :
  match sort_strategies "priority" with
  | Some (sort_expression, value_to_cursor_score) =>
      let A := mkGroupTagValue 1 2 "environment" "production" 0 1000 10 in
      let B := mkGroupTagValue 1 1 "environment" "production" 0 976 11 in
      (sort_expression A < sort_expression B)%R /\
      rank_candidates value_to_cursor_score [(1, sort_expression B); (2, sort_expression A)]
        = [(1600, 2); (1600, 1)] /\
      SequencePaginator_get_result
        (map (fun '(id, score) => (value_to_cursor_score score, id))
             [(1, sort_expression B); (2, sort_expression A)]) 100 0 = [2; 1]
  | None => False
  end.
Proof.
  simpl.
  pose proof log10_11_bounds as Bd.
  assert (SA : (pg_log (IZR 10) * 600 + IZR 1000 = 1600)%R).
  { replace (IZR 10) with (10 ^ 1)%R by (simpl; lra).
    rewrite pg_log_pow10; simpl; lra. }
  assert (PA : py_int (pg_log (IZR 10) * 600 + IZR 1000)%R = 1600).
  { rewrite SA; apply (py_int_IZR 1600). }
  assert (PB : py_int (pg_log (IZR 11) * 600 + IZR 976)%R = 1600).
  { apply py_int_between; lra. }
  split; [lra|].
  unfold rank_candidates, SequencePaginator_get_result; simpl map.
  rewrite PA, PB; split; reflexivity.
Qed.

(** * Further properties of the backends *)

(** ** [QueryBuilder.build]: when it raises *)

Lemma extra_values_raise names parameters s e s' :
  extra_values names parameters s = (inl e, s') ->
  exists x, In x names /\ dict_get x parameters = None /\ e = Raise (KeyError x).
Proof.
  revert e s'; induction names as [|n ns IH]; intros e s' H; simpl in H; [discriminate|].
  destruct (dict_get n parameters) eqn:Ev.
  - unfold bind in H.
    destruct (extra_values ns parameters s) as [[e'|vs] s1] eqn:E1; inversion H; subst.
    destruct (IH _ _ eq_refl) as (x & Hx & Hd & Ee). exists x; simpl; auto.
  - inversion H; subst. exists n; simpl; auto.
Qed.


Lemma build_raise {R} (l : registry R) queryset parameters s e :
  fst (build l queryset parameters s) = inl e ->
  exists name h ex v x, In (name, (h, ex)) l /\ dict_get name parameters = Some v /\
    In x ex /\ dict_get x parameters = None /\ e = Raise (KeyError x).
Proof.
  revert queryset s; induction l as [|[name [h ex]] l IH]; intros queryset s H; simpl in H;
    [discriminate|].
  destruct (dict_get name parameters) as [v|] eqn:Ev.
  - unfold bind in H.
    destruct (extra_values ex parameters s) as [[e'|vs] s1] eqn:E1; simpl in H.
    + inversion H; subst.
      destruct (extra_values_raise _ _ _ _ _ E1) as (x & Hx & Hd & ->).
      exists name, h, ex, v, x; simpl; auto.
    + destruct (IH _ _ H) as (n' & h' & ex' & v' & x & Hin & Rest).
      exists n', h', ex', v', x; simpl; auto.
  - destruct (IH _ _ H) as (n' & h' & ex' & v' & x & Hin & Rest).
    exists n', h', ex', v', x; simpl; auto.
Qed.


(** [build] raises at the first handler whose extra parameter is missing
    when the handlers before it have no extra parameters. *)
Lemma build_first_missing {R} (l l1 l2 : registry R) name h x queryset parameters s v :
  l = l1 ++ (name, (h, [x])) :: l2 ->
  (forall y, In y l1 -> snd (snd y) = []) ->
  dict_get name parameters = Some v -> dict_get x parameters = None ->
  fst (build l queryset parameters s) = inl (Raise (KeyError x)) /\
  caller_tags (snd (build l queryset parameters s)) = caller_tags s.
Proof.
  intros ->; revert queryset s; induction l1 as [|[n [h' ex]] l1 IH];
    intros queryset s Hl Hv Hx; simpl.
  - rewrite Hv. unfold bind; simpl; rewrite Hx; simpl; split; reflexivity.
  - assert (ex = []) as -> by exact (Hl (n, (h', ex)) (or_introl eq_refl)).
    assert (Hl' : forall y, In y l1 -> snd (snd y) = []) by (intros; apply Hl; right; auto).
    destruct (dict_get n parameters) as [w|].
    + unfold bind; simpl.
      edestruct IH as [A B]; [exact Hl'|exact Hv|exact Hx|]. split; [exact A|exact B].
    + apply IH; auto.
Qed.


Lemma env_assert_passes kw s :
  has_key "date_from" kw = false ->
  assert (negb (has_key "date_from" kw) && negb (has_key "date_from" kw)) s = (inr tt, s).
Proof. intros H; rewrite H; reflexivity. Qed.

(** X3. The environment-scoped backend raises [KeyError] for a [sort_by]
    that is not one of the [sort_strategies], before it reads any table or
    touches the caller's [tags]: the state is left as it was. *)
Theorem env_query_unknown_sort_by :
  forall adapter db project c s,
    has_key "date_from" (kwargs c) = false -> sort_strategies (sort_by c) = None ->
    EnvironmentDjangoSearchBackend_query adapter db project c s
      = (inl (Raise (KeyError (sort_by c))), s).
Proof.
  intros adapter db project c s Hd Hs; unfold EnvironmentDjangoSearchBackend_query.
  rewrite (bind_inr _ _ s tt s (env_assert_passes (kwargs c) s Hd)), Hs; reflexivity.
Qed.

Lemma env_query_unknown_sort_by_witness :
  EnvironmentDjangoSearchBackend_query no_matches ex_db ex_project
    (mkCall "relevance" None 0 100 []) (ex_store (Some [("environment", VStr "production")]))
  = (inl (Raise (KeyError "relevance")), ex_store (Some [("environment", VStr "production")])).
Proof.
  exact (env_query_unknown_sort_by no_matches ex_db ex_project (mkCall "relevance" None 0 100 [])
           (ex_store (Some [("environment", VStr "production")])) eq_refl eq_refl).
Defined.





(** ** The rows of the environment path *)

Lemma build_applies_vs {R} (l : registry R) name h ex v vs (P : R -> Prop)
  queryset parameters s rows :
  (forall x, In x l -> is_filter_handler (fst (snd x))) ->
  In (name, (h, ex)) l -> dict_get name parameters = Some v ->
  extras_result ex parameters = inr vs ->
  (forall queryset' r, In r (h queryset' v vs) -> P r) ->
  fst (build l queryset parameters s) = inr rows -> forall r, In r rows -> P r.
Proof.
  revert queryset s; induction l as [|[name' [h' ex']] l IH];
    intros queryset s F Hin Hv Hvs HP; simpl; [contradiction|].
  destruct Hin as [E|Hin].
  - inversion E; subst name' h' ex'. rewrite Hv.
    unfold bind; rewrite extra_values_run, Hvs; simpl.
    intros B r Hr. apply build_incl in B; [|intros; apply F; right; assumption].
    eapply HP, B, Hr.
  - destruct (dict_get name' parameters) as [v'|].
    + unfold bind; rewrite extra_values_run.
      destruct (extras_result ex' parameters) as [e|vs']; simpl; [discriminate|].
      apply IH; auto. intros; apply F; right; assumption.
    + apply IH; auto. intros; apply F; right; assumption.
Qed.

(** A row kept by a filtering handler is kept when it is alone. *)
Lemma filter_handler_single {R} (h : handler R) queryset v vs r :
  is_filter_handler h -> In r (h queryset v vs) -> In r (h [r] v vs).
Proof.
  intros [p Hp]; rewrite !Hp; intros Hr; apply filter_In in Hr as [_ Hr].
  simpl; rewrite Hr; left; reflexivity.
Qed.

Lemma py_eqb_VStr a v : py_eqb (VStr a) v = true -> v = VStr a.
Proof. destruct v; simpl; try discriminate. intros E; apply String.eqb_eq in E; subst; reflexivity. Qed.

Lemma NoDup_firstn_skipn {A} n m (l : list A) : NoDup l -> NoDup (firstn n (skipn m l)).
Proof.
  intros ND.
  assert (N2 : NoDup (skipn m l)).
  { rewrite <- (firstn_skipn m l) in ND; exact (NoDup_app_remove_l _ _ ND). }
  rewrite <- (firstn_skipn n (skipn m l)) in N2; exact (NoDup_app_remove_r _ _ N2).
Qed.

Lemma NoDup_keys_filter {A} (f : Z * A -> bool) (d : list (Z * A)) :
  NoDup (map fst d) -> NoDup (map fst (filter f d)).
Proof.
  induction d as [|x d IH]; simpl; [auto|].
  intros ND; inversion ND as [|? ? Hn ND']; subst.
  destruct (f x); simpl; [|auto].
  constructor; [|auto].
  intros Hin; apply Hn. apply in_map_iff in Hin as [y [Ey Hy]].
  apply filter_In in Hy as [Hy _]. rewrite <- Ey; apply in_map; exact Hy.
Qed.

Lemma zdict_set_NoDup {A} k (v : A) d : NoDup (map fst d) -> NoDup (map fst (zdict_set k v d)).
Proof.
  induction d as [|[k' v'] d IH]; simpl; intros ND; [constructor; [intros []|constructor]|].
  inversion ND as [|? ? Hn ND']; subst.
  destruct (k =? k') eqn:E; simpl.
  - apply Z.eqb_eq in E; subst; constructor; auto.
  - constructor; [|auto].
    rewrite zdict_set_keys; intros [E'|Hin]; [subst; rewrite Z.eqb_refl in E; discriminate|auto].
Qed.

Lemma zdict_of_pairs_NoDup {A} (ps : list (Z * A)) : NoDup (map fst (zdict_of_pairs ps)).
Proof.
  unfold zdict_of_pairs.
  assert (G : forall acc, NoDup (map fst acc) ->
                NoDup (map fst (fold_left (fun d '(k, v) => zdict_set k v d) ps acc))).
  { induction ps as [|[k v] ps IH]; intros acc ND; simpl; [exact ND|].
    apply IH, zdict_set_NoDup, ND. }
  apply G; constructor.
Qed.

Lemma filter_filter_and {A} (p q : A -> bool) (l : list A) :
  filter p (filter q l) = filter (fun x => q x && p x) l.
Proof.
  induction l as [|a l IH]; simpl; [reflexivity|].
  destruct (q a); simpl; [destruct (p a); simpl; rewrite IH; reflexivity|exact IH].
Qed.

(** The loop over the tags only deletes candidates. *)
Lemma intersect_tags_filter db items (candidates : list (Z * R)) s final s' :
  intersect_tags db items candidates s = (inr final, s') ->
  exists f, final = filter f candidates.
Proof.
  revert candidates s; induction items as [|[key value] items IH]; intros candidates s H;
    simpl in H.
  - inversion H; subst; exists (fun _ => true); symmetry; apply filter_true.
  - unfold bind in H; simpl in H. apply IH in H as [f ->].
    rewrite fold_zdict_del, filter_filter_and; eexists; reflexivity.
Qed.

Lemma map_snd_scored (vtc : R -> Z) (l : list (Z * R)) :
  map snd (map (fun '(id, score) => (vtc score, id)) l) = map fst l.
Proof. induction l as [|[id score] l IH]; simpl; congruence. Qed.

(** What a call of the environment path that returns has done: the page is
    a window of at most [limit] distinct candidate ids, and each of them has
    a [GroupEnvironment] row for the environment (with the requested first
    release) and a [GroupTagValue] row of the environment tag that passed
    the scalar handlers. *)
Lemma env_path_shape adapter db project c s rows s' e tags :
  environment_id c = Some e -> caller_tags s = Some tags ->
  EnvironmentDjangoSearchBackend_query adapter db project c s = (inr rows, s') ->
  exists page, rows = hydrate db page /\ (List.length page <= limit c)%nat /\ NoDup page /\
    forall id, In id page ->
      (exists ge, In ge (group_environments db) /\ ge_group_id ge = id /\
         ge_environment_id ge = e /\
         forall v, dict_get "first_release" (kwargs c) = Some v ->
                   release_pred db project (ge_first_release_id ge) v = true) /\
      (exists t, In t (group_tag_values db) /\ gtv_group_id t = id /\
         gtv_project_id t = project_id project /\ gtv_key t = "environment" /\
         dict_get "environment" tags = Some (VStr (gtv_value t)) /\
         forall name h ex v vs, In (name, (h, ex)) tag_value_handlers ->
           dict_get name (kwargs c) = Some v -> extras_result ex (kwargs c) = inr vs ->
           In t (h [t] v vs)) /\
      (forall key value, In (key, value) (dict_remove "environment" tags) ->
         In id (tag_matches db key value)).
Proof.
  intros He Ht H; unfold EnvironmentDjangoSearchBackend_query in H.
  apply bind_inr_inv in H as (u & s1 & A1 & H); apply assert_inv in A1 as [_ ->].
  destruct (sort_strategies (sort_by c)) as [[se vtc]|]; [|discriminate H].
  apply bind_inr_inv in H as (r0 & s2 & Hb & H).
  pose proof (build_tags_eq _ _ _ _ _ _ Hb) as T2; rewrite Ht in T2.
  rewrite He in H.
  apply bind_inr_inv in H as (ot & s3 & G & H); unfold get_tags in G; inversion G;
    subst ot s3; clear G.
  rewrite T2 in H.
  apply bind_inr_inv in H as (u1 & s4 & A2 & H); apply assert_inv in A2 as [_ ->].
  apply bind_inr_inv in H as (env & s5 & Ge & H).
  apply Environment_get_inv in Ge as (-> & _).
  apply bind_inr_inv in H as (u2 & s6 & A3 & H); apply assert_inv in A3 as [_ ->].
  apply bind_inr_inv in H as (joined & s7 & Hj & H).
  pose proof (build_tags_eq _ _ _ _ _ _ Hj) as T7; rewrite T2 in T7.
  apply bind_inr_inv in H as (value & s8 & P & H).
  unfold tags_pop in P; rewrite T7 in P.
  destruct (dict_get "environment" tags) as [value'|] eqn:Eg; [|discriminate P].
  injection P as Ev Es8; subst value'.
  apply bind_inr_inv in H as (tvs & s9 & Htv & H).
  pose proof (build_tags_eq _ _ _ _ _ _ Htv) as T9; rewrite <- Es8 in T9; simpl in T9.
  apply bind_inr_inv in H as (ot' & s10 & G & H); unfold get_tags in G; inversion G;
    subst ot' s10; clear G.
  apply bind_inr_inv in H as (cands & s11 & Hc & H).
  unfold ret in H; inversion H; subst rows s'; clear H.
  set (cands0 := zdict_of_pairs (map (fun t => (gtv_group_id t, se t)) tvs)) in Hc.
  exists (SequencePaginator_get_result
            (map (fun '(id, score) => (vtc score, id)) cands) (limit c) (cursor c)).
  split; [reflexivity|]. split; [|split].
  - unfold SequencePaginator_get_result; rewrite length_map; apply firstn_le_length.
  - unfold SequencePaginator_get_result; rewrite <- firstn_map, <- skipn_map.
    apply NoDup_firstn_skipn.
    apply (Permutation_NoDup (l := map snd (map (fun '(id, score) => (vtc score, id)) cands))).
    + apply Permutation_map; symmetry; apply sort_desc_perm.
    + rewrite map_snd_scored.
      destruct (intersect_tags_filter _ _ _ _ _ _ Hc) as [f ->].
      apply NoDup_keys_filter, zdict_of_pairs_NoDup.
  - intros id Hid.
    unfold SequencePaginator_get_result in Hid.
    apply in_map_iff in Hid as [x [Ex Hx]].
    apply In_firstn_skipn, In_sort_desc, in_map_iff in Hx as [[id' score] [Ep Hp]].
    subst x; simpl in Ex; subst id'.
    apply (in_map fst) in Hp; simpl in Hp.
    destruct (intersect_tags_spec db (match caller_tags s9 with Some d => d | None => [] end)
                cands0 s9) as (final & s12 & Ef & _ & Hkeys).
    rewrite Hc in Ef; inversion Ef; subst final s12; clear Ef.
    apply Hkeys in Hp as [Hp Htg]; rewrite T9 in Htg.
    apply (proj1 (zdict_of_pairs_keys _ _)) in Hp; rewrite map_map in Hp; simpl in Hp.
    apply in_map_iff in Hp as [t [Et Ht0]].
    pose proof (f_equal fst Htv) as Hbuilt; cbn [fst] in Hbuilt.
    pose proof (build_incl_eq _ _ _ _ _ _ tag_value_handlers_filter Htv _ Ht0) as Hf.
    apply filter_In in Hf as [Hdb Hf].
    apply andb_true_iff in Hf as [Hf Hm]; apply andb_true_iff in Hf as [Hf Hv];
      apply andb_true_iff in Hf as [Hp Hk].
    apply py_eqb_VStr in Hv; subst value.
    apply memZ_In in Hm; rewrite Et in Hm.
    apply in_map_iff in Hm as [[g0 ge] [E0 Hge]].
    pose proof (f_equal fst Hj) as Hjb; cbn [fst] in Hjb.
    split; [|split; [|exact Htg]].
    + exists ge.
      pose proof (build_incl_eq _ _ _ _ _ _ (environment_release_handlers_filter db project)
                    Hj _ Hge) as Hp0.
      apply filter_In in Hp0 as [Hprod Hp0]; apply in_prod_iff in Hprod as [_ Hge_db].
      apply andb_true_iff in Hp0 as [Eid Eenv].
      apply Z.eqb_eq in Eid; apply Z.eqb_eq in Eenv.
      split; [exact Hge_db|]. split; [congruence|]. split; [exact Eenv|].
      intros v Hv.
      refine (build_applies (environment_release_handlers db project) "first_release" _ [] v
               (fun r => release_pred db project (ge_first_release_id (snd r)) v = true)
               _ (kwargs c) _ joined (environment_release_handlers_filter db project)
               (or_introl eq_refl) Hv _ Hjb (g0, ge) Hge).
      intros q ex [g1 ge1] Hr; apply filter_In in Hr as [_ Hr]; exact Hr.
    + exists t. split; [exact Hdb|]. split; [exact Et|].
      split; [apply Z.eqb_eq; exact Hp|]. split; [apply String.eqb_eq; exact Hk|].
      split; [first [exact Eg|reflexivity]|].
      intros name h ex v vs Hin Hv Hvs.
      eapply (build_applies_vs tag_value_handlers name h ex v vs (fun r => In r (h [r] v vs))
               _ (kwargs c) s8 tvs tag_value_handlers_filter Hin Hv Hvs); [|exact Hbuilt|exact Ht0].
      intros q r Hr. exact (filter_handler_single h q v vs r (tag_value_handlers_filter _ Hin) Hr).
Qed.

(** The environment path does not depend on the tag store adapter. *)
Lemma env_path_adapter_free adapter adapter' db project c e :
  environment_id c = Some e ->
  EnvironmentDjangoSearchBackend_query adapter db project c
  = EnvironmentDjangoSearchBackend_query adapter' db project c.
Proof.
  intros He; unfold EnvironmentDjangoSearchBackend_query; rewrite He; reflexivity.
Qed.

(** C5, as the code has it. In the plain backend, and in the
    environment-scoped backend when no [environment_id] is given, a call
    whose [tags] mapping is non-empty returns only issues among the ids the
    tag store adapter matched for (project, [environment_id], [tags]); when
    the adapter matches nothing, the call returns no issue and records no
    storage operation after the adapter call (or, when an earlier
    [first_release=EMPTY] returned first, records filters only). When an
    [environment_id] is given, the environment-scoped backend does not
    consult the adapter (any two adapters give the same outcome and the
    same final state), and every issue it returns has, for each tag filter
    other than [environment], a matching [GroupTagValue] row (a
    [GroupTagKey] row for [ANY]). *)
Theorem tag_store_short_circuit :
  (forall adapter db project c s (tags : tagmap) rows s',
    caller_tags s = Some tags -> tags <> [] ->
    (DjangoSearchBackend_query adapter db project c s = (inr rows, s') \/
     (environment_id c = None /\
      EnvironmentDjangoSearchBackend_query adapter db project c s = (inr rows, s'))) ->
    (forall g, In g rows ->
       In (group_id g) (adapter (project_id project) (environment_id c) tags)) /\
    (adapter (project_id project) (environment_id c) tags = [] ->
     rows = [] /\
     tagstore_last (TagstoreSearch (project_id project) (environment_id c) tags) s s')) /\
  (forall adapter adapter' db project c s e,
     environment_id c = Some e ->
     EnvironmentDjangoSearchBackend_query adapter db project c s
     = EnvironmentDjangoSearchBackend_query adapter' db project c s) /\
  (forall adapter db project c s rows s' e tags,
     environment_id c = Some e -> caller_tags s = Some tags ->
     EnvironmentDjangoSearchBackend_query adapter db project c s = (inr rows, s') ->
     forall g, In g rows ->
       forall key value, In (key, value) (dict_remove "environment" tags) ->
         In (group_id g) (tag_matches db key value)).
Proof.
  split; [|split].
  2:{ intros adapter adapter' db project c s e He.
      rewrite (env_path_adapter_free adapter adapter' db project c e He); reflexivity. }
  2:{ intros adapter db project c s rows s' e tags He Ht H g Hg key value Hkv.
      destruct (env_path_shape adapter db project c s rows s' e tags He Ht H)
        as (page & -> & _ & _ & Hpage).
      apply hydrate_spec in Hg as [Hid _].
      exact (proj2 (proj2 (Hpage _ Hid)) key value Hkv). }
  intros adapter db project c s tags rows s' Ht Hne [H|[He H]].
  - split.
    + pose proof (plain_tags_restrict adapter db project c tags Hne s Ht) as P.
      rewrite H in P; exact P.
    + intros E; exact (plain_tags_empty adapter db project c tags s rows s' Hne E Ht H).
  - rewrite He; exact (env_none_tags adapter db project c tags s rows s' He Hne Ht H).
Qed.

Lemma tag_store_short_circuit_witness :
  ((forall g, In g ([] : list Group) ->
     In (group_id g) (no_matches 1 None [("browser", VStr "firefox")])) /\
  (no_matches 1 None [("browser", VStr "firefox")] = [] ->
   ([] : list Group) = [] /\
   tagstore_last (TagstoreSearch 1 None [("browser", VStr "firefox")])
     (ex_store (Some [("browser", VStr "firefox")]))
     (mkStore [Filtered "status"; TagstoreSearch 1 None [("browser", VStr "firefox")]]
              (Some [("browser", VStr "firefox")])))) /\
  EnvironmentDjangoSearchBackend_query no_matches ex_db ex_project (ex_call (Some 10) [])
    (ex_store (Some [("environment", VStr "production"); ("browser", VStr "firefox")]))
  = EnvironmentDjangoSearchBackend_query (fun _ _ _ => [1; 3]) ex_db ex_project
      (ex_call (Some 10) [])
      (ex_store (Some [("environment", VStr "production"); ("browser", VStr "firefox")])) /\
  In (group_id ex_g1) (tag_matches ex_db "browser" (VStr "firefox")).
Proof.
  split; [|split].
  - apply (proj1 tag_store_short_circuit no_matches ex_db ex_project (ex_call None [])
             (ex_store (Some [("browser", VStr "firefox")])) [("browser", VStr "firefox")] []
             (mkStore [Filtered "status"; TagstoreSearch 1 None [("browser", VStr "firefox")]]
                      (Some [("browser", VStr "firefox")]))).
    + reflexivity.
    + discriminate.
    + left; vm_compute; reflexivity.
  - exact (proj1 (proj2 tag_store_short_circuit) no_matches (fun _ _ _ => [1; 3]) ex_db
             ex_project (ex_call (Some 10) [])
             (ex_store (Some [("environment", VStr "production"); ("browser", VStr "firefox")]))
             10 eq_refl).
  - refine (proj2 (proj2 tag_store_short_circuit) no_matches ex_db ex_project
              (ex_call (Some 10) [])
              (ex_store (Some [("environment", VStr "production"); ("browser", VStr "firefox")]))
              [ex_g1]
              (mkStore [TagValueQuery "browser" (VStr "firefox")]
                       (Some [("browser", VStr "firefox")]))
              10 [("environment", VStr "production"); ("browser", VStr "firefox")]
              eq_refl eq_refl _ ex_g1 (or_introl eq_refl) "browser" (VStr "firefox")
              (or_introl eq_refl)).
    vm_compute; reflexivity.
Defined.

(** C5 does not hold in the environment path: there the tag store adapter
    is not consulted (tags are matched against [GroupTagValue] rows), so
    with an adapter that matches nothing the call still returns issue 1. *)
Lemma tag_store_short_circuit_env_path :
  no_matches 1 (Some 10) [("environment", VStr "production"); ("browser", VStr "firefox")] = [] /\
  fst (EnvironmentDjangoSearchBackend_query no_matches ex_db ex_project (ex_call (Some 10) [])
         (ex_store (Some [("environment", VStr "production"); ("browser", VStr "firefox")])))
  = inr [ex_g1].
Proof. split; [reflexivity|vm_compute; reflexivity]. Qed.


Lemma find_none_existsb {A} (f : A -> bool) l : find f l = None -> existsb f l = false.
Proof.
  intros E; destruct (existsb f l) eqn:X; [|reflexivity].
  apply existsb_exists in X as [x [Hx Fx]].
  rewrite (find_none f l E x Hx) in Fx; discriminate.
Qed.

Lemma hydrate_ids db ids :
  map group_id (hydrate db ids)
  = filter (fun id => existsb (fun g => group_id g =? id) (groups db)) ids.
Proof.
  induction ids as [|id ids IH]; simpl; [reflexivity|].
  unfold hydrate in *; simpl; rewrite map_app, IH.
  destruct (in_bulk_get db id) as [g|] eqn:E.
  - apply in_bulk_get_spec in E as [Hg Eg].
    assert (X : existsb (fun g => group_id g =? id) (groups db) = true)
      by (apply existsb_exists; exists g; split; [exact Hg|apply Z.eqb_eq; exact Eg]).
    rewrite X; simpl; rewrite Eg; reflexivity.
  - unfold in_bulk_get in E; rewrite (find_none_existsb _ _ E); reflexivity.
Qed.

Lemma scalar_row_lower {R} `{Model R} name field (col : R -> Z) (mk : Z -> pyval) T b r :
  In field ["first_seen"; "last_seen"; "active_at"; "times_seen"] ->
  mk = VDate \/ mk = VInt -> (forall r, field_value r field = Some (mk (col r))) ->
  In r (fst (scalar_condition name field "gt") [r] (mk T) [b]) ->
  lower_ok (truthy b) T (col r) = true.
Proof.
  intros Hf Hmk Hcol Hr.
  rewrite (proj1 (scalar_condition_ops field col mk name [r] T b Hf Hmk Hcol)) in Hr.
  apply filter_In in Hr as [_ Hr]; exact Hr.
Qed.

Lemma scalar_row_upper {R} `{Model R} name field (col : R -> Z) (mk : Z -> pyval) T b r :
  In field ["first_seen"; "last_seen"; "active_at"; "times_seen"] ->
  mk = VDate \/ mk = VInt -> (forall r, field_value r field = Some (mk (col r))) ->
  In r (fst (scalar_condition name field "lt") [r] (mk T) [b]) ->
  upper_ok (truthy b) T (col r) = true.
Proof.
  intros Hf Hmk Hcol Hr.
  rewrite (proj2 (scalar_condition_ops field col mk name [r] T b Hf Hmk Hcol)) in Hr.
  apply filter_In in Hr as [_ Hr]; exact Hr.
Qed.

(** X6. Every issue the environment path returns is a stored group with a
    [GroupEnvironment] row for the requested environment (whose first
    release, when [first_release] is given, is a release of the project's
    organization with that version) and a [GroupTagValue] row of the
    project for the tag [environment] whose value is the name the caller
    passed in [tags['environment']]. *)
Theorem env_results_in_environment :
  forall adapter db project c s rows s' e tags,
    environment_id c = Some e -> caller_tags s = Some tags ->
    EnvironmentDjangoSearchBackend_query adapter db project c s = (inr rows, s') ->
    forall g, In g rows ->
      In g (groups db) /\
      (exists ge, In ge (group_environments db) /\ ge_group_id ge = group_id g /\
         ge_environment_id ge = e /\
         forall v, dict_get "first_release" (kwargs c) = Some v ->
                   release_pred db project (ge_first_release_id ge) v = true) /\
      (exists t, In t (group_tag_values db) /\ gtv_group_id t = group_id g /\
         gtv_project_id t = project_id project /\ gtv_key t = "environment" /\
         dict_get "environment" tags = Some (VStr (gtv_value t))).
Proof.
  intros adapter db project c s rows s' e tags He Ht H g Hg.
  destruct (env_path_shape adapter db project c s rows s' e tags He Ht H)
    as (page & -> & _ & _ & Hpage).
  apply hydrate_spec in Hg as [Hid Hgdb].
  destruct (Hpage _ Hid) as [Hge [(t & T1 & T2 & T3 & T4 & T5 & _) _]].
  split; [exact Hgdb|]. split; [exact Hge|].
  exists t; auto.
Qed.

Lemma env_results_in_environment_witness :
  In ex_g1 (groups ex_db) /\
  (exists ge, In ge (group_environments ex_db) /\ ge_group_id ge = group_id ex_g1 /\
     ge_environment_id ge = 10 /\
     forall v, dict_get "first_release" [] = Some v ->
               release_pred ex_db ex_project (ge_first_release_id ge) v = true) /\
  (exists t, In t (group_tag_values ex_db) /\ gtv_group_id t = group_id ex_g1 /\
     gtv_project_id t = project_id ex_project /\ gtv_key t = "environment" /\
     dict_get "environment" [("environment", VStr "production"); ("browser", VStr "firefox")]
       = Some (VStr (gtv_value t))).
Proof.
  apply (env_results_in_environment no_matches ex_db ex_project (ex_call (Some 10) [])
           (ex_store (Some [("environment", VStr "production"); ("browser", VStr "firefox")]))
           [ex_g1]
           (mkStore [TagValueQuery "browser" (VStr "firefox")]
                    (Some [("browser", VStr "firefox")]))
           10 [("environment", VStr "production"); ("browser", VStr "firefox")]
           eq_refl eq_refl).
  - vm_compute; reflexivity.
  - left; reflexivity.
Defined.

(** X7. In the environment path the [age], [last_seen] and [times_seen]
    filters test the issue's [GroupTagValue] row of the environment (its
    first and last time seen and its count in that environment), not the
    issue's own columns: the returned issue's row meets each given bound
    with the comparison its inclusive flag selects, and [times_seen=n]
    exactly; and [times_seen=5] returns issue 1, seen 100 times in all,
    whose row for "production" counts 5 events. *)
Theorem env_scalar_filters_on_environment_row :
  (forall adapter db project c s rows s' e tags,
    environment_id c = Some e -> caller_tags s = Some tags ->
    EnvironmentDjangoSearchBackend_query adapter db project c s = (inr rows, s') ->
    forall g, In g rows ->
      exists t, In t (group_tag_values db) /\ gtv_group_id t = group_id g /\
        gtv_key t = "environment" /\ dict_get "environment" tags = Some (VStr (gtv_value t)) /\
        (forall name (col : GroupTagValue -> Z) mk T b,
           In (name, col, mk) [("age_from", gtv_first_seen, VDate);
                               ("last_seen_from", gtv_last_seen, VDate);
                               ("times_seen_lower", gtv_times_seen, VInt)] ->
           dict_get name (kwargs c) = Some (mk T) ->
           dict_get (name ++ "_inclusive") (kwargs c) = Some b ->
           lower_ok (truthy b) T (col t) = true) /\
        (forall name (col : GroupTagValue -> Z) mk T b,
           In (name, col, mk) [("age_to", gtv_first_seen, VDate);
                               ("last_seen_to", gtv_last_seen, VDate);
                               ("times_seen_upper", gtv_times_seen, VInt)] ->
           dict_get name (kwargs c) = Some (mk T) ->
           dict_get (name ++ "_inclusive") (kwargs c) = Some b ->
           upper_ok (truthy b) T (col t) = true) /\
        (forall n, dict_get "times_seen" (kwargs c) = Some (VInt n) -> gtv_times_seen t = n)) /\
  (times_seen ex_g1 = 100 /\
   fst (EnvironmentDjangoSearchBackend_query no_matches ex_row_db ex_project
          (ex_call (Some 10) [("times_seen", VInt 5)])
          (ex_store (Some [("environment", VStr "production")]))) = inr [ex_g1]).
Proof.
  split; [|split; [reflexivity|vm_compute; reflexivity]].
  intros adapter db project c s rows s' e tags He Ht H g Hg.
  destruct (env_path_shape adapter db project c s rows s' e tags He Ht H)
    as (page & -> & _ & _ & Hpage).
  apply hydrate_spec in Hg as [Hid _].
  destruct (Hpage _ Hid) as [_ [(t & T1 & T2 & _ & T4 & T5 & Hh) _]].
  exists t. split; [exact T1|]. split; [exact T2|]. split; [exact T4|]. split; [exact T5|].
  split; [|split].
  - intros name col mk T b Hin Hv Hb.
    destruct Hin as [E|[E|[E|[]]]]; inversion E; subst; clear E.
    + refine (scalar_row_lower "age_from" "first_seen" gtv_first_seen VDate T b t
                ltac:(simpl; tauto) (or_introl eq_refl) (fun r => eq_refl) _).
      apply (Hh "age_from" _ ["age_from_inclusive"] _ _); [simpl; tauto|exact Hv|].
      unfold extras_result; simpl in Hb |- *; rewrite Hb; reflexivity.
    + refine (scalar_row_lower "last_seen_from" "last_seen" gtv_last_seen VDate T b t
                ltac:(simpl; tauto) (or_introl eq_refl) (fun r => eq_refl) _).
      apply (Hh "last_seen_from" _ ["last_seen_from_inclusive"] _ _); [simpl; tauto|exact Hv|].
      unfold extras_result; simpl in Hb |- *; rewrite Hb; reflexivity.
    + refine (scalar_row_lower "times_seen_lower" "times_seen" gtv_times_seen VInt T b t
                ltac:(simpl; tauto) (or_intror eq_refl) (fun r => eq_refl) _).
      apply (Hh "times_seen_lower" _ ["times_seen_lower_inclusive"] _ _); [simpl; tauto|exact Hv|].
      unfold extras_result; simpl in Hb |- *; rewrite Hb; reflexivity.
  - intros name col mk T b Hin Hv Hb.
    destruct Hin as [E|[E|[E|[]]]]; inversion E; subst; clear E.
    + refine (scalar_row_upper "age_to" "first_seen" gtv_first_seen VDate T b t
                ltac:(simpl; tauto) (or_introl eq_refl) (fun r => eq_refl) _).
      apply (Hh "age_to" _ ["age_to_inclusive"] _ _); [simpl; tauto|exact Hv|].
      unfold extras_result; simpl in Hb |- *; rewrite Hb; reflexivity.
    + refine (scalar_row_upper "last_seen_to" "last_seen" gtv_last_seen VDate T b t
                ltac:(simpl; tauto) (or_introl eq_refl) (fun r => eq_refl) _).
      apply (Hh "last_seen_to" _ ["last_seen_to_inclusive"] _ _); [simpl; tauto|exact Hv|].
      unfold extras_result; simpl in Hb |- *; rewrite Hb; reflexivity.
    + refine (scalar_row_upper "times_seen_upper" "times_seen" gtv_times_seen VInt T b t
                ltac:(simpl; tauto) (or_intror eq_refl) (fun r => eq_refl) _).
      apply (Hh "times_seen_upper" _ ["times_seen_upper_inclusive"] _ _); [simpl; tauto|exact Hv|].
      unfold extras_result; simpl in Hb |- *; rewrite Hb; reflexivity.
  - intros n Hn.
    pose proof (Hh "times_seen"
                  (fun queryset ts _ => filter_kw (R:=GroupTagValue) [("times_seen", ts)] queryset) []
                  (VInt n) [] ltac:(right; right; right; right; left; reflexivity) Hn eq_refl) as Ht0.
    cbn in Ht0.
    destruct (gtv_times_seen t =? n) eqn:E; [apply Z.eqb_eq; exact E|destruct Ht0].
Qed.

Lemma env_scalar_filters_on_environment_row_witness :
  (exists t, In t (group_tag_values ex_row_db) /\ gtv_group_id t = 1 /\ gtv_times_seen t = 5) /\
  times_seen ex_g1 = 100.
Proof.
  split; [|exact (proj1 (proj2 env_scalar_filters_on_environment_row))].
  destruct (proj1 env_scalar_filters_on_environment_row no_matches ex_row_db ex_project
              (ex_call (Some 10) [("times_seen", VInt 5)])
              (ex_store (Some [("environment", VStr "production")]))
              [ex_g1]
              (snd (EnvironmentDjangoSearchBackend_query no_matches ex_row_db ex_project
                      (ex_call (Some 10) [("times_seen", VInt 5)])
                      (ex_store (Some [("environment", VStr "production")]))))
              10 [("environment", VStr "production")]
              eq_refl eq_refl ltac:(vm_compute; reflexivity) ex_g1 (or_introl eq_refl))
    as (t & T1 & T2 & _ & _ & _ & _ & T7).
  exists t; split; [exact T1|]; split; [exact T2|]; apply T7; reflexivity.
Defined.

(** X8. On the environment path the returned issues are pairwise distinct
    and there are at most [limit] of them: the page the paginator cuts from
    the candidate dictionary holds distinct ids and [in_bulk] hydration only
    drops ids. *)
Theorem env_result_distinct_bounded :
  forall adapter db project c s rows s' e tags,
    environment_id c = Some e -> caller_tags s = Some tags ->
    EnvironmentDjangoSearchBackend_query adapter db project c s = (inr rows, s') ->
    NoDup (map group_id rows) /\ (List.length rows <= limit c)%nat.
Proof.
  intros adapter db project c s rows s' e tags He Ht H.
  destruct (env_path_shape adapter db project c s rows s' e tags He Ht H)
    as (page & -> & Hlen & Hnd & _).
  rewrite hydrate_ids; split.
  - apply NoDup_filter; exact Hnd.
  - rewrite <- (length_map group_id), hydrate_ids.
    etransitivity; [apply filter_length_le|exact Hlen].
Qed.

Lemma env_result_distinct_bounded_witness :
  NoDup (map group_id [ex_g1]) /\ (List.length [ex_g1] <= 100)%nat.
Proof.
  apply (env_result_distinct_bounded no_matches ex_db ex_project (ex_call (Some 10) [])
           (ex_store (Some [("environment", VStr "production"); ("browser", VStr "firefox")]))
           [ex_g1]
           (mkStore [TagValueQuery "browser" (VStr "firefox")]
                    (Some [("browser", VStr "firefox")]))
           10 [("environment", VStr "production"); ("browser", VStr "firefox")]
           eq_refl eq_refl).
  vm_compute; reflexivity.
Defined.

Lemma Int_part_le (r1 r2 : R) : (r1 <= r2)%R -> Int_part r1 <= Int_part r2.
Proof.
  intros H; destruct (base_Int_part r1) as [A1 B1]; destruct (base_Int_part r2) as [A2 B2].
  assert (L : (IZR (Int_part r1) < IZR (Int_part r2 + 1))%R) by (rewrite plus_IZR; lra).
  apply lt_IZR in L; lia.
Qed.

Lemma Int_part_nonneg (r : R) : (0 <= r)%R -> 0 <= Int_part r.
Proof.
  intros H; destruct (base_Int_part r) as [_ B].
  assert (L : (IZR (-1) < IZR (Int_part r))%R) by lra.
  apply lt_IZR in L; lia.
Qed.

(** Python's [int] on floats is monotone. *)
Lemma py_int_le (r1 r2 : R) : (r1 <= r2)%R -> py_int r1 <= py_int r2.
Proof.
  intros H; unfold py_int.
  destruct (Rle_dec 0 r1) as [P1|P1]; destruct (Rle_dec 0 r2) as [P2|P2].
  - apply Int_part_le; exact H.
  - lra.
  - pose proof (Int_part_nonneg (- r1) ltac:(lra)); pose proof (Int_part_nonneg r2 P2); lia.
  - pose proof (Int_part_le (- r2) (- r1) ltac:(lra)); lia.
Qed.

Lemma ln_IZR_le a b : 1 <= a <= b -> (ln (IZR a) <= ln (IZR b))%R.
Proof.
  intros H; destruct (Z.eq_dec a b) as [->|N]; [lra|].
  apply Rlt_le, ln_increasing; [apply IZR_lt; lia|apply IZR_lt; lia].
Qed.

(** X11. The [priority] cursor score [int(log(times_seen) * 600 +
    last_seen)] never decreases when an issue's count of events (from 1 on)
    or its last time seen grows. *)
Theorem priority_cursor_score_monotone :
  forall sort_expression value_to_cursor_score,
    sort_strategies "priority" = Some (sort_expression, value_to_cursor_score) ->
    forall t1 t2,
      1 <= gtv_times_seen t1 <= gtv_times_seen t2 -> gtv_last_seen t1 <= gtv_last_seen t2 ->
      value_to_cursor_score (sort_expression t1) <= value_to_cursor_score (sort_expression t2).
Proof.
  intros se vtc Hs t1 t2 Hts Hls.
  unfold sort_strategies in Hs; simpl in Hs; injection Hs as <- <-.
  apply py_int_le; unfold pg_log.
  pose proof (ln_IZR_le _ _ Hts) as Hln.
  assert (Hd : (ln (IZR (gtv_times_seen t1)) / ln 10 <= ln (IZR (gtv_times_seen t2)) / ln 10)%R).
  { unfold Rdiv; apply Rmult_le_compat_r; [apply Rlt_le, Rinv_0_lt_compat, ln10_pos|exact Hln]. }
  apply IZR_le in Hls; lra.
Qed.

Lemma priority_cursor_score_monotone_witness :
  py_int (pg_log (IZR 10) * 600 + IZR 200)%R <= py_int (pg_log (IZR 100) * 600 + IZR 300)%R.
Proof.
  exact (priority_cursor_score_monotone
           (fun t => pg_log (IZR (gtv_times_seen t)) * 600 + IZR (gtv_last_seen t))%R py_int
           eq_refl (mkGroupTagValue 1 1 "environment" "production" 100 200 10)
           (mkGroupTagValue 1 2 "environment" "production" 100 300 100)
           ltac:(simpl; lia) ltac:(simpl; lia)).
Defined.

(** ** The plain backend, block by block *)

Tactic Notation "plain_at" int_or_var(n) :=
  unfold DjangoSearchBackend_query, DjangoSearchBackend_build_queryset;
  apply satisfy_function_body;
  do n (apply satisfy_then_stage; [|auto with stages]);
  apply stage_then_satisfy; [auto 20 with stages|].

Lemma distinct_acc (l acc : list Z) :
  NoDup acc ->
  NoDup (fold_left (fun acc x => if memZ x acc then acc else x :: acc) l acc) /\
  (forall x, In x (fold_left (fun acc x => if memZ x acc then acc else x :: acc) l acc)
             <-> In x l \/ In x acc).
Proof.
  revert acc; induction l as [|y l IH]; intros acc ND; simpl.
  - split; [exact ND|intros x; tauto].
  - destruct (memZ y acc) eqn:E.
    + destruct (IH acc ND) as [N I]; split; [exact N|].
      intros x; rewrite I; apply memZ_In in E; split; [tauto|].
      intros [[<-|H]|H]; tauto.
    + assert (ND' : NoDup (y :: acc)).
      { constructor; [|exact ND]. intros Hy; apply memZ_In in Hy; congruence. }
      destruct (IH (y :: acc) ND') as [N I]; split; [exact N|].
      intros x; rewrite I; simpl; tauto.
Qed.

Lemma distinct_spec l : NoDup (distinct l) /\ forall x, In x (distinct l) <-> In x l.
Proof.
  destruct (distinct_acc l [] (NoDup_nil _)) as [N I]; unfold distinct; split.
  - apply NoDup_rev; exact N.
  - intros x; rewrite <- in_rev, I; simpl; tauto.
Qed.

Lemma range_params_lower (field : string) present lo loi up upi :
  present lo = true ->
  In ((field ++ (if truthy loi then "__gte" else "__gt"))%string, lo)
     (range_params field present lo loi up upi).
Proof. intros P; unfold range_params; rewrite P; apply in_or_app; left; left; reflexivity. Qed.

Lemma range_params_upper (field : string) present lo loi up upi :
  present up = true ->
  In ((field ++ (if truthy upi then "__lte" else "__lt"))%string, up)
     (range_params field present lo loi up upi).
Proof. intros P; unfold range_params; rewrite P; apply in_or_app; right; left; reflexivity. Qed.

Lemma filter_kw_In {R} `{Model R} params (qs : list R) r :
  In r (filter_kw params qs) <-> In r qs /\ forall k v, In (k, v) params -> row_matches r k v = true.
Proof.
  unfold filter_kw; rewrite filter_In, forallb_forall; split.
  - intros [Hr Hp]; split; [exact Hr|]; intros k v Hkv; exact (Hp _ Hkv).
  - intros [Hr Hp]; split; [exact Hr|]; intros [k v] Hkv; exact (Hp _ _ Hkv).
Qed.

Lemma arg_given kw name d v : dict_get name kw = Some v -> arg kw name d = v.
Proof. intros E; unfold arg, dict_get_default; rewrite E; reflexivity. Qed.

Lemma query_pred_VStr q g :
  query_pred (VStr q) g = icontains (message g) q || icontains (culprit g) q.
Proof. reflexivity. Qed.

Lemma truthy_VStr q : q <> "" -> truthy (VStr q) = true.
Proof. intros N; simpl; apply negb_true_iff, String.eqb_neq; exact N. Qed.

(** X12. When [date_from] or [date_to] is given, the plain backend returns
    only issues among at most 1000 distinct issue ids, each with an event
    of the project that lies within the date bounds (each compared with
    [>=]/[<=] or, when its inclusive flag is false, [>]/[<]) and, when a
    [query] is given, whose message contains it (ignoring case). *)
Theorem plain_date_window :
  forall adapter db project c,
    exists ids, (List.length ids <= 1000)%nat /\ NoDup ids /\
    forall s rows s',
      DjangoSearchBackend_query adapter db project c s = (inr rows, s') ->
      truthy (arg (kwargs c) "date_from" VNone) || truthy (arg (kwargs c) "date_to" VNone) = true ->
      forall g, In g rows ->
        In (group_id g) ids /\
        exists ev, In ev (events db) /\ ev_group_id ev = group_id g /\
          ev_project_id ev = project_id project /\
          (forall T, dict_get "date_from" (kwargs c) = Some (VDate T) ->
             lower_ok (truthy (arg (kwargs c) "date_from_inclusive" (VBool true))) T
                      (ev_datetime ev) = true) /\
          (forall T, dict_get "date_to" (kwargs c) = Some (VDate T) ->
             upper_ok (truthy (arg (kwargs c) "date_to_inclusive" (VBool true))) T
                      (ev_datetime ev) = true) /\
          (forall q, dict_get "query" (kwargs c) = Some (VStr q) -> q <> "" ->
             icontains (ev_message ev) q = true).
Proof.
  intros adapter db project c.
  set (kw := kwargs c).
  set (params := ("project_id", VInt (project_id project))
                 :: range_params "datetime" truthy (arg kw "date_from" VNone)
                      (arg kw "date_from_inclusive" (VBool true)) (arg kw "date_to" VNone)
                      (arg kw "date_to_inclusive" (VBool true))).
  set (evq := if truthy (arg kw "query" VNone)
              then filter_kw [("message__icontains", arg kw "query" VNone)]
                     (filter_kw params (events db))
              else filter_kw params (events db)).
  exists (firstn 1000 (distinct (map ev_group_id evq))).
  split; [rewrite length_firstn; lia|].
  split; [exact (NoDup_firstn_skipn 1000 0 _ (proj1 (distinct_spec _)))|].
  intros s rows s' H Hd.
  assert (Hrows : rows_satisfy
                    (fun g => In (group_id g) (firstn 1000 (distinct (map ev_group_id evq))))
                    (DjangoSearchBackend_query adapter db project c)).
  { plain_at 0. intros rows0 s0; unfold bq_date; fold kw; rewrite Hd; cbn [fst bind emit ret].
    intros g Hg; apply filter_In in Hg as [_ Hg]; unfold id_in in Hg; apply memZ_In in Hg.
    exact Hg. }
  specialize (Hrows s); rewrite H in Hrows; cbn [fst] in Hrows.
  intros g Hg; specialize (Hrows g Hg); split; [exact Hrows|].
  apply (In_firstn_skipn _ 1000 0), (proj2 (distinct_spec _)), in_map_iff in Hrows
    as [ev [Eg Hev]].
  assert (Hev' : In ev (filter_kw params (events db)) /\
                 (truthy (arg kw "query" VNone) = true ->
                  row_matches ev "message__icontains" (arg kw "query" VNone) = true)).
  { unfold evq in Hev; destruct (truthy (arg kw "query" VNone)) eqn:Q.
    - apply filter_kw_In in Hev as [Hev Hm]; split; [exact Hev|].
      intros _; apply Hm; left; reflexivity.
    - split; [exact Hev|discriminate]. }
  clear Hev; destruct Hev' as [Hev Hm].
  apply filter_kw_In in Hev as [Hev Hp].
  exists ev; split; [exact Hev|]; split; [exact Eg|]; split; [|split; [|split]].
  - pose proof (Hp _ _ (or_introl eq_refl)) as E; cbn in E; apply Z.eqb_eq; exact E.
  - intros T HT.
    assert (Hin := range_params_lower "datetime" truthy (arg kw "date_from" VNone)
                     (arg kw "date_from_inclusive" (VBool true)) (arg kw "date_to" VNone)
                     (arg kw "date_to_inclusive" (VBool true))
                     ltac:(rewrite (arg_given _ _ _ _ HT); reflexivity)).
    pose proof (Hp _ _ (or_intror Hin)) as E; rewrite (arg_given _ _ _ _ HT) in E.
    unfold lower_ok; destruct (truthy (arg kw "date_from_inclusive" (VBool true))); exact E.
  - intros T HT.
    assert (Hin := range_params_upper "datetime" truthy (arg kw "date_from" VNone)
                     (arg kw "date_from_inclusive" (VBool true)) (arg kw "date_to" VNone)
                     (arg kw "date_to_inclusive" (VBool true))
                     ltac:(rewrite (arg_given _ _ _ _ HT); reflexivity)).
    pose proof (Hp _ _ (or_intror Hin)) as E; rewrite (arg_given _ _ _ _ HT) in E.
    unfold upper_ok; destruct (truthy (arg kw "date_to_inclusive" (VBool true))); exact E.
  - intros q Hq Hne.
    rewrite (arg_given _ _ _ _ Hq), (truthy_VStr q Hne) in Hm.
    exact (Hm eq_refl).
Qed.

Lemma plain_date_window_witness :
  exists ev, In ev (events ex_event_db) /\ ev_group_id ev = group_id ex_g1.
Proof.
  destruct (plain_date_window no_matches ex_event_db ex_project
              (ex_call None [("date_from", VDate 100)])) as (ids & _ & _ & Hw).
  destruct (Hw (ex_store None) [ex_g1]
              (snd (DjangoSearchBackend_query no_matches ex_event_db ex_project
                      (ex_call None [("date_from", VDate 100)]) (ex_store None)))
              ltac:(vm_compute; reflexivity) eq_refl ex_g1 (or_introl eq_refl))
    as [_ (ev & E1 & E2 & _)].
  exists ev; split; [exact E1|exact E2].
Defined.

Lemma rows_of_satisfy (P : Group -> Prop) m s rows s' :
  rows_satisfy P m -> m s = (inr rows, s') -> forall g, In g rows -> P g.
Proof. intros Hm H; specialize (Hm s); rewrite H in Hm; exact Hm. Qed.

(** X13. A non-empty [query] string keeps, on both backends, only issues
    whose message or culprit contains it, ignoring case. *)
Theorem query_filter_message_or_culprit :
  forall adapter db project c s rows s' q,
    NoDup (map group_id (groups db)) ->
    DjangoSearchBackend_query adapter db project c s = (inr rows, s') \/
    EnvironmentDjangoSearchBackend_query adapter db project c s = (inr rows, s') ->
    dict_get "query" (kwargs c) = Some (VStr q) -> q <> "" ->
    forall g, In g rows -> icontains (message g) q || icontains (culprit g) q = true.
Proof.
  intros adapter db project c s rows s' q ND [H|H] Hq Hne g Hg.
  - refine (rows_of_satisfy (fun g => icontains (message g) q || icontains (culprit g) q = true)
              _ s rows s' _ H g Hg).
    apply plain_rows_satisfy, satisfy_then_stage; [|auto with stages].
    intros rows0 s0; unfold bq_query; rewrite (arg_given _ _ _ _ Hq), (truthy_VStr q Hne).
    cbn [fst bind emit ret]; intros g0 Hg0; apply filter_In in Hg0 as [_ Hg0].
    rewrite query_pred_VStr in Hg0; exact Hg0.
  - destruct (env_rows_from_base adapter db project c s rows s' ND H) as (s1 & r0 & Hb & Hi).
    apply Hi in Hg.
    eapply (build_applies (base_handlers db project) "query" _ _ (VStr q)
              (fun g => icontains (message g) q || icontains (culprit g) q = true) _ _ s1 r0).
    + apply base_handlers_filter.
    + left; reflexivity.
    + exact Hq.
    + intros q0 ex r Hr; cbn beta in Hr; rewrite (truthy_VStr q Hne) in Hr.
      apply filter_In in Hr as [_ Hr]; rewrite query_pred_VStr in Hr; exact Hr.
    + exact Hb.
    + exact Hg.
Qed.

Lemma query_filter_message_or_culprit_witness :
  icontains (message ex_g1) "BOO" || icontains (culprit ex_g1) "BOO" = true.
Proof.
  apply (query_filter_message_or_culprit no_matches ex_db ex_project
           (ex_call None [("query", VStr "BOO")]) (ex_store None) [ex_g1]
           (snd (EnvironmentDjangoSearchBackend_query no_matches ex_db ex_project
                   (ex_call None [("query", VStr "BOO")]) (ex_store None))) "BOO").
  - vm_compute; repeat constructor; simpl; intuition discriminate.
  - right; vm_compute; reflexivity.
  - reflexivity.
  - discriminate.
  - left; reflexivity.
Defined.

Lemma bookmarked_by_pred_VObj db project u g :
  bookmarked_by_pred db project (VObj u) g = true ->
  exists b, In b (bookmarks db) /\ bm_group b = group_id g /\
            bm_project b = project_id project /\ bm_user b = u.
Proof.
  unfold bookmarked_by_pred; simpl; intros H; apply existsb_exists in H as [b [Hb E]].
  rewrite !andb_true_iff, !Z.eqb_eq in E; destruct E as [[E1 E2] E3].
  exists b; auto.
Qed.

Lemma assigned_to_pred_VObj db project u g :
  assigned_to_pred db project (VObj u) g = true ->
  exists a, In a (assignees db) /\ as_group a = group_id g /\
            as_project a = project_id project /\ as_user a = u.
Proof.
  unfold assigned_to_pred; simpl; intros H; apply existsb_exists in H as [a [Ha E]].
  rewrite !andb_true_iff, !Z.eqb_eq in E; destruct E as [[E1 E2] E3].
  exists a; auto.
Qed.

Lemma subscribed_by_pred_VObj db project u g :
  subscribed_by_pred db project (VObj u) g = true ->
  exists x, In x (subscriptions db) /\ sub_group x = group_id g /\
            sub_project x = project_id project /\ sub_user x = u /\ sub_is_active x = true.
Proof.
  unfold subscribed_by_pred; simpl; intros H; apply existsb_exists in H as [x [Hx E]].
  rewrite !andb_true_iff, !Z.eqb_eq in E; destruct E as [[[E1 E2] E3] E4].
  exists x; auto.
Qed.

(** X14. On both backends, [bookmarked_by=U] keeps only issues that [U]
    bookmarked in the project, [assigned_to=U] only issues assigned to [U]
    in the project, and [subscribed_by=U] only issues with an active
    subscription of [U] in the project. *)
Theorem user_filters_both_backends :
  forall adapter db project c s rows s',
    NoDup (map group_id (groups db)) ->
    DjangoSearchBackend_query adapter db project c s = (inr rows, s') \/
    EnvironmentDjangoSearchBackend_query adapter db project c s = (inr rows, s') ->
    forall g, In g rows ->
      (forall u, dict_get "bookmarked_by" (kwargs c) = Some (VObj u) ->
         exists b, In b (bookmarks db) /\ bm_group b = group_id g /\
                   bm_project b = project_id project /\ bm_user b = u) /\
      (forall u, dict_get "assigned_to" (kwargs c) = Some (VObj u) ->
         exists a, In a (assignees db) /\ as_group a = group_id g /\
                   as_project a = project_id project /\ as_user a = u) /\
      (forall u, dict_get "subscribed_by" (kwargs c) = Some (VObj u) ->
         exists x, In x (subscriptions db) /\ sub_group x = group_id g /\
                   sub_project x = project_id project /\ sub_user x = u /\
                   sub_is_active x = true).
Proof.
  intros adapter db project c s rows s' ND [H|H] g Hg.
  - split; [|split]; intros u Hu.
    + apply bookmarked_by_pred_VObj.
      refine (rows_of_satisfy (fun g => bookmarked_by_pred db project (VObj u) g = true)
                _ s rows s' _ H g Hg).
      plain_at 10. intros rows0 s0; unfold bq_bookmarked_by; rewrite (arg_given _ _ _ _ Hu).
      cbn [truthy fst bind emit ret]; intros g0 Hg0; apply filter_In in Hg0 as [_ Hg0]; exact Hg0.
    + apply assigned_to_pred_VObj.
      refine (rows_of_satisfy (fun g => assigned_to_pred db project (VObj u) g = true)
                _ s rows s' _ H g Hg).
      plain_at 9. intros rows0 s0; unfold bq_assigned; rewrite (arg_given _ _ _ _ Hu).
      cbn [truthy fst bind emit ret]; intros g0 Hg0; apply filter_In in Hg0 as [_ Hg0]; exact Hg0.
    + apply subscribed_by_pred_VObj.
      refine (rows_of_satisfy (fun g => subscribed_by_pred db project (VObj u) g = true)
                _ s rows s' _ H g Hg).
      plain_at 8. intros rows0 s0; unfold bq_subscribed_by; rewrite (arg_given _ _ _ _ Hu).
      cbn [is_none negb fst bind emit ret]; intros g0 Hg0; apply filter_In in Hg0 as [_ Hg0]; exact Hg0.
  - destruct (env_rows_from_base adapter db project c s rows s' ND H) as (s1 & r0 & Hb & Hi).
    apply Hi in Hg.
    split; [|split]; intros u Hu.
    + apply bookmarked_by_pred_VObj.
      eapply (build_applies (base_handlers db project) "bookmarked_by" _ _ (VObj u)
                (fun g => bookmarked_by_pred db project (VObj u) g = true) _ _ s1 r0);
        [apply base_handlers_filter|right; right; left; reflexivity|exact Hu| |exact Hb|exact Hg].
      intros q0 ex r Hr; apply filter_In in Hr as [_ Hr]; exact Hr.
    + apply assigned_to_pred_VObj.
      eapply (build_applies (base_handlers db project) "assigned_to" _ _ (VObj u)
                (fun g => assigned_to_pred db project (VObj u) g = true) _ _ s1 r0);
        [apply base_handlers_filter|do 3 right; left; reflexivity|exact Hu| |exact Hb|exact Hg].
      intros q0 ex r Hr; apply filter_In in Hr as [_ Hr]; exact Hr.
    + apply subscribed_by_pred_VObj.
      eapply (build_applies (base_handlers db project) "subscribed_by" _ _ (VObj u)
                (fun g => subscribed_by_pred db project (VObj u) g = true) _ _ s1 r0);
        [apply base_handlers_filter|do 5 right; left; reflexivity|exact Hu| |exact Hb|exact Hg].
      intros q0 ex r Hr; apply filter_In in Hr as [_ Hr]; exact Hr.
Qed.

Lemma user_filters_both_backends_witness :
  exists a, In a (assignees ex_event_db) /\ as_group a = group_id ex_g1 /\ as_user a = 7.
Proof.
  assert (Hq : DjangoSearchBackend_query no_matches ex_event_db ex_project
                 (ex_call None [("assigned_to", VObj 7)]) (ex_store None)
               = (inr [ex_g1], snd (DjangoSearchBackend_query no_matches ex_event_db ex_project
                                      (ex_call None [("assigned_to", VObj 7)]) (ex_store None))))
    by (vm_compute; reflexivity).
  destruct (user_filters_both_backends no_matches ex_event_db ex_project
              (ex_call None [("assigned_to", VObj 7)]) (ex_store None) [ex_g1]
              (snd (DjangoSearchBackend_query no_matches ex_event_db ex_project
                      (ex_call None [("assigned_to", VObj 7)]) (ex_store None)))
              ltac:(vm_compute; repeat constructor; simpl; intuition discriminate)
              (or_introl Hq) ex_g1 (or_introl eq_refl))
    as [_ [Ha _]].
  destruct (Ha 7 eq_refl) as (a & A1 & A2 & _ & A4).
  exists a; auto.
Defined.

(** The rows of the environment-scoped backend without an environment are
    among the groups the group handlers kept. *)
Lemma env_none_group_rows adapter db project c s rows s' :
  environment_id c = None ->
  EnvironmentDjangoSearchBackend_query adapter db project c s = (inr rows, s') ->
  exists s2 r0 r1,
    fst (build (base_handlers db project)
               (filter (fun g => in_project project g && negb (hidden_status g)) (groups db))
               (kwargs c) s) = inr r0 /\
    fst (build (group_handlers db project) r0 (kwargs c) s2) = inr r1 /\
    incl rows r1.
Proof.
  intros He H; unfold EnvironmentDjangoSearchBackend_query in H.
  apply bind_inr_inv in H as (u & s1 & A1 & H); apply assert_inv in A1 as [_ ->].
  destruct (sort_strategies (sort_by c)) as [[se vtc]|]; [|discriminate H].
  apply bind_inr_inv in H as (r0 & s2 & Hb & H).
  rewrite He in H; unfold function_body, bind in H.
  destruct (build (group_handlers db project) r0 (kwargs c) s2) as [[e|r1] s3] eqn:B.
  - destruct e as [er|rr]; [discriminate H|].
    exfalso; apply (build_no_return (group_handlers db project) r0 (kwargs c) s2 rr).
    rewrite B; reflexivity.
  - exists s2, r0, r1; split; [rewrite Hb; reflexivity|]; split; [rewrite B; reflexivity|].
    change (function_body (bq_tags adapter project None r1) s3 = (inr rows, s')) in H.
    exact (stage_function_body _ _ _ _ _ (bq_tags_stage adapter project None) H).
Qed.

Lemma assignee_isnull_pred_VBool db b g :
  assignee_isnull_pred db (VBool b) g = true ->
  (b = true -> forall a, In a (assignees db) -> as_group a <> group_id g) /\
  (b = false -> exists a, In a (assignees db) /\ as_group a = group_id g).
Proof.
  unfold assignee_isnull_pred; destruct b; simpl; intros H; split; intros E; try discriminate.
  - intros a Ha Eg; apply negb_true_iff in H.
    assert (X : existsb (fun a => as_group a =? group_id g) (assignees db) = true)
      by (apply existsb_exists; exists a; split; [exact Ha|apply Z.eqb_eq; exact Eg]).
    congruence.
  - apply existsb_exists in H as [a [Ha Eg]]; exists a; split; [exact Ha|apply Z.eqb_eq; exact Eg].
Qed.

Lemma release_pred_VStr db project r v :
  release_pred db project r (VStr v) = true ->
  exists rel, r = Some (release_id rel) /\ In rel (releases db) /\
              release_org rel = organization_id project /\ version rel = v.
Proof.
  unfold release_pred; destruct r as [rid|]; [|discriminate].
  intros H; apply existsb_exists in H as [rel [Hr E]].
  simpl in E; rewrite !andb_true_iff, !Z.eqb_eq, String.eqb_eq in E.
  destruct E as [[E1 E2] E3]; exists rel; subst; auto.
Qed.

(** X15. [unassigned=True] keeps only issues without any assignee row and
    [unassigned=False] only issues with one (in any project): always on the
    environment-scoped backend, and on the plain backend when no truthy
    [assigned_to] is given (which would take precedence). *)
Theorem unassigned_filter :
  forall adapter db project c s rows s' b,
    NoDup (map group_id (groups db)) ->
    dict_get "unassigned" (kwargs c) = Some (VBool b) ->
    (DjangoSearchBackend_query adapter db project c s = (inr rows, s') /\
     truthy (arg (kwargs c) "assigned_to" VNone) = false) \/
    EnvironmentDjangoSearchBackend_query adapter db project c s = (inr rows, s') ->
    forall g, In g rows ->
      (b = true -> forall a, In a (assignees db) -> as_group a <> group_id g) /\
      (b = false -> exists a, In a (assignees db) /\ as_group a = group_id g).
Proof.
  intros adapter db project c s rows s' b ND Hu [[H Ha]|H] g Hg; apply assignee_isnull_pred_VBool.
  - refine (rows_of_satisfy (fun g => assignee_isnull_pred db (VBool b) g = true)
              _ s rows s' _ H g Hg).
    plain_at 9. intros rows0 s0; unfold bq_assigned; rewrite Ha, (arg_given _ _ _ _ Hu).
    replace (py_eqb (VBool b) (VBool true) || py_eqb (VBool b) (VBool false)) with true
      by (destruct b; reflexivity).
    cbn [fst bind emit ret]; intros g0 Hg0; apply filter_In in Hg0 as [_ Hg0]; exact Hg0.
  - destruct (env_rows_from_base adapter db project c s rows s' ND H) as (s1 & r0 & Hb & Hi).
    apply Hi in Hg.
    eapply (build_applies (base_handlers db project) "unassigned" _ _ (VBool b)
              (fun g => assignee_isnull_pred db (VBool b) g = true) _ _ s1 r0);
      [apply base_handlers_filter|do 4 right; left; reflexivity|exact Hu| |exact Hb|exact Hg].
    intros q0 ex r Hr; apply filter_In in Hr as [_ Hr]; exact Hr.
Qed.

Lemma unassigned_filter_witness :
  (as_group (mkGroupAssignee 1 1 7) =? group_id ex_g3) = false.
Proof.
  assert (Hq : EnvironmentDjangoSearchBackend_query no_matches ex_db ex_project
                 (ex_call None [("unassigned", VBool true)]) (ex_store None)
               = (inr [ex_g3], snd (EnvironmentDjangoSearchBackend_query no_matches ex_db
                                      ex_project (ex_call None [("unassigned", VBool true)])
                                      (ex_store None))))
    by (vm_compute; reflexivity).
  apply Z.eqb_neq.
  exact (proj1 (unassigned_filter no_matches ex_db ex_project
                  (ex_call None [("unassigned", VBool true)]) (ex_store None) [ex_g3]
                  (snd (EnvironmentDjangoSearchBackend_query no_matches ex_db ex_project
                          (ex_call None [("unassigned", VBool true)]) (ex_store None)))
                  true ltac:(vm_compute; repeat constructor; simpl; intuition discriminate)
                  eq_refl (or_intror Hq) ex_g3 (or_introl eq_refl)) eq_refl
           (mkGroupAssignee 1 1 7) (or_introl eq_refl)).
Defined.

(** X16. [first_release=V] with a non-empty version string keeps, on the
    plain backend and on the environment-scoped backend without an
    environment, only issues whose own first release is a release of the
    project's organization with version [V]. *)
Theorem first_release_filter_version :
  forall adapter db project c s rows s' v,
    dict_get "first_release" (kwargs c) = Some (VStr v) -> v <> "" ->
    DjangoSearchBackend_query adapter db project c s = (inr rows, s') \/
    (environment_id c = None /\
     EnvironmentDjangoSearchBackend_query adapter db project c s = (inr rows, s')) ->
    forall g, In g rows ->
      exists rel, group_first_release g = Some (release_id rel) /\ In rel (releases db) /\
                  release_org rel = organization_id project /\ version rel = v.
Proof.
  intros adapter db project c s rows s' v Hv Hne [H|[He H]] g Hg; apply release_pred_VStr.
  - refine (rows_of_satisfy (fun g => first_release_pred db project (VStr v) g = true)
              _ s rows s' _ H g Hg).
    plain_at 7. intros rows0 s0; unfold bq_first_release; rewrite (arg_given _ _ _ _ Hv).
    rewrite (truthy_VStr v Hne); cbn [is_EMPTY fst bind emit ret].
    intros g0 Hg0; apply filter_In in Hg0 as [_ Hg0]; exact Hg0.
  - destruct (env_none_group_rows adapter db project c s rows s' He H)
      as (s2 & r0 & r1 & _ & Hb & Hi).
    apply Hi in Hg.
    eapply (build_applies (group_handlers db project) "first_release" _ _ (VStr v)
              (fun g => first_release_pred db project (VStr v) g = true) _ _ s2 r1);
      [apply group_handlers_filter|left; reflexivity|exact Hv| |exact Hb|exact Hg].
    intros q0 ex r Hr; apply filter_In in Hr as [_ Hr]; exact Hr.
Qed.

Lemma first_release_filter_version_witness :
  exists rel, In rel [mkRelease 5 1 "1.0"] /\ version rel = "1.0".
Proof.
  set (g := mkGroup 4 1 UNRESOLVED "x" "d.py" 0 0 0 1 (Some 5)).
  set (db := mkDB [g] [mkRelease 5 1 "1.0"] [] [] [] [] [] [] [] []).
  assert (Hq : DjangoSearchBackend_query no_matches db ex_project
                 (ex_call None [("first_release", VStr "1.0")]) (ex_store None)
               = (inr [g], snd (DjangoSearchBackend_query no_matches db ex_project
                                  (ex_call None [("first_release", VStr "1.0")])
                                  (ex_store None))))
    by (vm_compute; reflexivity).
  destruct (first_release_filter_version no_matches db ex_project
              (ex_call None [("first_release", VStr "1.0")]) (ex_store None) [g]
              (snd (DjangoSearchBackend_query no_matches db ex_project
                      (ex_call None [("first_release", VStr "1.0")]) (ex_store None)))
              "1.0" eq_refl ltac:(discriminate) (or_introl Hq) g (or_introl eq_refl))
    as (rel & _ & R1 & _ & R4).
  exists rel; split; [exact R1|exact R4].
Defined.


(** X17. On the plain backend [times_seen=n] keeps only issues seen exactly
    [n] times, and [times_seen_lower]/[times_seen_upper] bound the count
    with [>=]/[<=] (or [>]/[<] when the inclusive flag is false); the bounds
    are tested with [is not None], so a bound of 0 is applied too. *)
Theorem plain_times_seen_filters :
  forall adapter db project c s rows s',
    DjangoSearchBackend_query adapter db project c s = (inr rows, s') ->
    forall g, In g rows ->
      (forall n, dict_get "times_seen" (kwargs c) = Some (VInt n) -> times_seen g = n) /\
      (forall n, dict_get "times_seen_lower" (kwargs c) = Some (VInt n) ->
         lower_ok (truthy (arg (kwargs c) "times_seen_lower_inclusive" (VBool true))) n
                  (times_seen g) = true) /\
      (forall n, dict_get "times_seen_upper" (kwargs c) = Some (VInt n) ->
         upper_ok (truthy (arg (kwargs c) "times_seen_upper_inclusive" (VBool true))) n
                  (times_seen g) = true).
Proof.
  intros adapter db project c s rows s' H g Hg; split; [|split]; intros n Hn.
  - apply Z.eqb_eq.
    refine (rows_of_satisfy (fun g => (times_seen g =? n) = true) _ s rows s' _ H g Hg).
    plain_at 2. intros rows0 s0; unfold bq_times_seen; rewrite (arg_given _ _ _ _ Hn).
    cbn [is_none negb fst bind emit ret]; intros g0 Hg0.
    apply filter_kw_In in Hg0 as [_ Hp]; exact (Hp _ _ (or_introl eq_refl)).
  - refine (rows_of_satisfy
              (fun g => lower_ok (truthy (arg (kwargs c) "times_seen_lower_inclusive" (VBool true)))
                                 n (times_seen g) = true) _ s rows s' _ H g Hg).
    plain_at 1. intros rows0 s0; unfold bq_times_seen_range; rewrite (arg_given _ _ _ _ Hn).
    cbn [is_none negb orb fst bind emit ret]; intros g0 Hg0.
    apply filter_kw_In in Hg0 as [_ Hp].
    pose proof (Hp _ _ (range_params_lower "times_seen" (fun v => negb (is_none v)) (VInt n)
                          (arg (kwargs c) "times_seen_lower_inclusive" (VBool true))
                          (arg (kwargs c) "times_seen_upper" VNone)
                          (arg (kwargs c) "times_seen_upper_inclusive" (VBool true)) eq_refl)) as E.
    unfold lower_ok; destruct (truthy (arg (kwargs c) "times_seen_lower_inclusive" (VBool true)));
      exact E.
  - refine (rows_of_satisfy
              (fun g => upper_ok (truthy (arg (kwargs c) "times_seen_upper_inclusive" (VBool true)))
                                 n (times_seen g) = true) _ s rows s' _ H g Hg).
    plain_at 1. intros rows0 s0; unfold bq_times_seen_range; rewrite (arg_given _ _ _ _ Hn).
    cbn [is_none negb orb fst bind emit ret]; rewrite orb_true_r; cbn [fst bind emit ret].
    intros g0 Hg0; apply filter_kw_In in Hg0 as [_ Hp].
    pose proof (Hp _ _ (range_params_upper "times_seen" (fun v => negb (is_none v))
                          (arg (kwargs c) "times_seen_lower" VNone)
                          (arg (kwargs c) "times_seen_lower_inclusive" (VBool true)) (VInt n)
                          (arg (kwargs c) "times_seen_upper_inclusive" (VBool true)) eq_refl)) as E.
    unfold upper_ok; destruct (truthy (arg (kwargs c) "times_seen_upper_inclusive" (VBool true)));
      exact E.
Qed.

Lemma plain_times_seen_filters_witness :
  lower_ok false 0 (times_seen ex_g3) = true.
Proof.
  assert (Hq : DjangoSearchBackend_query no_matches ex_db ex_project
                 (ex_call None [("times_seen_lower", VInt 0);
                                ("times_seen_lower_inclusive", VBool false)]) (ex_store None)
               = (inr [ex_g1; ex_g3],
                  snd (DjangoSearchBackend_query no_matches ex_db ex_project
                         (ex_call None [("times_seen_lower", VInt 0);
                                        ("times_seen_lower_inclusive", VBool false)])
                         (ex_store None))))
    by (vm_compute; reflexivity).
  exact (proj1 (proj2 (plain_times_seen_filters no_matches ex_db ex_project
                         (ex_call None [("times_seen_lower", VInt 0);
                                        ("times_seen_lower_inclusive", VBool false)])
                         (ex_store None) [ex_g1; ex_g3] _ Hq ex_g3
                         (or_intror (or_introl eq_refl)))) 0 eq_refl).
Defined.

Lemma keeps_bind {A B} (m : M A) (k : A -> M B) :
  keeps_tags m -> (forall a, keeps_tags (k a)) -> keeps_tags (bind m k).
Proof.
  intros Hm Hk s; unfold bind; specialize (Hm s).
  destruct (m s) as [[e|a] s1]; simpl in *; [exact Hm|rewrite Hk; exact Hm].
Qed.

Lemma keeps_ret {A} (a : A) : keeps_tags (ret a).
Proof. intros s; reflexivity. Qed.

Lemma keeps_raise {A} e : keeps_tags (raise (A:=A) e).
Proof. intros s; reflexivity. Qed.

Lemma keeps_early_return {A} rows : keeps_tags (early_return (A:=A) rows).
Proof. intros s; reflexivity. Qed.

Lemma keeps_emit o : keeps_tags (emit o).
Proof. intros s; reflexivity. Qed.

Lemma keeps_get_tags : keeps_tags get_tags.
Proof. intros s; reflexivity. Qed.

Lemma keeps_assert b : keeps_tags (assert b).
Proof. intros s; unfold assert; destruct b; reflexivity. Qed.

Lemma keeps_build {R} (l : registry R) queryset parameters :
  keeps_tags (build l queryset parameters).
Proof. intros s; apply build_tags. Qed.

Lemma keeps_function_body m : keeps_tags m -> keeps_tags (function_body m).
Proof.
  intros H s; unfold function_body; specialize (H s).
  destruct (m s) as [[[e|r]|r] s1]; exact H.
Qed.

Lemma keeps_then (f g : list Group -> M (list Group)) :
  (forall r, keeps_tags (f r)) -> (forall r, keeps_tags (g r)) -> forall r, keeps_tags ((f >=> g) r).
Proof. intros Hf Hg r; unfold then_; apply keeps_bind; auto. Qed.

Ltac keeps_tac :=
  cbv zeta;
  repeat first
    [ apply keeps_bind; [|intros]
    | apply keeps_ret | apply keeps_raise | apply keeps_early_return | apply keeps_emit
    | apply keeps_get_tags | apply keeps_assert | apply keeps_build
    | apply keeps_function_body
    | progress cbv zeta
    | match goal with
      | |- keeps_tags (if ?b then _ else _) => destruct b
      | |- keeps_tags (match ?x with _ => _ end) => destruct x
      end ].

Lemma plain_keeps_tags adapter db project c :
  keeps_tags (DjangoSearchBackend_query adapter db project c).
Proof.
  unfold DjangoSearchBackend_query, DjangoSearchBackend_build_queryset.
  apply keeps_function_body.
  repeat apply keeps_then; intros r;
    unfold bq_query, bq_status, bq_bookmarked_by, bq_assigned, bq_subscribed_by,
      bq_first_release, bq_tags, bq_datetime_range, bq_times_seen, bq_times_seen_range, bq_date;
    keeps_tac.
Qed.

Lemma env_none_keeps_tags adapter db project c :
  environment_id c = None -> keeps_tags (EnvironmentDjangoSearchBackend_query adapter db project c).
Proof.
  intros He; unfold EnvironmentDjangoSearchBackend_query; rewrite He; keeps_tac.
Qed.

(** X18. The caller's [tags] mapping is left as it was by every call of
    the plain backend and by every call of the environment-scoped backend
    without an environment, whether it returns or raises: only the
    environment path pops from it. *)
Theorem tags_untouched_without_environment :
  forall adapter db project c s,
    caller_tags (snd (DjangoSearchBackend_query adapter db project c s)) = caller_tags s /\
    (environment_id c = None ->
     caller_tags (snd (EnvironmentDjangoSearchBackend_query adapter db project c s))
       = caller_tags s).
Proof.
  intros adapter db project c s; split.
  - apply plain_keeps_tags.
  - intros He; apply (env_none_keeps_tags adapter db project c He).
Qed.

Lemma tags_untouched_without_environment_witness :
  caller_tags (snd (EnvironmentDjangoSearchBackend_query no_matches ex_db ex_project
                      (ex_call None []) (ex_store (Some [("environment", VStr "production")]))))
  = Some [("environment", VStr "production")].
Proof.
  exact (proj2 (tags_untouched_without_environment no_matches ex_db ex_project (ex_call None [])
                  (ex_store (Some [("environment", VStr "production")]))) eq_refl).
Defined.

Lemma scalar_lower_In {R} `{Model R} name field (col : R -> Z) (mk : Z -> pyval) T b q r :
  In field ["first_seen"; "last_seen"; "active_at"; "times_seen"] ->
  mk = VDate \/ mk = VInt -> (forall r, field_value r field = Some (mk (col r))) ->
  In r (fst (scalar_condition name field "gt") q (mk T) [b]) ->
  lower_ok (truthy b) T (col r) = true.
Proof.
  intros Hf Hmk Hcol Hr.
  rewrite (proj1 (scalar_condition_ops field col mk name q T b Hf Hmk Hcol)) in Hr.
  apply filter_In in Hr as [_ Hr]; exact Hr.
Qed.

Lemma scalar_upper_In {R} `{Model R} name field (col : R -> Z) (mk : Z -> pyval) T b q r :
  In field ["first_seen"; "last_seen"; "active_at"; "times_seen"] ->
  mk = VDate \/ mk = VInt -> (forall r, field_value r field = Some (mk (col r))) ->
  In r (fst (scalar_condition name field "lt") q (mk T) [b]) ->
  upper_ok (truthy b) T (col r) = true.
Proof.
  intros Hf Hmk Hcol Hr.
  rewrite (proj2 (scalar_condition_ops field col mk name q T b Hf Hmk Hcol)) in Hr.
  apply filter_In in Hr as [_ Hr]; exact Hr.
Qed.

Lemma extras_result_one name kw b :
  dict_get name kw = Some b -> extras_result [name] kw = inr [b].
Proof. intros E; unfold extras_result; simpl; rewrite E; reflexivity. Qed.

(** X19. In the environment-scoped backend, [active_at_from] and
    [active_at_to] bound the issue's own [active_at] on both paths; without
    an environment, the [age], [last_seen] and [times_seen] filters test the
    issue's own first and last time seen and count (each bound with the
    comparison its inclusive flag selects). *)
Theorem env_scalar_filters_on_group :
  forall adapter db project c s rows s',
    NoDup (map group_id (groups db)) ->
    EnvironmentDjangoSearchBackend_query adapter db project c s = (inr rows, s') ->
    forall g, In g rows ->
      (forall T b, dict_get "active_at_from" (kwargs c) = Some (VDate T) ->
         dict_get "active_at_from_inclusive" (kwargs c) = Some b ->
         lower_ok (truthy b) T (active_at g) = true) /\
      (forall T b, dict_get "active_at_to" (kwargs c) = Some (VDate T) ->
         dict_get "active_at_to_inclusive" (kwargs c) = Some b ->
         upper_ok (truthy b) T (active_at g) = true) /\
      (environment_id c = None ->
        (forall name (col : Group -> Z) mk T b,
           In (name, col, mk) [("age_from", first_seen, VDate);
                               ("last_seen_from", last_seen, VDate);
                               ("times_seen_lower", times_seen, VInt)] ->
           dict_get name (kwargs c) = Some (mk T) ->
           dict_get (name ++ "_inclusive") (kwargs c) = Some b ->
           lower_ok (truthy b) T (col g) = true) /\
        (forall name (col : Group -> Z) mk T b,
           In (name, col, mk) [("age_to", first_seen, VDate);
                               ("last_seen_to", last_seen, VDate);
                               ("times_seen_upper", times_seen, VInt)] ->
           dict_get name (kwargs c) = Some (mk T) ->
           dict_get (name ++ "_inclusive") (kwargs c) = Some b ->
           upper_ok (truthy b) T (col g) = true)).
Proof.
  intros adapter db project c s rows s' ND H g Hg.
  destruct (env_rows_from_base adapter db project c s rows s' ND H) as (s1 & r0 & Hb & Hi).
  split; [|split].
  - intros T b HT Hb'.
    eapply (build_applies_vs (base_handlers db project) "active_at_from" _ _ (VDate T) [b]
              (fun g => lower_ok (truthy b) T (active_at g) = true) _ _ s1 r0);
      [apply base_handlers_filter|do 6 right; left; reflexivity|exact HT
      |exact (extras_result_one _ _ _ Hb')| |exact Hb|exact (Hi g Hg)].
    intros q r Hr; exact (scalar_lower_In "active_at_from" "active_at" active_at VDate T b q r
                            ltac:(simpl; tauto) (or_introl eq_refl) (fun r => eq_refl) Hr).
  - intros T b HT Hb'.
    eapply (build_applies_vs (base_handlers db project) "active_at_to" _ _ (VDate T) [b]
              (fun g => upper_ok (truthy b) T (active_at g) = true) _ _ s1 r0);
      [apply base_handlers_filter|do 7 right; left; reflexivity|exact HT
      |exact (extras_result_one _ _ _ Hb')| |exact Hb|exact (Hi g Hg)].
    intros q r Hr; exact (scalar_upper_In "active_at_to" "active_at" active_at VDate T b q r
                            ltac:(simpl; tauto) (or_introl eq_refl) (fun r => eq_refl) Hr).
  - intros He.
    destruct (env_none_group_rows adapter db project c s rows s' He H)
      as (s2 & r0' & r1 & _ & Hg1 & Hi1).
    apply Hi1 in Hg.
    split.
    + intros name col mk T b Hin Hv Hb'.
      destruct Hin as [E|[E|[E|[]]]]; inversion E; subst; clear E; simpl in Hb'.
      * eapply (build_applies_vs (group_handlers db project) "age_from" _ _ (VDate T) [b]
                  (fun g => lower_ok (truthy b) T (first_seen g) = true) _ _ s2 r1);
          [apply group_handlers_filter|do 1 right; left; reflexivity|exact Hv
          |exact (extras_result_one _ _ _ Hb')| |exact Hg1|exact Hg].
        intros q r Hr; exact (scalar_lower_In "age_from" "first_seen" first_seen VDate T b q r
                                ltac:(simpl; tauto) (or_introl eq_refl) (fun r => eq_refl) Hr).
      * eapply (build_applies_vs (group_handlers db project) "last_seen_from" _ _ (VDate T) [b]
                  (fun g => lower_ok (truthy b) T (last_seen g) = true) _ _ s2 r1);
          [apply group_handlers_filter|do 3 right; left; reflexivity|exact Hv
          |exact (extras_result_one _ _ _ Hb')| |exact Hg1|exact Hg].
        intros q r Hr; exact (scalar_lower_In "last_seen_from" "last_seen" last_seen VDate T b q r
                                ltac:(simpl; tauto) (or_introl eq_refl) (fun r => eq_refl) Hr).
      * eapply (build_applies_vs (group_handlers db project) "times_seen_lower" _ _ (VInt T) [b]
                  (fun g => lower_ok (truthy b) T (times_seen g) = true) _ _ s2 r1);
          [apply group_handlers_filter|do 6 right; left; reflexivity|exact Hv
          |exact (extras_result_one _ _ _ Hb')| |exact Hg1|exact Hg].
        intros q r Hr; exact (scalar_lower_In "times_seen_lower" "times_seen" times_seen VInt T b q r
                                ltac:(simpl; tauto) (or_intror eq_refl) (fun r => eq_refl) Hr).
    + intros name col mk T b Hin Hv Hb'.
      destruct Hin as [E|[E|[E|[]]]]; inversion E; subst; clear E; simpl in Hb'.
      * eapply (build_applies_vs (group_handlers db project) "age_to" _ _ (VDate T) [b]
                  (fun g => upper_ok (truthy b) T (first_seen g) = true) _ _ s2 r1);
          [apply group_handlers_filter|do 2 right; left; reflexivity|exact Hv
          |exact (extras_result_one _ _ _ Hb')| |exact Hg1|exact Hg].
        intros q r Hr; exact (scalar_upper_In "age_to" "first_seen" first_seen VDate T b q r
                                ltac:(simpl; tauto) (or_introl eq_refl) (fun r => eq_refl) Hr).
      * eapply (build_applies_vs (group_handlers db project) "last_seen_to" _ _ (VDate T) [b]
                  (fun g => upper_ok (truthy b) T (last_seen g) = true) _ _ s2 r1);
          [apply group_handlers_filter|do 4 right; left; reflexivity|exact Hv
          |exact (extras_result_one _ _ _ Hb')| |exact Hg1|exact Hg].
        intros q r Hr; exact (scalar_upper_In "last_seen_to" "last_seen" last_seen VDate T b q r
                                ltac:(simpl; tauto) (or_introl eq_refl) (fun r => eq_refl) Hr).
      * eapply (build_applies_vs (group_handlers db project) "times_seen_upper" _ _ (VInt T) [b]
                  (fun g => upper_ok (truthy b) T (times_seen g) = true) _ _ s2 r1);
          [apply group_handlers_filter|do 7 right; left; reflexivity|exact Hv
          |exact (extras_result_one _ _ _ Hb')| |exact Hg1|exact Hg].
        intros q r Hr; exact (scalar_upper_In "times_seen_upper" "times_seen" times_seen VInt T b q r
                                ltac:(simpl; tauto) (or_intror eq_refl) (fun r => eq_refl) Hr).
Qed.

Lemma env_scalar_filters_on_group_witness :
  lower_ok false 100 (first_seen ex_g3) = true.
Proof.
  assert (Hq : EnvironmentDjangoSearchBackend_query no_matches ex_db ex_project
                 (ex_call None [("age_from", VDate 100); ("age_from_inclusive", VBool false)])
                 (ex_store None)
               = (inr [ex_g3],
                  snd (EnvironmentDjangoSearchBackend_query no_matches ex_db ex_project
                         (ex_call None [("age_from", VDate 100);
                                        ("age_from_inclusive", VBool false)])
                         (ex_store None))))
    by (vm_compute; reflexivity).
  exact (proj1 (proj2 (proj2 (env_scalar_filters_on_group no_matches ex_db ex_project
                                (ex_call None [("age_from", VDate 100);
                                               ("age_from_inclusive", VBool false)])
                                (ex_store None) [ex_g3] _
                                ltac:(vm_compute; repeat constructor; simpl; intuition discriminate)
                                Hq ex_g3 (or_introl eq_refl))) eq_refl)
           "age_from" first_seen VDate 100 (VBool false) (or_introl eq_refl) eq_refl eq_refl).
Defined.
